(** * ProGamerGUI Builder: a shallow embedding of the code generators,
      the state manager and the project manager, with the properties of the
      design document checked against it.

    Python values are embedded as a small universe [pyval]; a Python [str]
    is a [string] whose characters are read as code points below 256.
    Exceptions are explicit: a function that can raise returns an
    [outcome].  Methods of [StateManager] thread the object's fields as a
    record and return it next to their outcome, because in Python the
    mutations done before a [raise] stay. *)

From Stdlib Require Import ZArith NArith String Ascii List Bool Lia.
From Stdlib Require Import Decimal DecimalString DecimalZ DecimalPos.
From stdpp Require Import base option list strings gmap sorting.

Set Warnings "-register-all".
Local Open Scope string_scope.
Local Open Scope list_scope.
Local Open Scope Z_scope.

(** ** Python values and built-ins *)

Module Py.

Inductive exn : Type :=
| TypeError | AttributeError | KeyError | ValueError | IndexError | OSError.

Inductive outcome (A : Type) : Type :=
| Ret (a : A)
| Raise (e : exn).
Arguments Ret {A} a.
Arguments Raise {A} e.

#[export] Instance outcome_ret : MRet outcome := fun A a => Ret a.
#[export] Instance outcome_bind : MBind outcome := fun A B f m =>
  match m with Ret a => f a | Raise e => Raise e end.

#[export] Instance outcome_fmap : FMap outcome := fun A B f m =>
  match m with Ret a => Ret (f a) | Raise e => Raise e end.

Definition returns {A} (m : outcome A) : bool :=
  match m with Ret _ => true | Raise _ => false end.

(** JSON-shaped values: what [json.load] yields and what the program
    builds with dict and list literals.  A dict keeps insertion order; its
    keys are hashable values ([str] in every JSON document).  A float is a
    finite one, [m * 2^e], and carries the text Python prints for it: the
    embedded functions compare and print floats and never compute with
    them. *)
Inductive pyval : Type :=
| PNone
| PBool (b : bool)
| PInt (z : Z)
| PFloat (m e : Z) (text : string)
| PStr (s : string)
| PList (l : list pyval)
| PDict (d : list (pyval * pyval)).

(** *** Characters and strings *)

Definition code (c : ascii) : N := N_of_ascii c.

Definition in_range (lo hi c : ascii) : bool :=
  (code lo <=? code c)%N && (code c <=? code hi)%N.

(** [str.isdigit] for one character: the ASCII digits and the superscripts
    U+00B2, U+00B3, U+00B9. *)
Definition isdigit (c : ascii) : bool :=
  in_range "0" "9" c
  || (code c =? 178)%N || (code c =? 179)%N || (code c =? 185)%N.

(** Whitespace as [str.strip()] sees it. *)
Definition isspace (c : ascii) : bool :=
  ((9 <=? code c)%N && (code c <=? 13)%N)
  || ((28 <=? code c)%N && (code c <=? 32)%N)
  || (code c =? 133)%N || (code c =? 160)%N.

Definition lower_char (c : ascii) : ascii :=
  if in_range "A" "Z" c
     || ((192 <=? code c)%N && (code c <=? 222)%N && negb (code c =? 215)%N)
  then ascii_of_N (code c + 32) else c.

Fixpoint str_map (f : ascii -> ascii) (s : string) : string :=
  match s with
  | EmptyString => EmptyString
  | String c r => String (f c) (str_map f r)
  end.

Definition lower (s : string) : string := str_map lower_char s.

Fixpoint str_forallb (p : ascii -> bool) (s : string) : bool :=
  match s with
  | EmptyString => true
  | String c r => p c && str_forallb p r
  end.

(** [s.replace(c, by)] for a one-character pattern. *)
Fixpoint replace_char (c : ascii) (by_ : string) (s : string) : string :=
  match s with
  | EmptyString => EmptyString
  | String a r =>
      if Ascii.eqb a c then by_ +:+ replace_char c by_ r
      else String a (replace_char c by_ r)
  end.

(** [s.split(sep)] for a one-character separator: never empty. *)
Fixpoint split (sep : ascii) (s : string) : list string :=
  match s with
  | EmptyString => [EmptyString]
  | String a r =>
      if Ascii.eqb a sep then EmptyString :: split sep r
      else match split sep r with
           | [] => [String a EmptyString]
           | x :: xs => String a x :: xs
           end
  end.

(** [sep.join(parts)] *)
Fixpoint join (sep : string) (parts : list string) : string :=
  match parts with
  | [] => EmptyString
  | [x] => x
  | x :: xs => x +:+ sep +:+ join sep xs
  end.

Fixpoint lstrip (s : string) : string :=
  match s with
  | EmptyString => EmptyString
  | String a r => if isspace a then lstrip r else s
  end.

Fixpoint rstrip (s : string) : string :=
  match s with
  | EmptyString => EmptyString
  | String a r =>
      match rstrip r with
      | EmptyString => if isspace a then EmptyString else String a EmptyString
      | r' => String a r'
      end
  end.

Definition strip (s : string) : string := rstrip (lstrip s).

Definition startswith (s p : string) : bool := String.prefix p s.

(** [sub in s] on strings. *)
Fixpoint contains_str (sub s : string) : bool :=
  String.prefix sub s ||
  match s with
  | EmptyString => false
  | String _ r => contains_str sub r
  end.

(** *** Integers as text *)

(** [str(n)] and [f"{n}"] for an [int]. *)
Definition str_of_int (z : Z) : string := NilZero.string_of_int (Z.to_int z).

Definition is_ascii_digit (c : ascii) : bool := in_range "0" "9" c.

Fixpoint digits_value (acc : Z) (s : string) : Z :=
  match s with
  | EmptyString => acc
  | String c r => digits_value (10 * acc + Z.of_N (code c - 48)) r
  end.

(** The digit part of an [int()] literal: digits, with single underscores
    allowed between two digits. *)
Fixpoint int_body_ok (prev_digit : bool) (s : string) : bool :=
  match s with
  | EmptyString => prev_digit
  | String c r =>
      if is_ascii_digit c then int_body_ok true r
      else if Ascii.eqb c "_" then prev_digit && int_body_ok false r
      else false
  end.

Fixpoint drop_underscores (s : string) : string :=
  match s with
  | EmptyString => EmptyString
  | String c r =>
      if Ascii.eqb c "_" then drop_underscores r
      else String c (drop_underscores r)
  end.

(** [sys.get_int_max_str_digits()]: [int()] refuses a literal of more
    digits. *)
Definition int_max_str_digits : Z := 4300.

Definition int_of_unsigned (s : string) : outcome Z :=
  if int_body_ok false s then
    let digits := drop_underscores s in
    if int_max_str_digits <? Z.of_nat (String.length digits)
    then Raise ValueError
    else Ret (digits_value 0 digits)
  else Raise ValueError.

(** Whitespace as [int()] skips it around a literal: the ASCII blanks, and
    U+0085 and U+00A0, which it reads as spaces.  The separators U+001C to
    U+001F, which [str.strip()] removes, are not among them. *)
Definition int_space (c : ascii) : bool :=
  ((9 <=? code c)%N && (code c <=? 13)%N) || (code c =? 32)%N
  || (code c =? 133)%N || (code c =? 160)%N.

Fixpoint int_lstrip (s : string) : string :=
  match s with
  | EmptyString => EmptyString
  | String a r => if int_space a then int_lstrip r else s
  end.

Fixpoint int_rstrip (s : string) : string :=
  match s with
  | EmptyString => EmptyString
  | String a r =>
      match int_rstrip r with
      | EmptyString => if int_space a then EmptyString else String a EmptyString
      | r' => String a r'
      end
  end.

(** [int(s)] for a [str]: surrounding whitespace, an optional sign, then
    decimal digits, at most [int_max_str_digits] of them; anything else is
    a [ValueError]. *)
Definition int_of_str (s : string) : outcome Z :=
  match int_rstrip (int_lstrip s) with
  | String "-" r => n ← int_of_unsigned r; Ret (- n)
  | String "+" r => int_of_unsigned r
  | r => int_of_unsigned r
  end.

(** *** Operations on values *)

(** [m * 2^e = m' * 2^e'] *)
Definition float_eqb (m e m' e' : Z) : bool :=
  let low := Z.min e e' in
  m * 2 ^ (e - low) =? m' * 2 ^ (e' - low).

(** [a == b]; two dicts are equal when they have the same keys with equal
    values, in any order. *)
Fixpoint py_eqb (a b : pyval) {struct a} : bool :=
  match a, b with
  | PNone, PNone => true
  | PBool x, PBool y => Bool.eqb x y
  | PBool x, PInt y => (if x then 1 else 0) =? y
  | PInt x, PBool y => x =? (if y then 1 else 0)
  | PInt x, PInt y => x =? y
  | PFloat m e _, PFloat m' e' _ => float_eqb m e m' e'
  | PFloat m e _, PInt y | PInt y, PFloat m e _ => float_eqb m e y 0
  | PFloat m e _, PBool y | PBool y, PFloat m e _ =>
      float_eqb m e (if y then 1 else 0) 0
  | PStr x, PStr y => String.eqb x y
  | PList x, PList y =>
      (fix go (x y : list pyval) {struct x} : bool :=
         match x, y with
         | [], [] => true
         | u :: x', v :: y' => py_eqb u v && go x' y'
         | _, _ => false
         end) x y
  | PDict x, PDict y =>
      (length x =? length y)%nat &&
      (fix go (x : list (pyval * pyval)) {struct x} : bool :=
         match x with
         | [] => true
         | (k, u) :: x' =>
             (fix look (y : list (pyval * pyval)) {struct y} : bool :=
                match y with
                | [] => false
                | (k', v) :: y' => if py_eqb k k' then py_eqb u v else look y'
                end) y && go x'
         end) x
  | _, _ => false
  end.

(** [bool(v)] *)
Definition truthy (v : pyval) : bool :=
  match v with
  | PNone => false
  | PBool b => b
  | PInt z => negb (z =? 0)
  | PFloat m _ _ => negb (m =? 0)
  | PStr s => negb (String.eqb s "")
  | PList l => match l with [] => false | _ => true end
  | PDict d => match d with [] => false | _ => true end
  end.

Definition hashable (v : pyval) : bool :=
  match v with PList _ | PDict _ => false | _ => true end.

(** A dict with values in [V]; keys compare with [==]. *)
Definition kdict (V : Type) := list (pyval * V).

Section dicts.
Context {V : Type}.

Fixpoint kget (k : pyval) (d : kdict V) : option V :=
  match d with
  | [] => None
  | (k', v) :: r => if py_eqb k k' then Some v else kget k r
  end.

Definition khas (k : pyval) (d : kdict V) : bool :=
  match kget k d with Some _ => true | None => false end.

(** An existing key keeps its place, a new one goes last. *)
Fixpoint kset_raw (k : pyval) (v : V) (d : kdict V) : kdict V :=
  match d with
  | [] => [(k, v)]
  | (k', v') :: r =>
      if py_eqb k k' then (k', v) :: r else (k', v') :: kset_raw k v r
  end.

(** [d[k] = v]: a list or dict as key is a [TypeError]. *)
Definition kset (k : pyval) (v : V) (d : kdict V) : outcome (kdict V) :=
  if hashable k then Ret (kset_raw k v d) else Raise TypeError.

(** [del d[k]] for a key that is there *)
Fixpoint kdel (k : pyval) (d : kdict V) : kdict V :=
  match d with
  | [] => []
  | (k', v') :: r => if py_eqb k k' then r else (k', v') :: kdel k r
  end.

(** [d[k]] *)
Definition kgetitem (k : pyval) (d : kdict V) : outcome V :=
  if hashable k then
    match kget k d with Some v => Ret v | None => Raise KeyError end
  else Raise TypeError.

(** [k in d] hashes the key first. *)
Definition kin (k : pyval) (d : kdict V) : outcome bool :=
  if hashable k then Ret (khas k d) else Raise TypeError.

(** [d.update(u)] for a dict [u] *)
Definition kupdate (d u : kdict V) : kdict V :=
  fold_left (fun acc kv => kset_raw (fst kv) (snd kv) acc) u d.

End dicts.

Definition dict := kdict pyval.

(** The same with a [str] key. *)
Definition dget (k : string) (d : dict) : option pyval := kget (PStr k) d.
Definition dhas (k : string) (d : dict) : bool := khas (PStr k) d.

(** A dict from [str] to [str], as [generate_project] returns. *)
Fixpoint sset (k v : string) (d : list (string * string))
  : list (string * string) :=
  match d with
  | [] => [(k, v)]
  | (k', v') :: r =>
      if String.eqb k k' then (k', v) :: r else (k', v') :: sset k v r
  end.

Definition supdate (d u : list (string * string)) : list (string * string) :=
  fold_left (fun acc kv => sset (fst kv) (snd kv) acc) u d.

Definition chars (s : string) : list pyval :=
  map (fun c => PStr (String c EmptyString)) (list_ascii_of_string s).

(** [for x in v] *)
Definition py_iter (v : pyval) : outcome (list pyval) :=
  match v with
  | PList l => Ret l
  | PDict d => Ret (map fst d)
  | PStr s => Ret (chars s)
  | _ => Raise TypeError
  end.

(** [v.get(k, default)]: only a dict has [get]. *)
Definition py_get (v : pyval) (k : string) (default : pyval) : outcome pyval :=
  match v with
  | PDict d => Ret (match dget k d with Some x => x | None => default end)
  | _ => Raise AttributeError
  end.

(** [k in v] for a [str] key *)
Definition py_in (k : string) (v : pyval) : outcome bool :=
  match v with
  | PDict d => Ret (dhas k d)
  | PList l => Ret (existsb (py_eqb (PStr k)) l)
  | PStr s => Ret (contains_str k s)
  | _ => Raise TypeError
  end.

(** [v[k]] for a [str] key *)
Definition py_getitem (v : pyval) (k : string) : outcome pyval :=
  match v with
  | PDict d => match dget k d with Some x => Ret x | None => Raise KeyError end
  | _ => Raise TypeError
  end.

(** [v[k] = x]: a dict takes any hashable key, a list an index in range
    (a negative one counts from the end). *)
Definition list_setitem (l : list pyval) (i : Z) (x : pyval) : outcome pyval :=
  let i := if i <? 0 then i + Z.of_nat (length l) else i in
  if (0 <=? i) && (i <? Z.of_nat (length l))
  then Ret (PList (<[Z.to_nat i := x]> l))
  else Raise IndexError.

Definition py_setitem (v k x : pyval) : outcome pyval :=
  match v with
  | PDict d =>
      if hashable k then Ret (PDict (kset_raw k x d)) else Raise TypeError
  | PList l =>
      match k with
      | PInt i => list_setitem l i x
      | PBool b => list_setitem l (if b then 1 else 0) x
      | _ => Raise TypeError
      end
  | _ => Raise TypeError
  end.

(** [x in lits] for a list literal of strings *)
Definition in_strs (x : pyval) (lits : list string) : bool :=
  existsb (fun s => py_eqb x (PStr s)) lits.

(** A [str] method called on [v]: [AttributeError] on anything else. *)
Definition as_str (v : pyval) : outcome string :=
  match v with PStr s => Ret s | _ => Raise AttributeError end.

(** *** Text of a value: [repr] and [str] *)

Definition DQ : string := String "034" EmptyString.
Definition NL : string := String "010" EmptyString.
Definition BSL : string := String "092" EmptyString.

Definition hex_digit (n : N) : ascii :=
  if (n <? 10)%N then ascii_of_N (48 + n) else ascii_of_N (87 + n).

Definition printable (c : ascii) : bool :=
  ((32 <=? code c)%N && (code c <=? 126)%N)
  || ((161 <=? code c)%N && negb (code c =? 173)%N).

Definition repr_char (quote c : ascii) : string :=
  if Ascii.eqb c quote || Ascii.eqb c "092" then BSL +:+ String c EmptyString
  else if (code c =? 9)%N then BSL +:+ "t"
  else if (code c =? 10)%N then BSL +:+ "n"
  else if (code c =? 13)%N then BSL +:+ "r"
  else if printable c then String c EmptyString
  else BSL +:+ "x" +:+ String (hex_digit (code c / 16)) EmptyString
                   +:+ String (hex_digit (code c mod 16)) EmptyString.

Fixpoint str_has (c : ascii) (s : string) : bool :=
  match s with
  | EmptyString => false
  | String a r => Ascii.eqb a c || str_has c r
  end.

Fixpoint str_concat_map (f : ascii -> string) (s : string) : string :=
  match s with
  | EmptyString => EmptyString
  | String a r => f a +:+ str_concat_map f r
  end.

(** [repr(s)] of a [str]: single quotes unless the text has one and has no
    double quote. *)
Definition repr_str (s : string) : string :=
  let quote : ascii :=
    if str_has "039" s && negb (str_has "034" s) then "034"%char
    else "039"%char in
  String quote EmptyString +:+ str_concat_map (repr_char quote) s
    +:+ String quote EmptyString.

Fixpoint py_repr (v : pyval) : string :=
  match v with
  | PNone => "None"
  | PBool b => if b then "True" else "False"
  | PInt z => str_of_int z
  | PFloat _ _ text => text
  | PStr s => repr_str s
  | PList l => "[" +:+ join ", " (map py_repr l) +:+ "]"
  | PDict d =>
      "{" +:+ join ", " (map (fun '(k, x) => py_repr k +:+ ": " +:+ py_repr x) d)
          +:+ "}"
  end.

(** [str(v)], which is what an f-string field [{v}] inserts. *)
Definition py_str (v : pyval) : string :=
  match v with PStr s => s | _ => py_repr v end.

(** [v.copy()]: a dict or a list has it. *)
Definition py_copy (v : pyval) : outcome pyval :=
  match v with
  | PDict _ | PList _ => Ret v
  | _ => Raise AttributeError
  end.

(** [d.update(u)] mutates [d] in place: the result is the dict as far as it
    got, and the exception that stopped it, if any.  An argument that is
    not a dict is read as a sequence of key/value pairs. *)
Fixpoint update_pairs (d : dict) (items : list pyval) : dict * option exn :=
  match items with
  | [] => (d, None)
  | item :: r =>
      match py_iter item with
      | Raise _ => (d, Some TypeError)
      | Ret [k; v] =>
          if hashable k then update_pairs (kset_raw k v d) r
          else (d, Some TypeError)
      | Ret _ => (d, Some ValueError)
      end
  end.

Definition dict_update (d : dict) (u : pyval) : dict * option exn :=
  match u with
  | PDict u' => (kupdate d u', None)
  | _ =>
      match py_iter u with
      | Ret items => update_pairs d items
      | Raise _ => (d, Some TypeError)
      end
  end.

(** A JSON object written with its [str] keys. *)
Definition obj (fields : list (string * pyval)) : pyval :=
  PDict (map (fun kv => (PStr (fst kv), snd kv)) fields).

(** [max(l)] of a list of integers *)
Definition py_max (l : list Z) : outcome Z :=
  match l with
  | [] => Raise ValueError
  | x :: r => Ret (fold_left Z.max r x)
  end.

(** A Python [set], as the list of its distinct elements.  The order in
    which a set is iterated is not fixed by the language (it changes with
    the hash seed), so every iteration of a set goes through an ordering
    function given from outside. *)
Definition set_add_val (x : pyval) (s : list pyval) : list pyval :=
  if existsb (py_eqb x) s then s else s ++ [x].

Definition set_add_str (x : string) (s : list string) : list string :=
  if existsb (String.eqb x) s then s else s ++ [x].

(** [sorted] on strings: code point order. *)
Definition str_le (a b : string) : Prop := String.leb a b = true.

#[export] Instance str_le_dec a b : Decision (str_le a b) :=
  decide (String.leb a b = true).

Definition sorted_strs (l : list string) : list string := merge_sort str_le l.

(** [v[i]] for an [int] index that is not negative *)
Definition py_index (v : pyval) (i : nat) : outcome pyval :=
  match v with
  | PList l => match l !! i with Some x => Ret x | None => Raise IndexError end
  | PStr s =>
      match list_ascii_of_string s !! i with
      | Some c => Ret (PStr (String c EmptyString))
      | None => Raise IndexError
      end
  | PDict _ => Raise KeyError
  | _ => Raise TypeError
  end.

(** [any(p(x) for x in l)]: stops at the first element that satisfies [p],
    so a later element that would raise is not looked at. *)
Fixpoint any_of {A} (p : A -> outcome bool) (l : list A) : outcome bool :=
  match l with
  | [] => Ret false
  | x :: r => b ← p x; if b : bool then Ret true else any_of p r
  end.

(** Statements that mutate an object of type [S]: they end with a value or
    an exception, and in both cases leave the object as changed so far. *)
Definition SM (S A : Type) : Type := S -> outcome A * S.

#[export] Instance SM_ret S : MRet (SM S) := fun A a s => (Ret a, s).
#[export] Instance SM_bind S : MBind (SM S) := fun A B f m s =>
  match m s with
  | (Ret a, s') => f a s'
  | (Raise e, s') => (Raise e, s')
  end.

Definition lift {S A} (o : outcome A) : SM S A := fun s => (o, s).
Definition read {S A} (f : S -> A) : SM S A := fun s => (Ret (f s), s).
Definition write {S} (f : S -> S) : SM S unit := fun s => (Ret tt, f s).

(** An expression of the object itself that can raise, and an in-place
    change that can raise and then changes nothing. *)
Definition query {S A} (f : S -> outcome A) : SM S A := fun s => (f s, s).
Definition change {S} (f : S -> outcome S) : SM S unit := fun s =>
  match f s with
  | Ret s' => (Ret tt, s')
  | Raise e => (Raise e, s)
  end.

Fixpoint for_each_SM {S A} (body : A -> SM S unit) (l : list A) : SM S unit :=
  match l with
  | [] => mret tt
  | x :: r => _ ← body x; for_each_SM body r
  end.

(** A [for] loop whose body can raise, threading the loop's variables. *)
Fixpoint for_each {A S} (body : S -> A -> outcome S) (l : list A) (s : S)
  : outcome S :=
  match l with
  | [] => Ret s
  | x :: r => s' ← body s x; for_each body r s'
  end.

(** [l.pop()] and [l[-1]] on a list *)
Definition list_pop {A} (l : list A) : outcome (A * list A) :=
  match reverse l with
  | [] => Raise IndexError
  | x :: r => Ret (x, reverse r)
  end.

Definition list_last {A} (l : list A) : outcome A :=
  match reverse l with
  | [] => Raise IndexError
  | x :: _ => Ret x
  end.

(** [v <= 0] *)
Definition py_le_zero (v : pyval) : outcome bool :=
  match v with
  | PBool b => Ret (negb b)
  | PInt z => Ret (z <=? 0)
  | PFloat m _ _ => Ret (m <=? 0)
  | _ => Raise TypeError
  end.

End Py.

Import Py.

(** ** generators/base_generator.py *)

Module BaseGenerator.

(** The character class [[a-zA-Z0-9_]] of [sanitize_name]. *)
Definition word_char (c : ascii) : bool :=
  in_range "a" "z" c || in_range "A" "Z" c || in_range "0" "9" c
  || Ascii.eqb c "_".

(** [re.sub(r'[^a-zA-Z0-9_]', '_', name)] *)
Definition re_sub_non_word (s : string) : string :=
  str_map (fun c => if word_char c then c else "_"%char) s.

(** [sanitize_name]: [re.sub] raises [TypeError] on a name that is not a
    [str]. *)
Definition sanitize_name (name : pyval) : outcome string :=
  match name with
  | PStr s =>
      let sanitized := re_sub_non_word s in
      let sanitized :=
        match sanitized with
        | String c _ => if isdigit c then "_" +:+ sanitized else sanitized
        | EmptyString => sanitized
        end in
      Ret (if String.eqb sanitized "" then "widget" else sanitized)
  | _ => Raise TypeError
  end.

(** The body of the loop of [resolve_variable_names], on the two dicts
    [name_counts] and [resolved_names]. *)
Definition resolve_widget (st : gmap string Z * kdict string) (widget : pyval)
  : outcome (gmap string Z * kdict string) :=
  let '(name_counts, resolved_names) := st in
  widget_id ← py_get widget "id" (PStr "");
  properties ← py_get widget "properties" (PDict []);
  base_name ← py_get properties "name" (PStr "widget");
  base_name ← sanitize_name base_name;
  let '(name_counts, final_name) :=
    match name_counts !! base_name with
    | Some n =>
        (<[base_name := n + 1]> name_counts,
         base_name +:+ "_" +:+ str_of_int (n + 1))
    | None => (<[base_name := 0]> name_counts, base_name)
    end in
  resolved_names ← kset widget_id final_name resolved_names;
  Ret (name_counts, resolved_names).

Definition resolve_variable_names (widgets : pyval) : outcome (kdict string) :=
  ws ← py_iter widgets;
  st ← for_each resolve_widget ws (∅, []);
  Ret (snd st).

(** [format_code(code, indent_level)] *)
Definition indent_of (indent_level : nat) : string :=
  String.concat "" (replicate indent_level "    ").

Definition format_code (code : string) (indent_level : nat) : string :=
  let lines := split "010" (strip code) in
  let indent := indent_of indent_level in
  join NL (map (fun line =>
                  if String.eqb (strip line) "" then "" else indent +:+ line)
               lines).

(** [x, y, width, height = geometry] *)
Definition unpack4 (geometry : pyval)
  : outcome (pyval * pyval * pyval * pyval) :=
  l ← py_iter geometry;
  match l with
  | [x; y; width; height] => Ret (x, y, width, height)
  | _ => Raise ValueError
  end.

(** [generate_geometry_code] of the base class (and of [PyQt6Generator],
    which repeats it). *)
Definition generate_geometry_code (geometry : pyval) : outcome string :=
  '(x, y, width, height) ← unpack4 geometry;
  Ret (py_str x +:+ ", " +:+ py_str y +:+ ", " +:+ py_str width +:+ ", "
       +:+ py_str height).

(** [generate_font_code] of the base class (and of [PyQt6Generator]). *)
Definition generate_font_code (font_data : pyval) : outcome string :=
  family ← py_get font_data "family" (PStr "Arial");
  size ← py_get font_data "size" (PInt 9);
  Ret (DQ +:+ py_str family +:+ DQ +:+ ", " +:+ py_str size).

(** [get_widget_creation_template] of the base class; no generator calls
    it. *)
Definition get_widget_creation_template (widget_type : pyval) : string :=
  "# Widget creation for " +:+ py_str widget_type +:+ " not implemented".

(** The abstract class: what a concrete generator supplies. *)
Record generator : Type := {
  framework_name : string;
  get_file_extension : string;
  generate_main_file : pyval -> outcome string;
  generate_additional_files : pyval -> outcome (list (string * string));
}.

(** [generate_project]: [files.update(additional_files)] lets an additional
    file of the same name replace the main file. *)
Definition generate_project (g : generator) (project_data : pyval)
  : outcome (list (string * string)) :=
  let files := [] in
  let main_filename := "main" +:+ get_file_extension g in
  main ← generate_main_file g project_data;
  let files := sset main_filename main files in
  additional_files ← generate_additional_files g project_data;
  Ret (supdate files additional_files).

(** The module-level registry and its lookup: [dict.get] yields [None] for
    a key that is not there. *)
Definition register_generator (framework : string) (g : generator)
    (registry : gmap string generator) : gmap string generator :=
  <[framework := g]> registry.

Definition get_generator (registry : gmap string generator)
    (framework : string) : outcome (option generator) :=
  Ret (registry !! framework).

End BaseGenerator.

(** ** generators/pyqt6_generator.py *)

Module PyQt6Generator.
Import BaseGenerator.

Definition widget_class_map : list (string * string) :=
  [ ("Button", "QPushButton"); ("Label", "QLabel"); ("Entry", "QLineEdit");
    ("Text", "QTextEdit"); ("Checkbox", "QCheckBox");
    ("RadioButton", "QRadioButton"); ("ComboBox", "QComboBox");
    ("ListBox", "QListWidget"); ("Frame", "QFrame"); ("Tabs", "QTabWidget");
    ("Slider", "QSlider"); ("ProgressBar", "QProgressBar");
    ("SpinBox", "QSpinBox"); ("ScrollArea", "QScrollArea");
    ("GroupBox", "QGroupBox"); ("Splitter", "QSplitter");
    ("StackedWidget", "QStackedWidget") ].

(** [for i, tab_info in enumerate(tab_data)] of the [Tabs] branch *)
Fixpoint tabs_code (var_ref : string) (i : Z) (tab_data : list pyval)
  : outcome (list string) :=
  match tab_data with
  | [] => Ret []
  | tab_info :: r =>
      title ← py_get tab_info "title" (PStr ("Tab " +:+ str_of_int (i + 1)));
      title ← as_str title;
      let tab_title := replace_char "034" (BSL +:+ DQ) title in
      rest ← tabs_code var_ref (i + 1) r;
      Ret (("tab_" +:+ str_of_int i +:+ " = QWidget()")
           :: (var_ref +:+ ".addTab(tab_" +:+ str_of_int i +:+ ", " +:+ DQ
               +:+ tab_title +:+ DQ +:+ ")")
           :: rest)
  end.

Definition range_code (var_ref : string) (properties : pyval)
    (max_default value_default : Z) : outcome (list string) :=
  minimum ← py_get properties "minimum" (PInt 0);
  maximum ← py_get properties "maximum" (PInt max_default);
  value ← py_get properties "value" (PInt value_default);
  Ret [ var_ref +:+ ".setMinimum(" +:+ py_str minimum +:+ ")";
        var_ref +:+ ".setMaximum(" +:+ py_str maximum +:+ ")";
        var_ref +:+ ".setValue(" +:+ py_str value +:+ ")" ].

Definition generate_widget_specific_code (widget_type widget_data : pyval)
    (var_ref : string) : outcome string :=
  properties ← py_get widget_data "properties" (PDict []);
  code_parts ←
    (if py_eqb widget_type (PStr "Entry") then
       has ← py_in "placeholder" properties;
       p1 ← (if has : bool then
               ph ← py_getitem properties "placeholder";
               ph ← as_str ph;
               let placeholder := replace_char "034" (BSL +:+ DQ) ph in
               Ret [var_ref +:+ ".setPlaceholderText(" +:+ DQ +:+ placeholder
                    +:+ DQ +:+ ")"]
             else Ret []);
       readonly ← py_get properties "readonly" (PBool false);
       Ret (p1 ++ (if truthy readonly then [var_ref +:+ ".setReadOnly(True)"]
                   else []))
     else if py_eqb widget_type (PStr "Text") then
       readonly ← py_get properties "readonly" (PBool false);
       word_wrap ← py_get properties "word_wrap" (PBool true);
       Ret ((if truthy readonly then [var_ref +:+ ".setReadOnly(True)"]
             else [])
            ++ (if negb (truthy word_wrap)
                then [var_ref +:+ ".setWordWrapMode(QTextOption.WrapMode.NoWrap)"]
                else []))
     else if in_strs widget_type ["Checkbox"; "RadioButton"] then
       checked ← py_get properties "checked" (PBool false);
       Ret (if truthy checked then [var_ref +:+ ".setChecked(True)"] else [])
     else if in_strs widget_type ["ComboBox"; "ListBox"] then
       items ← py_get properties "items" (PList []);
       if truthy items then
         its ← py_iter items;
         let items_str :=
           join ", " (map (fun item => DQ +:+ py_str item +:+ DQ) its) in
         Ret [var_ref +:+ ".addItems([" +:+ items_str +:+ "])"]
       else Ret []
     else if py_eqb widget_type (PStr "Slider") then
       minimum ← py_get properties "minimum" (PInt 0);
       maximum ← py_get properties "maximum" (PInt 100);
       value ← py_get properties "value" (PInt 50);
       orientation ← py_get properties "orientation" (PStr "horizontal");
       let qt_orientation :=
         if py_eqb orientation (PStr "horizontal")
         then "Qt.Orientation.Horizontal" else "Qt.Orientation.Vertical" in
       Ret [ var_ref +:+ ".setOrientation(" +:+ qt_orientation +:+ ")";
             var_ref +:+ ".setMinimum(" +:+ py_str minimum +:+ ")";
             var_ref +:+ ".setMaximum(" +:+ py_str maximum +:+ ")";
             var_ref +:+ ".setValue(" +:+ py_str value +:+ ")" ]
     else if py_eqb widget_type (PStr "ProgressBar") then
       range_code var_ref properties 100 0
     else if py_eqb widget_type (PStr "SpinBox") then
       range_code var_ref properties 99 0
     else if py_eqb widget_type (PStr "Tabs") then
       tab_data ← py_get properties "tab_data" (PList []);
       tabs ← py_iter tab_data;
       tabs_code var_ref 0 tabs
     else Ret []);
  Ret (join NL code_parts).

Definition generate_common_properties_code (widget_data : pyval)
    (var_ref : string) : outcome string :=
  properties ← py_get widget_data "properties" (PDict []);
  enabled ← py_get properties "enabled" (PBool true);
  let p_enabled :=
    if negb (truthy enabled) then [var_ref +:+ ".setEnabled(False)"] else [] in
  visible ← py_get properties "visible" (PBool true);
  let p_visible :=
    if negb (truthy visible) then [var_ref +:+ ".setVisible(False)"] else [] in
  font_data ← py_get properties "font" (PDict []);
  p_font ←
    (if truthy font_data then
       font_code ← generate_font_code font_data;
       bold ← py_get font_data "bold" (PBool false);
       italic ← py_get font_data "italic" (PBool false);
       Ret ([var_ref +:+ "_font = QFont(" +:+ font_code +:+ ")"]
            ++ (if truthy bold then [var_ref +:+ "_font.setBold(True)"] else [])
            ++ (if truthy italic then [var_ref +:+ "_font.setItalic(True)"]
                else [])
            ++ [var_ref +:+ ".setFont(" +:+ var_ref +:+ "_font)"])
     else Ret []);
  colors ← py_get properties "colors" (PDict []);
  p_colors ←
    (if truthy colors then
       has_bg ← py_in "background" colors;
       s_bg ← (if has_bg : bool then
                 c ← py_getitem colors "background";
                 Ret ["background-color: " +:+ py_str c]
               else Ret []);
       has_fg ← py_in "foreground" colors;
       s_fg ← (if has_fg : bool then
                 c ← py_getitem colors "foreground";
                 Ret ["color: " +:+ py_str c]
               else Ret []);
       has_bd ← py_in "border" colors;
       s_bd ← (if has_bd : bool then
                 c ← py_getitem colors "border";
                 Ret ["border: 1px solid " +:+ py_str c]
               else Ret []);
       let style_parts := s_bg ++ s_fg ++ s_bd in
       match style_parts with
       | [] => Ret []
       | _ =>
           let style_str := join "; " style_parts +:+ ";" in
           Ret [var_ref +:+ ".setStyleSheet(" +:+ DQ +:+ style_str +:+ DQ +:+ ")"]
       end
     else Ret []);
  Ret (join NL (p_enabled ++ p_visible ++ p_font ++ p_colors)).

(** [self.widget_class_map.get(widget_type, default)]: the key is hashed
    first. *)
Definition class_lookup (table : list (string * string)) (widget_type : pyval)
  : outcome (option string) :=
  match widget_type with
  | PStr s => Ret (snd <$> find (fun kv => String.eqb s (fst kv)) table)
  | PList _ | PDict _ => Raise TypeError
  | _ => Ret None
  end.

Definition generate_widget_code (widget_data : pyval) (parent_var : string)
  : outcome string :=
  widget_type ← py_get widget_data "type" (PStr "");
  properties ← py_get widget_data "properties" (PDict []);
  found ← class_lookup widget_class_map widget_type;
  let qt_class := default "QWidget" found in
  name ← py_get properties "name" (PStr "widget");
  var_name ← sanitize_name name;
  creation ←
    (if in_strs widget_type
          ["Button"; "Label"; "Checkbox"; "RadioButton"; "GroupBox"] then
       text ← py_get properties "text" (PStr "");
       Ret (parent_var +:+ "." +:+ var_name +:+ " = " +:+ qt_class +:+ "("
            +:+ DQ +:+ py_str text +:+ DQ +:+ ", " +:+ parent_var
            +:+ ".central_widget)")
     else
       Ret (parent_var +:+ "." +:+ var_name +:+ " = " +:+ qt_class +:+ "("
            +:+ parent_var +:+ ".central_widget)"));
  geometry ← py_get properties "geometry"
               (PList [PInt 0; PInt 0; PInt 100; PInt 50]);
  geometry_code ← generate_geometry_code geometry;
  let placement :=
    parent_var +:+ "." +:+ var_name +:+ ".setGeometry(" +:+ geometry_code
    +:+ ")" in
  widget_specific_code ←
    generate_widget_specific_code widget_type widget_data
      (parent_var +:+ "." +:+ var_name);
  common_code ←
    generate_common_properties_code widget_data
      (parent_var +:+ "." +:+ var_name);
  Ret (join NL
         ([creation; placement]
          ++ (if String.eqb widget_specific_code "" then []
              else [widget_specific_code])
          ++ (if String.eqb common_code "" then [] else [common_code]))).

Section set_iteration.

(** The iteration orders of the two sets of [generate_imports]. *)
Variable order_types : list pyval -> list pyval.
Variable order_classes : list string -> list string.

Definition generate_imports (project_data : pyval) : outcome string :=
  widgets ← py_get project_data "widgets" (PList []);
  ws ← py_iter widgets;
  used_widgets ←
    for_each (fun used widget =>
                t ← py_get widget "type" PNone;
                if hashable t then Ret (set_add_val t used)
                else Raise TypeError) ws [];
  let imports := ["import sys"; "from PyQt6.QtWidgets import ("] in
  let widget_classes := ["QApplication"; "QMainWindow"; "QWidget"] in
  widget_classes ←
    for_each (fun classes widget_type =>
                qt_class ← class_lookup widget_class_map widget_type;
                match qt_class with
                | Some c =>
                    if String.eqb c "" then Ret classes
                    else Ret (set_add_str c classes)
                | None => Ret classes
                end) (order_types used_widgets) widget_classes;
  let widget_classes :=
    fold_left (fun classes c => set_add_str c classes)
              ["QVBoxLayout"; "QHBoxLayout"; "QGridLayout"] widget_classes in
  let sorted_classes := sorted_strs (order_classes widget_classes) in
  let lines :=
    imap (fun i class_name =>
            let suffix :=
              if (Z.of_nat i <? Z.of_nat (length sorted_classes) - 1)
              then "," else "" in
            "    " +:+ class_name +:+ suffix) sorted_classes in
  Ret (join NL (imports ++ lines ++ [")"]
                ++ ["from PyQt6.QtCore import Qt";
                    "from PyQt6.QtGui import QFont, QColor"])).

Definition generate_button_handler (button_name : string) (action : pyval)
  : outcome string :=
  let method_name := "on_" +:+ button_name +:+ "_clicked" in
  action_type ← py_get action "type" (PStr "none");
  let code :=
    [ "    def " +:+ method_name +:+ "(self):";
      "        " +:+ DQ +:+ DQ +:+ DQ +:+ "Handle " +:+ button_name
        +:+ " click event." +:+ DQ +:+ DQ +:+ DQ ] in
  body ←
    (if py_eqb action_type (PStr "message") then
       target ← py_get action "target" (PStr "Hello!");
       Ret [ "        from PyQt6.QtWidgets import QMessageBox";
             "        QMessageBox.information(self, " +:+ DQ +:+ "Message" +:+ DQ
               +:+ ", " +:+ DQ +:+ py_str target +:+ DQ +:+ ")" ]
     else if py_eqb action_type (PStr "function") then
       target ← py_get action "target" (PStr "custom_function");
       Ret [ "        self." +:+ py_str target +:+ "()" ]
     else
       Ret [ "        # TODO: Implement " +:+ py_str action_type +:+ " action";
             "        pass" ]);
  Ret (join NL (code ++ body)).

Definition generate_event_handlers (widgets : pyval) (var_names : kdict string)
  : outcome string :=
  ws ← py_iter widgets;
  handlers ←
    for_each (fun handlers widget =>
                widget_type ← py_get widget "type" (PStr "");
                properties ← py_get widget "properties" (PDict []);
                widget_id ← py_get widget "id" (PStr "");
                known ← kin widget_id var_names;
                if known : bool then
                  var_name ← kgetitem widget_id var_names;
                  if py_eqb widget_type (PStr "Button") then
                    action ← py_get properties "action" (PDict []);
                    ty ← py_get action "type" PNone;
                    if negb (py_eqb ty (PStr "none")) then
                      handler ← generate_button_handler var_name action;
                      Ret (handlers ++ [handler])
                    else Ret handlers
                  else Ret handlers
                else Ret handlers) ws [];
  Ret (join NL handlers).

(** [generate_main_layout_code]: absolute positioning only. *)
Definition generate_main_layout_code (widgets : pyval)
    (var_names : kdict string) : string := "".

Definition generate_class_definition (class_name : string)
    (main_window_data widgets : pyval) (var_names : kdict string)
  : outcome string :=
  properties ← py_get main_window_data "properties" (PDict []);
  title ← py_get properties "title" (PStr "My Application");
  geometry ← py_get properties "geometry"
               (PList [PInt 100; PInt 100; PInt 800; PInt 600]);
  geometry_code ← generate_geometry_code geometry;
  let code :=
    [ "class " +:+ class_name +:+ "(QMainWindow):";
      "    " +:+ DQ +:+ DQ +:+ DQ +:+ "Main application window." +:+ DQ +:+ DQ
        +:+ DQ;
      "";
      "    def __init__(self):";
      "        super().__init__()";
      "        self.setWindowTitle(" +:+ DQ +:+ py_str title +:+ DQ +:+ ")";
      "        self.setGeometry(" +:+ geometry_code +:+ ")";
      "";
      "        # Setup central widget";
      "        self.central_widget = QWidget()";
      "        self.setCentralWidget(self.central_widget)";
      "";
      "        self.setup_ui()";
      "";
      "    def setup_ui(self):";
      "        " +:+ DQ +:+ DQ +:+ DQ +:+ "Initialize the user interface." +:+ DQ
        +:+ DQ +:+ DQ ] in
  ws ← py_iter widgets;
  code ←
    for_each (fun code widget =>
                widget_id ← py_get widget "id" (PStr "");
                known ← kin widget_id var_names;
                if known : bool then
                  var_name ← kgetitem widget_id var_names;
                  widget_code ← generate_widget_code widget "self";
                  let indented_code := format_code widget_code 2 in
                  Ret (code ++ [""; indented_code])
                else Ret code) ws code;
  let layout_code := generate_main_layout_code widgets var_names in
  let code :=
    if String.eqb layout_code "" then code
    else code ++ [""; "        # Setup layout"; layout_code] in
  event_handlers ← generate_event_handlers widgets var_names;
  let code :=
    if String.eqb event_handlers "" then code
    else code ++ [""; event_handlers] in
  Ret (join NL code).

Definition generate_main_function (class_name : string) : string :=
  join NL
    [ "def main():";
      "    '''Main function to run the application.'''";
      "    app = QApplication(sys.argv)";
      "    ";
      "    # Create and show the main window";
      "    window = " +:+ class_name +:+ "()";
      "    window.show()";
      "    ";
      "    # Run the application event loop";
      "    sys.exit(app.exec())";
      "";
      "";
      "if __name__ == '__main__':";
      "    main()" ].

Definition generate_main_file (project_data : pyval) : outcome string :=
  name ← py_get project_data "name" (PStr "MyApplication");
  name ← as_str name;
  let project_name := replace_char " " "" name in
  main_window_data ← py_get project_data "main_window" (PDict []);
  widgets ← py_get project_data "widgets" (PList []);
  var_names ← resolve_variable_names widgets;
  imports ← generate_imports project_data;
  class_def ←
    generate_class_definition project_name main_window_data widgets var_names;
  let main_function := generate_main_function project_name in
  Ret (imports +:+ NL +:+ NL +:+ NL +:+ class_def +:+ NL +:+ NL +:+ NL
       +:+ main_function).

(** [PyQt6Generator()], the object registered under ["PyQt6"]; it inherits
    [generate_additional_files], which returns an empty dict. *)
Definition instance : generator := {|
  BaseGenerator.framework_name := "PyQt6";
  BaseGenerator.get_file_extension := ".py";
  BaseGenerator.generate_main_file := generate_main_file;
  BaseGenerator.generate_additional_files := fun _ => Ret [];
|}.

End set_iteration.

End PyQt6Generator.

(** ** generators/tkinter_generator.py *)

Module TkinterGenerator.
Import BaseGenerator.

Definition widget_class_map : list (string * string) :=
  [ ("Button", "tk.Button"); ("Label", "tk.Label"); ("Entry", "tk.Entry");
    ("Text", "tk.Text"); ("Checkbox", "tk.Checkbutton");
    ("RadioButton", "tk.Radiobutton"); ("ComboBox", "ttk.Combobox");
    ("ListBox", "tk.Listbox"); ("Frame", "tk.Frame"); ("Tabs", "ttk.Notebook");
    ("Slider", "tk.Scale"); ("ProgressBar", "ttk.Progressbar");
    ("SpinBox", "tk.Spinbox"); ("ScrollArea", "tk.Frame") ].

Definition class_lookup := PyQt6Generator.class_lookup.

Definition generate_imports (project_data : pyval) : outcome string :=
  widgets ← py_get project_data "widgets" (PList []);
  ws ← py_iter widgets;
  uses_ttk ←
    any_of (fun widget =>
              t ← py_get widget "type" PNone;
              Ret (in_strs t ["ComboBox"; "ProgressBar"; "Tabs"])) ws;
  let imports := ["import tkinter as tk"; "from tkinter import messagebox"] in
  let imports :=
    if uses_ttk : bool then imports ++ ["from tkinter import ttk"]
    else imports in
  Ret (join NL imports).

Definition generate_widget_specific_options (widget_type widget_data : pyval)
  : outcome (list string) :=
  properties ← py_get widget_data "properties" (PDict []);
  if py_eqb widget_type (PStr "Entry") then
    _ ← py_in "placeholder" properties;
    readonly ← py_get properties "readonly" (PBool false);
    Ret (if truthy readonly then ["state=" +:+ DQ +:+ "readonly" +:+ DQ]
         else [])
  else if py_eqb widget_type (PStr "Text") then
    readonly ← py_get properties "readonly" (PBool false);
    word_wrap ← py_get properties "word_wrap" (PBool true);
    Ret ((if truthy readonly then ["state=" +:+ DQ +:+ "disabled" +:+ DQ]
          else [])
         ++ (if negb (truthy word_wrap) then ["wrap=" +:+ DQ +:+ "none" +:+ DQ]
             else []))
  else if py_eqb widget_type (PStr "Checkbox") then
    _ ← py_get properties "checked" (PBool false);
    Ret []
  else if py_eqb widget_type (PStr "RadioButton") then
    group ← py_get properties "group" (PStr "default");
    _ ← py_get properties "checked" (PBool false);
    Ret ["variable=self." +:+ py_str group +:+ "_var"]
  else if py_eqb widget_type (PStr "Button") then
    action ← py_get properties "action" (PDict []);
    ty ← py_get action "type" PNone;
    if negb (py_eqb ty (PStr "none")) then
      name ← py_get properties "name" (PStr "widget");
      var_name ← sanitize_name name;
      Ret ["command=self.on_" +:+ var_name +:+ "_clicked"]
    else Ret []
  else if py_eqb widget_type (PStr "Slider") then
    minimum ← py_get properties "minimum" (PInt 0);
    maximum ← py_get properties "maximum" (PInt 100);
    value ← py_get properties "value" (PInt 50);
    orientation ← py_get properties "orientation" (PStr "horizontal");
    Ret [ "from_=" +:+ py_str minimum;
          "to=" +:+ py_str maximum;
          "orient=" +:+ DQ +:+ py_str orientation +:+ DQ;
          "length=200" ]
  else if py_eqb widget_type (PStr "SpinBox") then
    minimum ← py_get properties "minimum" (PInt 0);
    maximum ← py_get properties "maximum" (PInt 99);
    value ← py_get properties "value" (PInt 0);
    Ret [ "from_=" +:+ py_str minimum;
          "to=" +:+ py_str maximum;
          "value=" +:+ py_str value ]
  else Ret [].

(** [for i, tab_info in enumerate(tab_data)] of the [Tabs] branch *)
Fixpoint tabs_code (var_ref : string) (i : Z) (tab_data : list pyval)
  : outcome (list string) :=
  match tab_data with
  | [] => Ret []
  | tab_info :: r =>
      title ← py_get tab_info "title" (PStr ("Tab " +:+ str_of_int (i + 1)));
      title ← as_str title;
      let tab_title := replace_char "034" (BSL +:+ DQ) title in
      rest ← tabs_code var_ref (i + 1) r;
      Ret (("tab_" +:+ str_of_int i +:+ " = tk.Frame(" +:+ var_ref +:+ ")")
           :: (var_ref +:+ ".add(tab_" +:+ str_of_int i +:+ ", text=" +:+ DQ
               +:+ tab_title +:+ DQ +:+ ")")
           :: rest)
  end.

Definition generate_widget_post_creation_code (widget_type widget_data : pyval)
    (var_ref : string) : outcome string :=
  properties ← py_get widget_data "properties" (PDict []);
  is_entry_ph ←
    (if py_eqb widget_type (PStr "Entry") then py_in "placeholder" properties
     else Ret false);
  code_parts ←
    (if is_entry_ph : bool then
       ph ← py_getitem properties "placeholder";
       ph ← as_str ph;
       let placeholder := replace_char "034" (BSL +:+ DQ) ph in
       Ret [ var_ref +:+ ".insert(0, " +:+ DQ +:+ placeholder +:+ DQ +:+ ")";
             var_ref +:+ ".configure(fg=" +:+ DQ +:+ "grey" +:+ DQ +:+ ")";
             var_ref +:+ ".bind(" +:+ DQ +:+ "<FocusIn>" +:+ DQ
               +:+ ", lambda e: self.clear_placeholder(" +:+ var_ref +:+ ", "
               +:+ DQ +:+ placeholder +:+ DQ +:+ "))";
             var_ref +:+ ".bind(" +:+ DQ +:+ "<FocusOut>" +:+ DQ
               +:+ ", lambda e: self.restore_placeholder(" +:+ var_ref +:+ ", "
               +:+ DQ +:+ placeholder +:+ DQ +:+ "))" ]
     else if in_strs widget_type ["ComboBox"; "ListBox"] then
       items ← py_get properties "items" (PList []);
       if truthy items && py_eqb widget_type (PStr "ComboBox") then
         its ← py_iter items;
         let items_str :=
           join ", " (map (fun item => DQ +:+ py_str item +:+ DQ) its) in
         Ret [var_ref +:+ "[" +:+ DQ +:+ "values" +:+ DQ +:+ "] = ("
              +:+ items_str +:+ ")"]
       else if truthy items && py_eqb widget_type (PStr "ListBox") then
         its ← py_iter items;
         Ret (map (fun item =>
                     var_ref +:+ ".insert(" +:+ DQ +:+ "end" +:+ DQ +:+ ", "
                     +:+ DQ +:+ py_str item +:+ DQ +:+ ")") its)
       else Ret []
     else
       is_checked_box ←
         (if py_eqb widget_type (PStr "Checkbox") then
            checked ← py_get properties "checked" (PBool false);
            Ret (truthy checked)
          else Ret false);
       if is_checked_box : bool then Ret [var_ref +:+ ".select()"]
       else if py_eqb widget_type (PStr "RadioButton") then
         group ← py_get properties "group" (PStr "default");
         let first :=
           "if not hasattr(self, " +:+ DQ +:+ py_str group +:+ "_var" +:+ DQ
           +:+ "): self." +:+ py_str group +:+ "_var = tk.StringVar()" in
         checked ← py_get properties "checked" (PBool false);
         if truthy checked then
           name ← py_get properties "name" (PStr "widget");
           var_name ← sanitize_name name;
           Ret [ first;
                 "self." +:+ py_str group +:+ "_var.set(" +:+ DQ +:+ var_name
                   +:+ DQ +:+ ")" ]
         else Ret [first]
       else if py_eqb widget_type (PStr "Tabs") then
         tab_data ← py_get properties "tab_data" (PList []);
         tabs ← py_iter tab_data;
         tabs_code var_ref 0 tabs
       else if py_eqb widget_type (PStr "ProgressBar") then
         minimum ← py_get properties "minimum" (PInt 0);
         maximum ← py_get properties "maximum" (PInt 100);
         value ← py_get properties "value" (PInt 0);
         Ret [ var_ref +:+ "[" +:+ DQ +:+ "maximum" +:+ DQ +:+ "] = "
                 +:+ py_str maximum;
               var_ref +:+ "[" +:+ DQ +:+ "value" +:+ DQ +:+ "] = "
                 +:+ py_str value ]
       else Ret []);
  Ret (join NL code_parts).

Definition generate_widget_code (widget_data : pyval) (parent_var : string)
  : outcome string :=
  widget_type ← py_get widget_data "type" (PStr "");
  properties ← py_get widget_data "properties" (PDict []);
  found ← class_lookup widget_class_map widget_type;
  let tk_class := default "tk.Widget" found in
  name ← py_get properties "name" (PStr "widget");
  var_name ← sanitize_name name;
  has_text ←
    (if in_strs widget_type ["Button"; "Label"; "Checkbox"; "RadioButton"]
     then py_in "text" properties else Ret false);
  o_text ←
    (if has_text : bool then
       t ← py_getitem properties "text";
       t ← as_str t;
       let text := replace_char "034" (BSL +:+ DQ) t in
       Ret ["text=" +:+ DQ +:+ text +:+ DQ]
     else Ret []);
  colors ← py_get properties "colors" (PDict []);
  bg ← py_get colors "background" PNone;
  o_bg ←
    (if truthy bg then
       c ← py_getitem colors "background";
       Ret ["bg=" +:+ DQ +:+ py_str c +:+ DQ]
     else Ret []);
  fg ← py_get colors "foreground" PNone;
  o_fg ←
    (if truthy fg then
       c ← py_getitem colors "foreground";
       Ret ["fg=" +:+ DQ +:+ py_str c +:+ DQ]
     else Ret []);
  font_data ← py_get properties "font" (PDict []);
  o_font ←
    (if truthy font_data then
       family ← py_get font_data "family" (PStr "Arial");
       size ← py_get font_data "size" (PInt 9);
       bold ← py_get font_data "bold" (PBool false);
       let weight := if truthy bold then "bold" else "normal" in
       italic ← py_get font_data "italic" (PBool false);
       let slant := if truthy italic then "italic" else "roman" in
       Ret ["font=(" +:+ DQ +:+ py_str family +:+ DQ +:+ ", " +:+ py_str size
            +:+ ", " +:+ DQ +:+ weight +:+ DQ +:+ ", " +:+ DQ +:+ slant +:+ DQ
            +:+ ")"]
     else Ret []);
  widget_options ← generate_widget_specific_options widget_type widget_data;
  let options := o_text ++ o_bg ++ o_fg ++ o_font ++ widget_options in
  let parent_ref :=
    if String.eqb parent_var "self" then parent_var +:+ ".root"
    else parent_var in
  let options_str := join ", " options in
  let creation :=
    if String.eqb options_str "" then
      parent_var +:+ "." +:+ var_name +:+ " = " +:+ tk_class +:+ "("
      +:+ parent_ref +:+ ")"
    else
      parent_var +:+ "." +:+ var_name +:+ " = " +:+ tk_class +:+ "("
      +:+ parent_ref +:+ ", " +:+ options_str +:+ ")" in
  geometry ← py_get properties "geometry"
               (PList [PInt 0; PInt 0; PInt 100; PInt 50]);
  '(x, y, width, height) ← unpack4 geometry;
  let placement :=
    parent_var +:+ "." +:+ var_name +:+ ".place(x=" +:+ py_str x +:+ ", y="
    +:+ py_str y +:+ ", width=" +:+ py_str width +:+ ", height="
    +:+ py_str height +:+ ")" in
  post_code ←
    generate_widget_post_creation_code widget_type widget_data
      (parent_var +:+ "." +:+ var_name);
  enabled ← py_get properties "enabled" (PBool true);
  Ret (join NL
         ([creation; placement]
          ++ (if String.eqb post_code "" then [] else [post_code])
          ++ (if negb (truthy enabled)
              then [parent_var +:+ "." +:+ var_name +:+ ".configure(state="
                    +:+ DQ +:+ "disabled" +:+ DQ +:+ ")"]
              else []))).

Definition generate_button_handler (button_name : string) (action : pyval)
  : outcome string :=
  let method_name := "on_" +:+ button_name +:+ "_clicked" in
  action_type ← py_get action "type" (PStr "none");
  let code :=
    [ "    def " +:+ method_name +:+ "(self):";
      "        " +:+ DQ +:+ DQ +:+ DQ +:+ "Handle " +:+ button_name
        +:+ " click event." +:+ DQ +:+ DQ +:+ DQ ] in
  body ←
    (if py_eqb action_type (PStr "message") then
       target ← py_get action "target" (PStr "Hello!");
       Ret [ "        messagebox.showinfo(" +:+ DQ +:+ "Message" +:+ DQ +:+ ", "
               +:+ DQ +:+ py_str target +:+ DQ +:+ ")" ]
     else if py_eqb action_type (PStr "function") then
       target ← py_get action "target" (PStr "custom_function");
       Ret [ "        self." +:+ py_str target +:+ "()" ]
     else
       Ret [ "        # TODO: Implement " +:+ py_str action_type +:+ " action";
             "        pass" ]);
  Ret (join NL (code ++ body)).

Definition generate_event_handlers (widgets : pyval) (var_names : kdict string)
  : outcome string :=
  ws ← py_iter widgets;
  has_placeholder ←
    any_of (fun widget =>
              t ← py_get widget "type" PNone;
              if py_eqb t (PStr "Entry") then
                properties ← py_get widget "properties" (PDict []);
                py_in "placeholder" properties
              else Ret false) ws;
  let handlers :=
    if has_placeholder : bool then
      [ "    def clear_placeholder(self, entry, placeholder):";
        "        if entry.get() == placeholder:";
        "            entry.delete(0, 'end')";
        "            entry.configure(fg='black')";
        "";
        "    def restore_placeholder(self, entry, placeholder):";
        "        if not entry.get():";
        "            entry.insert(0, placeholder)";
        "            entry.configure(fg='grey')" ]
    else [] in
  handlers ←
    for_each (fun handlers widget =>
                widget_type ← py_get widget "type" (PStr "");
                properties ← py_get widget "properties" (PDict []);
                widget_id ← py_get widget "id" (PStr "");
                known ← kin widget_id var_names;
                if known && py_eqb widget_type (PStr "Button") then
                  var_name ← kgetitem widget_id var_names;
                  action ← py_get properties "action" (PDict []);
                  ty ← py_get action "type" PNone;
                  if negb (py_eqb ty (PStr "none")) then
                    handler ← generate_button_handler var_name action;
                    let handlers :=
                      match handlers with
                      | [] => handlers
                      | _ => handlers ++ [""]
                      end in
                    Ret (handlers ++ [handler])
                  else Ret handlers
                else Ret handlers) ws handlers;
  Ret (join NL handlers).

Definition generate_class_definition (class_name : string)
    (main_window_data widgets : pyval) (var_names : kdict string)
  : outcome string :=
  properties ← py_get main_window_data "properties" (PDict []);
  title ← py_get properties "title" (PStr "My Application");
  geometry ← py_get properties "geometry"
               (PList [PInt 100; PInt 100; PInt 800; PInt 600]);
  colors ← py_get properties "colors" (PDict []);
  g2 ← py_index geometry 2;
  g3 ← py_index geometry 3;
  g0 ← py_index geometry 0;
  g1 ← py_index geometry 1;
  let code :=
    [ "class " +:+ class_name +:+ ":";
      "    " +:+ DQ +:+ DQ +:+ DQ +:+ "Main application window." +:+ DQ +:+ DQ
        +:+ DQ;
      "";
      "    def __init__(self):";
      "        self.root = tk.Tk()";
      "        self.root.title(" +:+ DQ +:+ py_str title +:+ DQ +:+ ")";
      "        self.root.geometry(" +:+ DQ +:+ py_str g2 +:+ "x" +:+ py_str g3
        +:+ "+" +:+ py_str g0 +:+ "+" +:+ py_str g1 +:+ DQ +:+ ")";
      "" ] in
  bg ← py_get colors "background" PNone;
  code ←
    (if truthy bg then
       c ← py_getitem colors "background";
       Ret (code ++ ["        self.root.configure(bg=" +:+ DQ +:+ py_str c +:+ DQ
                     +:+ ")"])
     else Ret code);
  let code :=
    code ++ [ "        self.setup_ui()";
              "";
              "    def setup_ui(self):";
              "        " +:+ DQ +:+ DQ +:+ DQ +:+ "Initialize the user interface."
                +:+ DQ +:+ DQ +:+ DQ ] in
  ws ← py_iter widgets;
  code ←
    for_each (fun code widget =>
                widget_id ← py_get widget "id" (PStr "");
                known ← kin widget_id var_names;
                if known : bool then
                  var_name ← kgetitem widget_id var_names;
                  widget_code ← generate_widget_code widget "self";
                  let indented_code := format_code widget_code 2 in
                  Ret (code ++ [""; indented_code])
                else Ret code) ws code;
  event_handlers ← generate_event_handlers widgets var_names;
  let code :=
    if String.eqb event_handlers "" then code
    else code ++ [""; event_handlers] in
  Ret (join NL
         (code ++ [ "";
                    "    def run(self):";
                    "        " +:+ DQ +:+ DQ +:+ DQ +:+ "Start the main event loop."
                      +:+ DQ +:+ DQ +:+ DQ;
                    "        self.root.mainloop()" ])).

Definition generate_main_function (class_name : string) : string :=
  join NL
    [ "def main():";
      "    '''Main function to run the application.'''";
      "    app = " +:+ class_name +:+ "()";
      "    app.run()";
      "";
      "";
      "if __name__ == '__main__':";
      "    main()" ].

Definition generate_main_file (project_data : pyval) : outcome string :=
  name ← py_get project_data "name" (PStr "MyApplication");
  name ← as_str name;
  let project_name := replace_char " " "" name in
  main_window_data ← py_get project_data "main_window" (PDict []);
  widgets ← py_get project_data "widgets" (PList []);
  var_names ← resolve_variable_names widgets;
  imports ← generate_imports project_data;
  class_def ←
    generate_class_definition project_name main_window_data widgets var_names;
  let main_function := generate_main_function project_name in
  Ret (imports +:+ NL +:+ NL +:+ NL +:+ class_def +:+ NL +:+ NL +:+ NL
       +:+ main_function).

(** [TkinterGenerator()], the object registered under ["Tkinter"]. *)
Definition instance : generator := {|
  BaseGenerator.framework_name := "Tkinter";
  BaseGenerator.get_file_extension := ".py";
  BaseGenerator.generate_main_file := generate_main_file;
  BaseGenerator.generate_additional_files := fun _ => Ret [];
|}.

End TkinterGenerator.

(** ** core/state_manager.py *)

Module StateManager.

(** The Qt signals of the class, as they are emitted. *)
Inductive signal : Type :=
| state_changed
| selection_changed (widget_id : option string)
| widget_added (widget_id : string)
| widget_removed (widget_id : string)
| widget_modified (widget_id : string)
| project_loaded
| framework_changed (framework : string).

(** What [get_current_state] returns; [copy.deepcopy] of a value is the
    value. *)
Record snapshot : Type := {
  s_project_data : pyval;
  s_widgets : dict;
  s_widget_counter : Z;
  s_selected_widget_id : option string;
  s_canvas_settings : dict;
  s_layer_config : dict;
}.

(** The fields of a [StateManager], and the signals it has emitted. *)
Record t : Type := {
  project_data : pyval;
  project_path : option string;
  target_framework : pyval;
  widgets : dict;
  widget_counter : Z;
  selected_widget_id : option string;
  undo_stack : list snapshot;
  redo_stack : list snapshot;
  max_undo_levels : nat;
  unsaved_changes : bool;
  canvas_settings : dict;
  layer_config : dict;
  emitted : list signal;
}.

Definition set_project_data (v : pyval) (s : t) : t :=
  {| project_data := v; project_path := project_path s;
     target_framework := target_framework s; widgets := widgets s;
     widget_counter := widget_counter s;
     selected_widget_id := selected_widget_id s; undo_stack := undo_stack s;
     redo_stack := redo_stack s; max_undo_levels := max_undo_levels s;
     unsaved_changes := unsaved_changes s; canvas_settings := canvas_settings s;
     layer_config := layer_config s; emitted := emitted s |}.

Definition set_project_path (v : option string) (s : t) : t :=
  {| project_data := project_data s; project_path := v;
     target_framework := target_framework s; widgets := widgets s;
     widget_counter := widget_counter s;
     selected_widget_id := selected_widget_id s; undo_stack := undo_stack s;
     redo_stack := redo_stack s; max_undo_levels := max_undo_levels s;
     unsaved_changes := unsaved_changes s; canvas_settings := canvas_settings s;
     layer_config := layer_config s; emitted := emitted s |}.

Definition set_target_framework (v : pyval) (s : t) : t :=
  {| project_data := project_data s; project_path := project_path s;
     target_framework := v; widgets := widgets s;
     widget_counter := widget_counter s;
     selected_widget_id := selected_widget_id s; undo_stack := undo_stack s;
     redo_stack := redo_stack s; max_undo_levels := max_undo_levels s;
     unsaved_changes := unsaved_changes s; canvas_settings := canvas_settings s;
     layer_config := layer_config s; emitted := emitted s |}.

Definition set_widgets (v : dict) (s : t) : t :=
  {| project_data := project_data s; project_path := project_path s;
     target_framework := target_framework s; widgets := v;
     widget_counter := widget_counter s;
     selected_widget_id := selected_widget_id s; undo_stack := undo_stack s;
     redo_stack := redo_stack s; max_undo_levels := max_undo_levels s;
     unsaved_changes := unsaved_changes s; canvas_settings := canvas_settings s;
     layer_config := layer_config s; emitted := emitted s |}.

Definition set_widget_counter (v : Z) (s : t) : t :=
  {| project_data := project_data s; project_path := project_path s;
     target_framework := target_framework s; widgets := widgets s;
     widget_counter := v;
     selected_widget_id := selected_widget_id s; undo_stack := undo_stack s;
     redo_stack := redo_stack s; max_undo_levels := max_undo_levels s;
     unsaved_changes := unsaved_changes s; canvas_settings := canvas_settings s;
     layer_config := layer_config s; emitted := emitted s |}.

Definition set_selected_widget_id (v : option string) (s : t) : t :=
  {| project_data := project_data s; project_path := project_path s;
     target_framework := target_framework s; widgets := widgets s;
     widget_counter := widget_counter s;
     selected_widget_id := v; undo_stack := undo_stack s;
     redo_stack := redo_stack s; max_undo_levels := max_undo_levels s;
     unsaved_changes := unsaved_changes s; canvas_settings := canvas_settings s;
     layer_config := layer_config s; emitted := emitted s |}.

Definition set_undo_stack (v : list snapshot) (s : t) : t :=
  {| project_data := project_data s; project_path := project_path s;
     target_framework := target_framework s; widgets := widgets s;
     widget_counter := widget_counter s;
     selected_widget_id := selected_widget_id s; undo_stack := v;
     redo_stack := redo_stack s; max_undo_levels := max_undo_levels s;
     unsaved_changes := unsaved_changes s; canvas_settings := canvas_settings s;
     layer_config := layer_config s; emitted := emitted s |}.

Definition set_redo_stack (v : list snapshot) (s : t) : t :=
  {| project_data := project_data s; project_path := project_path s;
     target_framework := target_framework s; widgets := widgets s;
     widget_counter := widget_counter s;
     selected_widget_id := selected_widget_id s; undo_stack := undo_stack s;
     redo_stack := v; max_undo_levels := max_undo_levels s;
     unsaved_changes := unsaved_changes s; canvas_settings := canvas_settings s;
     layer_config := layer_config s; emitted := emitted s |}.

Definition set_unsaved_changes (v : bool) (s : t) : t :=
  {| project_data := project_data s; project_path := project_path s;
     target_framework := target_framework s; widgets := widgets s;
     widget_counter := widget_counter s;
     selected_widget_id := selected_widget_id s; undo_stack := undo_stack s;
     redo_stack := redo_stack s; max_undo_levels := max_undo_levels s;
     unsaved_changes := v; canvas_settings := canvas_settings s;
     layer_config := layer_config s; emitted := emitted s |}.

Definition set_canvas_settings (v : dict) (s : t) : t :=
  {| project_data := project_data s; project_path := project_path s;
     target_framework := target_framework s; widgets := widgets s;
     widget_counter := widget_counter s;
     selected_widget_id := selected_widget_id s; undo_stack := undo_stack s;
     redo_stack := redo_stack s; max_undo_levels := max_undo_levels s;
     unsaved_changes := unsaved_changes s; canvas_settings := v;
     layer_config := layer_config s; emitted := emitted s |}.

Definition set_layer_config (v : dict) (s : t) : t :=
  {| project_data := project_data s; project_path := project_path s;
     target_framework := target_framework s; widgets := widgets s;
     widget_counter := widget_counter s;
     selected_widget_id := selected_widget_id s; undo_stack := undo_stack s;
     redo_stack := redo_stack s; max_undo_levels := max_undo_levels s;
     unsaved_changes := unsaved_changes s; canvas_settings := canvas_settings s;
     layer_config := v; emitted := emitted s |}.

Definition emit (sg : signal) (s : t) : t :=
  {| project_data := project_data s; project_path := project_path s;
     target_framework := target_framework s; widgets := widgets s;
     widget_counter := widget_counter s;
     selected_widget_id := selected_widget_id s; undo_stack := undo_stack s;
     redo_stack := redo_stack s; max_undo_levels := max_undo_levels s;
     unsaved_changes := unsaved_changes s; canvas_settings := canvas_settings s;
     layer_config := layer_config s; emitted := emitted s ++ [sg] |}.

(** A method of the class. *)
Abbreviation M := (SM t).

Definition get_current_state (s : t) : snapshot :=
  {| s_project_data := project_data s;
     s_widgets := widgets s;
     s_widget_counter := widget_counter s;
     s_selected_widget_id := selected_widget_id s;
     s_canvas_settings := canvas_settings s;
     s_layer_config := layer_config s |}.

(** [self.undo_stack.append(state)] followed by the trim to
    [max_undo_levels] *)
Definition push_undo (s : t) : t :=
  let stack := undo_stack s ++ [get_current_state s] in
  let stack :=
    if (max_undo_levels s <? length stack)%nat then tail stack else stack in
  set_undo_stack stack s.

Definition save_initial_state : M unit := write push_undo.

Definition save_state : M unit :=
  _ ← write (fun s => set_redo_stack [] (push_undo s));
  _ ← write (set_unsaved_changes true);
  write (emit state_changed).

Definition new_project : M unit :=
  _ ← write (fun s =>
       set_project_data
         (obj [ ("name", PStr "New Project");
                ("framework", target_framework s);
                ("version", PStr "1.0");
                ("main_window",
                  obj [ ("id", PStr "main_window");
                        ("type", PStr "MainWindow");
                        ("properties",
                          obj [ ("title", PStr "My Application");
                                ("geometry",
                                  PList [PInt 100; PInt 100; PInt 800; PInt 600]);
                                ("resizable", PBool true);
                                ("colors",
                                  obj [ ("background", PStr "#F0F0F0");
                                        ("text", PStr "#000000") ]) ]) ]);
                ("widgets", PDict []);
                ("canvas_settings", PDict (canvas_settings s));
                ("layer_config", PDict (layer_config s)) ]) s);
  _ ← write (set_widgets []);
  _ ← write (set_widget_counter 0);
  _ ← write (set_selected_widget_id None);
  _ ← write (set_project_path None);
  _ ← write (set_unsaved_changes false);
  _ ← write (set_undo_stack []);
  _ ← write (set_redo_stack []);
  _ ← save_initial_state;
  write (emit state_changed).

(** Statements on one object reached from a field: [self.widgets[k]...] *)
Definition on_widget {A} (widget_id : string) (m : SM pyval A) : M A :=
  fun s =>
    match kget (PStr widget_id) (widgets s) with
    | Some w =>
        let '(r, w') := m w in
        (r, set_widgets (kset_raw (PStr widget_id) w' (widgets s)) s)
    | None => (Raise KeyError, s)
    end.

(** [add_widget]: the f-strings read [widget_data['type']], the second one
    in the call to the logger. *)
Definition add_widget (widget_data : pyval) : M string :=
  _ ← save_state;
  _ ← write (fun s => set_widget_counter (widget_counter s + 1) s);
  counter ← read widget_counter;
  let widget_id := "widget_" +:+ str_of_int counter in
  widget_data ← lift (py_copy widget_data);
  widget_data ← lift (py_setitem widget_data (PStr "id") (PStr widget_id));
  has ← lift (py_in "properties" widget_data);
  widget_data ← (if has : bool then mret widget_data
                 else lift (py_setitem widget_data (PStr "properties")
                              (PDict [])));
  properties ← lift (py_getitem widget_data "properties");
  has ← lift (py_in "name" properties);
  properties ←
    (if has : bool then mret properties
     else
       ty ← lift (py_getitem widget_data "type");
       ty ← lift (as_str ty);
       lift (py_setitem properties (PStr "name")
               (PStr (lower ty +:+ "_" +:+ str_of_int counter))));
  has ← lift (py_in "geometry" properties);
  properties ←
    (if has : bool then mret properties
     else lift (py_setitem properties (PStr "geometry")
                  (PList [PInt 100; PInt 100; PInt 200; PInt 100])));
  has ← lift (py_in "layer" properties);
  properties ←
    (if has : bool then mret properties
     else lift (py_setitem properties (PStr "layer") (PInt 2)));
  (* [properties] is the object held in [widget_data] *)
  widget_data ← lift (py_setitem widget_data (PStr "properties") properties);
  _ ← write (fun s =>
        set_widgets (kset_raw (PStr widget_id) widget_data (widgets s)) s);
  _ ← write (set_selected_widget_id (Some widget_id));
  _ ← write (emit (widget_added widget_id));
  _ ← write (emit (selection_changed (Some widget_id)));
  _ ← lift (py_getitem widget_data "type");
  mret widget_id.

Definition remove_widget (widget_id : string) : M bool :=
  present ← read (fun s => khas (PStr widget_id) (widgets s));
  if present : bool then
    _ ← save_state;
    widget_data ← query (fun s => kgetitem (PStr widget_id) (widgets s));
    _ ← write (fun s => set_widgets (kdel (PStr widget_id) (widgets s)) s);
    selected ← read selected_widget_id;
    _ ← (if bool_decide (selected = Some widget_id) then
           _ ← write (set_selected_widget_id None);
           write (emit (selection_changed None))
         else mret tt);
    _ ← write (emit (widget_removed widget_id));
    _ ← lift (py_getitem widget_data "type");
    mret true
  else mret false.

Definition get_widget (widget_id : string) (s : t) : option pyval :=
  kget (PStr widget_id) (widgets s).

(** The statements that [update_widget] applies to
    [self.widgets[widget_id]], which is there when they run. *)
Definition apply_updates (updates : pyval) : SM pyval unit :=
  has ← lift (py_in "properties" updates);
  _ ← (if has : bool then
         missing ← query (fun target => negb <$> py_in "properties" target);
         _ ← (if missing : bool then
                change (fun target =>
                          py_setitem target (PStr "properties") (PDict []))
              else mret tt);
         properties ← query (fun target => py_getitem target "properties");
         match properties with
         | PDict d =>
             arg ← lift (py_getitem updates "properties");
             let '(d', err) := dict_update d arg in
             _ ← change (fun target =>
                           py_setitem target (PStr "properties") (PDict d'));
             match err with
             | Some e => lift (Raise e)
             | None => mret tt
             end
         | _ => lift (Raise AttributeError)
         end
       else mret tt);
  match updates with
  | PDict items =>
      for_each_SM (fun kv =>
                     if negb (py_eqb (fst kv) (PStr "properties")) then
                       change (fun target => py_setitem target (fst kv) (snd kv))
                     else mret tt) items
  | _ => lift (Raise AttributeError)
  end.

Definition update_widget (widget_id : string) (updates : pyval) : M unit :=
  present ← read (fun s => khas (PStr widget_id) (widgets s));
  if present : bool then
    _ ← on_widget widget_id (apply_updates updates);
    write (emit (widget_modified widget_id))
  else mret tt.

Definition get_main_window_data (s : t) : outcome pyval :=
  py_get (project_data s) "main_window" (PDict []).

(** [self.project_data["main_window"]], read where a statement names
    it. *)
Definition main_window (s : t) : outcome pyval :=
  py_getitem (project_data s) "main_window".

(** What a statement changes in that object is seen under the same key of
    [self.project_data]. *)
Definition set_main_window (w : pyval) : M unit :=
  change (fun s =>
            pd ← py_setitem (project_data s) (PStr "main_window") w;
            Ret (set_project_data pd s)).

Definition update_main_window (updates : pyval) : M unit :=
  missing ← query (fun s => negb <$> py_in "main_window" (project_data s));
  _ ← (if missing : bool then set_main_window (PDict []) else mret tt);
  has ← lift (py_in "properties" updates);
  _ ← (if has : bool then
         w ← query main_window;
         missing ← lift (negb <$> py_in "properties" w);
         _ ← (if missing : bool then
                w ← query main_window;
                w ← lift (py_setitem w (PStr "properties") (PDict []));
                set_main_window w
              else mret tt);
         w ← query main_window;
         properties ← lift (py_getitem w "properties");
         match properties with
         | PDict d =>
             arg ← lift (py_getitem updates "properties");
             let '(d', err) := dict_update d arg in
             w ← lift (py_setitem w (PStr "properties") (PDict d'));
             _ ← set_main_window w;
             match err with
             | Some e => lift (Raise e)
             | None => mret tt
             end
         | _ => lift (Raise AttributeError)
         end
       else mret tt);
  match updates with
  | PDict items =>
      _ ← for_each_SM (fun kv =>
             if negb (py_eqb (fst kv) (PStr "properties")) then
               w ← query main_window;
               w ← lift (py_setitem w (fst kv) (snd kv));
               set_main_window w
             else mret tt) items;
      write (emit state_changed)
  | _ => lift (Raise AttributeError)
  end.

(** [self.canvas_settings.update(...)] and the like: the dict is changed as
    far as the update got. *)
Definition update_field (field : t -> dict) (set : dict -> t -> t)
    (arg : pyval) : M unit :=
  fun s =>
    let '(d', err) := dict_update (field s) arg in
    (match err with Some e => Raise e | None => Ret tt end, set d' s).

(** The list comprehension under [max] in [load_project_data] *)
Fixpoint widget_numbers (keys : list pyval) : outcome (list Z) :=
  match keys with
  | [] => Ret []
  | w_id :: r =>
      w ← as_str w_id;
      if startswith w "widget_" then
        n ← int_of_str (List.last (split "_" w) "");
        rest ← widget_numbers r;
        Ret (n :: rest)
      else widget_numbers r
  end.

Definition load_project_data (project_data : pyval) : M unit :=
  copy ← lift (py_copy project_data);
  _ ← write (set_project_data copy);
  has ← lift (py_in "widgets" project_data);
  _ ← (if has : bool then
         _ ← write (set_widgets []);
         ws ← lift (py_getitem project_data "widgets");
         ws ← lift (py_iter ws);
         _ ← for_each_SM (fun widget =>
                has_id ← lift (py_in "id" widget);
                if has_id : bool then
                  id ← lift (py_getitem widget "id");
                  change (fun s =>
                            w ← kset id widget (widgets s);
                            Ret (set_widgets w s))
                else mret tt) ws;
         nonempty ← read (fun s => truthy (PDict (widgets s)));
         if nonempty : bool then
           numbers ← query (fun s => widget_numbers (map fst (widgets s)));
           max_id ← lift (py_max numbers);
           write (set_widget_counter max_id)
         else mret tt
       else mret tt);
  has ← lift (py_in "canvas_settings" project_data);
  _ ← (if has : bool then
         arg ← lift (py_getitem project_data "canvas_settings");
         update_field canvas_settings set_canvas_settings arg
       else mret tt);
  has ← lift (py_in "layer_config" project_data);
  _ ← (if has : bool then
         arg ← lift (py_getitem project_data "layer_config");
         update_field layer_config set_layer_config arg
       else mret tt);
  has ← lift (py_in "framework" project_data);
  _ ← (if has : bool then
         fw ← lift (py_getitem project_data "framework");
         write (set_target_framework fw)
       else mret tt);
  _ ← write (set_selected_widget_id None);
  _ ← write (set_unsaved_changes false);
  _ ← write (set_undo_stack []);
  _ ← write (set_redo_stack []);
  _ ← save_initial_state;
  _ ← write (emit project_loaded);
  write (emit state_changed).

Definition mark_as_saved : M unit := write (set_unsaved_changes false).

(** The fields as [__init__] sets them before it calls [new_project]. *)
Definition fresh : t :=
  {| project_data := PDict [];
     project_path := None;
     target_framework := PStr "PyQt6";
     widgets := [];
     widget_counter := 0;
     selected_widget_id := None;
     undo_stack := [];
     redo_stack := [];
     max_undo_levels := 50;
     unsaved_changes := false;
     canvas_settings :=
       [ (PStr "grid_size", PInt 20); (PStr "grid_visible", PBool true);
         (PStr "snap_enabled", PBool true);
         (PStr "zoom_level", PFloat 1 0 "1.0") ];
     layer_config :=
       [ (PStr "total_layers", PInt 5);
         (PStr "layer_names",
           PList [ PStr "Background"; PStr "Content"; PStr "Controls";
                   PStr "Overlays"; PStr "Debug" ]) ];
     emitted := [] |}.

(** [StateManager()] *)
Definition init : t := snd (new_project fresh).

(** *** Undo and redo *)

Definition restore_state (state : snapshot) : M unit :=
  _ ← write (set_project_data (s_project_data state));
  _ ← write (set_widgets (s_widgets state));
  _ ← write (set_widget_counter (s_widget_counter state));
  _ ← write (set_selected_widget_id (s_selected_widget_id state));
  _ ← write (set_canvas_settings (s_canvas_settings state));
  _ ← write (set_layer_config (s_layer_config state));
  _ ← write (emit state_changed);
  selected ← read selected_widget_id;
  match selected with
  | Some widget_id =>
      if negb (String.eqb widget_id "")
      then write (emit (selection_changed (Some widget_id)))
      else mret tt
  | None => mret tt
  end.

Definition undo : M unit :=
  n ← read (fun s => length (undo_stack s));
  if (1 <? n)%nat then
    popped ← query (fun s => list_pop (undo_stack s));
    let '(current_state, rest) := popped in
    _ ← write (set_undo_stack rest);
    _ ← write (fun s => set_redo_stack (redo_stack s ++ [current_state]) s);
    previous_state ← query (fun s => list_last (undo_stack s));
    _ ← restore_state previous_state;
    write (set_unsaved_changes true)
  else mret tt.

Definition redo : M unit :=
  nonempty ← read (fun s => match redo_stack s with [] => false | _ => true end);
  if nonempty : bool then
    popped ← query (fun s => list_pop (redo_stack s));
    let '(state, rest) := popped in
    _ ← write (set_redo_stack rest);
    _ ← write (fun s => set_undo_stack (undo_stack s ++ [state]) s);
    _ ← restore_state state;
    write (set_unsaved_changes true)
  else mret tt.

Definition can_undo (s : t) : bool := (1 <? length (undo_stack s))%nat.

Definition can_redo (s : t) : bool := (0 <? length (redo_stack s))%nat.

Definition has_unsaved_changes (s : t) : bool := unsaved_changes s.

(** *** The other methods *)

(** The method [set_target_framework]; the name is taken by the assignment
    to the field. *)
Definition change_target_framework (framework : string) : M unit :=
  same ← read (fun s => py_eqb (PStr framework) (target_framework s));
  if negb same then
    _ ← write (set_target_framework (PStr framework));
    _ ← change (fun s =>
                  pd ← py_setitem (project_data s) (PStr "framework")
                         (PStr framework);
                  Ret (set_project_data pd s));
    _ ← save_state;
    write (emit (framework_changed framework))
  else mret tt.

Definition get_target_framework (s : t) : pyval := target_framework s.

Definition get_all_widgets (s : t) : dict := widgets s.

Definition set_selected_widget (widget_id : option string) : M unit :=
  same ← read (fun s => bool_decide (widget_id = selected_widget_id s));
  if negb same then
    _ ← write (set_selected_widget_id widget_id);
    write (emit (selection_changed widget_id))
  else mret tt.

Definition get_selected_widget (s : t) : option string := selected_widget_id s.


(** The method [set_project_path] *)
Definition change_project_path (path : string) : M unit :=
  write (set_project_path (Some path)).

Definition get_project_path (s : t) : option string := project_path s.

Definition update_canvas_settings (settings : pyval) : M unit :=
  _ ← update_field canvas_settings set_canvas_settings settings;
  write (emit state_changed).

Definition get_canvas_settings (s : t) : dict := canvas_settings s.

Definition update_layer_config (config : pyval) : M unit :=
  _ ← update_field layer_config set_layer_config config;
  save_state.

Definition get_layer_config (s : t) : dict := layer_config s.

End StateManager.

(** ** widgets/base_widget.py *)

Module BaseWidget.

(** [merge_properties(current, updates)], the recursive merge of the widget
    classes; [updates] is given as the dict value it is. *)
Fixpoint merge_value (updates : pyval) (current : dict) {struct updates}
  : dict :=
  match updates with
  | PDict items =>
      (fix go (items : list (pyval * pyval)) (result : dict) {struct items}
         : dict :=
         match items with
         | [] => result
         | (key, value) :: rest =>
             go rest
                match value, kget key result with
                | PDict _, Some (PDict inner) =>
                    kset_raw key (PDict (merge_value value inner)) result
                | _, _ => kset_raw key value result
                end
         end) items current
  | _ => current
  end.

Definition merge_properties (current updates : dict) : dict :=
  merge_value (PDict updates) current.

End BaseWidget.

(** [StandardWidget] of widgets/base_widget.py *)
Module StandardWidget.

(** [validate_properties]: the [try] turns an exception into [False]. *)
Definition validate_properties (properties : pyval) : bool :=
  let checks : outcome bool :=
    has ← py_in "name" properties;
    unnamed ←
      (if has : bool then
         name ← py_getitem properties "name";
         Ret (negb (truthy name))
       else Ret true);
    if unnamed : bool then Ret false
    else
      has ← py_in "geometry" properties;
      if negb has then Ret false
      else
        geometry ← py_getitem properties "geometry";
        match geometry with
        | PList g =>
            if negb (length g =? 4)%nat then Ret false
            else
              width ← py_index geometry 2;
              narrow ← py_le_zero width;
              if narrow : bool then Ret false
              else
                height ← py_index geometry 3;
                flat ← py_le_zero height;
                Ret (negb flat)
        | _ => Ret false
        end in
  match checks with
  | Ret b => b
  | Raise _ => false
  end.

End StandardWidget.

(** ** core/project_manager.py *)

Module ProjectManager.

(** The message boxes of [show_error]; the text of an exception is stood
    for by the exception. *)
Inductive dialog : Type :=
| show_error (title : string) (cause : option exn).

Record t : Type := {
  state_manager : StateManager.t;
  shown : list dialog;
}.

(** [validate_project_data]: the [try] turns an exception into [False]. *)
Definition validate_project_data (project_data : pyval) : bool :=
  let checks : outcome bool :=
    missing ← any_of (fun field => negb <$> py_in field project_data)
                     ["name"; "framework"];
    if missing : bool then Ret false
    else
      has ← py_in "main_window" project_data;
      if negb has then Ret false
      else
        has ← py_in "widgets" project_data;
        if has : bool then
          ws ← py_getitem project_data "widgets";
          match ws with
          | PList _ => Ret true
          | _ => Ret false
          end
        else Ret true in
  match checks with
  | Ret b => b
  | Raise _ => false
  end.

(** [open_project(filepath)].  The file dialog's answer and the file system
    are given: [chosen] is what [QFileDialog.getOpenFileName] returns, and
    [load_json path] what [json.load] gives on the file at [path], or the
    exception of [open] or of the parser. *)
Definition open_project (chosen : string) (load_json : string -> outcome pyval)
    (filepath : option string) (pm : t) : bool * t :=
  let filepath :=
    match filepath with
    | Some f => if String.eqb f "" then chosen else f
    | None => chosen
    end in
  if String.eqb filepath "" then (false, pm)
  else
    match load_json filepath with
    | Raise e =>
        (false, {| state_manager := state_manager pm;
                   shown := shown pm ++ [show_error "Failed to open project" (Some e)] |})
    | Ret project_data =>
        if negb (validate_project_data project_data) then
          (false, {| state_manager := state_manager pm;
                     shown := shown pm ++ [show_error "Invalid Project" None] |})
        else
          let load : StateManager.M unit :=
            _ ← StateManager.load_project_data project_data;
            _ ← write (StateManager.set_project_path (Some filepath));
            StateManager.mark_as_saved in
          match load (state_manager pm) with
          | (Ret _, sm) => (true, {| state_manager := sm; shown := shown pm |})
          | (Raise e, sm) =>
              (false, {| state_manager := sm;
                         shown := shown pm ++ [show_error "Failed to open project" (Some e)] |})
          end
    end.

(** [generate_requirements]: the list [requirements] that the method joins
    with newlines.  The set [plugin_requirements] holds text only and is
    read through [sorted]. *)
Definition requirements_list (project_data : pyval) : outcome (list string) :=
  framework ← py_get project_data "framework" (PStr "PyQt6");
  name ← py_get project_data "name" (PStr "GUI Application");
  let requirements :=
    [ "# Requirements for " +:+ py_str name;
      "# Generated by ProGamerGUI Builder";
      "# Framework: " +:+ py_str framework;
      "" ] in
  let requirements :=
    if py_eqb framework (PStr "PyQt6") then
      requirements ++ ["PyQt6>=6.5.0"; "PyQt6-Qt6>=6.5.0"]
    else if py_eqb framework (PStr "PyQt5") then
      requirements ++ ["PyQt5>=5.15.0"]
    else if py_eqb framework (PStr "Tkinter") then
      requirements ++ [ "# Tkinter is included with Python";
                        "# No additional requirements needed" ]
    else if py_eqb framework (PStr "CustomTkinter") then
      requirements ++ ["customtkinter>=5.2.0"; "Pillow>=8.3.0"]
    else requirements in
  widgets ← py_get project_data "widgets" (PList []);
  ws ← py_iter widgets;
  plugin_requirements ←
    for_each (fun plugin_requirements widget =>
                widget_type ← py_get widget "type" (PStr "");
                if py_eqb widget_type (PStr "MapView") then
                  Ret (set_add_str "tkintermapview>=1.29" plugin_requirements)
                else if py_eqb widget_type (PStr "TimePicker") then
                  Ret (set_add_str "tktimepicker>=2.0.1" plugin_requirements)
                else if py_eqb widget_type (PStr "VideoPlayer") then
                  Ret (set_add_str "tkvideoplayer>=2.3" plugin_requirements)
                else Ret plugin_requirements) ws [];
  Ret (match plugin_requirements with
       | [] => requirements
       | _ =>
           requirements ++ [""; "# Plugin requirements"]
           ++ sorted_strs plugin_requirements
       end).

Definition generate_requirements (project_data : pyval) : outcome string :=
  requirements ← requirements_list project_data;
  Ret (join NL requirements).

End ProjectManager.


(** ** core/property_editor.py *)

Module PropertyEditor.

(** The update [on_property_changed] sends for a path of three parts: the
    group is read from the target and the field is set in it.  The group
    read is the object held in the state, which the assignment changes in
    place; the update then stores that same object under the same key, so
    the state after the call is the one the update alone gives. *)
Definition nested_update (target : pyval) (group field : string)
    (value : pyval) : outcome pyval :=
  properties ← py_get target "properties" (PDict []);
  nested_data ← py_get properties group (PDict []);
  nested_data ← py_setitem nested_data (PStr field) value;
  Ret (obj [("properties", PDict [(PStr group, nested_data)])]).

Definition on_property_changed (widget_id property_path : string)
    (value : pyval) : StateManager.M unit :=
  let path_parts := split "." property_path in
  let is_properties :=
    match path_parts with
    | first :: _ :: _ => String.eqb first "properties"
    | _ => false
    end in
  if String.eqb widget_id "main_window" then
    if is_properties then
      match path_parts with
      | [_; name] =>
          StateManager.update_main_window
            (obj [("properties", PDict [(PStr name, value)])])
      | [_; group; field] =>
          current_data ← query StateManager.get_main_window_data;
          updates ← lift (nested_update current_data group field value);
          StateManager.update_main_window updates
      | _ => mret tt
      end
    else mret tt
  else
    if is_properties then
      match path_parts with
      | [_; name] =>
          StateManager.update_widget widget_id
            (obj [("properties", PDict [(PStr name, value)])])
      | [_; group; field] =>
          current_data ← read (StateManager.get_widget widget_id);
          match current_data with
          | Some data =>
              if truthy data then
                updates ← lift (nested_update data group field value);
                StateManager.update_widget widget_id updates
              else mret tt
          | None => mret tt
          end
      | _ => mret tt
      end
    else mret tt.

End PropertyEditor.

(** ** The identifier resolution of the design document, section 4.3,
       written from its words *)

Module IdentifierResolutionSpec.

(** "every character outside [A-Za-z0-9_]" *)
Definition allowed (c : ascii) : bool :=
  str_has c "ABCDEFGHIJKLMNOPQRSTUVWXYZabcdefghijklmnopqrstuvwxyz0123456789_".

Definition digit (c : ascii) : bool := str_has c "0123456789".

(** Replace, prefix with [_] if the first character is a digit, default to
    [widget]. *)
Definition sanitized_base (name : string) : string :=
  let replaced := str_map (fun c => if allowed c then c else "_"%char) name in
  let prefixed :=
    match name with
    | String c _ => if digit c then "_" +:+ replaced else replaced
    | EmptyString => replaced
    end in
  match prefixed with
  | EmptyString => "widget"
  | _ => prefixed
  end.

(** The name of a widget whose base has occurred [k] times before it. *)
Definition numbered (base : string) (k : nat) : string :=
  match k with
  | O => base
  | S _ => base +:+ "_" +:+ str_of_int (Z.of_nat k)
  end.

Definition occurrences (base : string) (earlier : list string) : nat :=
  length (filter (fun b => b = base) earlier).

(** Final names in project order, [earlier] being the bases already
    seen. *)
Fixpoint final_names (earlier bases : list string) : list string :=
  match bases with
  | [] => []
  | base :: rest =>
      numbered base (occurrences base earlier)
      :: final_names (earlier ++ [base]) rest
  end.

(** What the widget declares: the code reads a widget without id as having
    the id [""], and one without name as named [widget]. *)
Definition declared_id (widget : pyval) : pyval :=
  match widget with
  | PDict d => default (PStr "") (dget "id" d)
  | _ => PStr ""
  end.

Definition declared_name (widget : pyval) : string :=
  match widget with
  | PDict d =>
      match dget "properties" d with
      | Some (PDict p) =>
          match dget "name" p with Some (PStr n) => n | _ => "widget" end
      | _ => "widget"
      end
  | _ => "widget"
  end.

(** The mapping from widget id to final name. *)
Definition mapping (ids : list pyval) (names : list string) : kdict string :=
  fold_left (fun m kv => kset_raw (fst kv) (snd kv) m) (zip ids names) [].

Definition resolve (widgets : list pyval) : kdict string :=
  mapping (map declared_id widgets)
          (final_names [] (map (fun w => sanitized_base (declared_name w))
                               widgets)).

(** The widgets the algorithm is stated for: objects whose id can be a key
    and whose name is text. *)
Definition widget_ok (widget : pyval) : bool :=
  match widget with
  | PDict d =>
      match dget "id" d with Some i => hashable i | None => true end
      && match dget "properties" d with
         | Some (PDict p) =>
             match dget "name" p with
             | Some (PStr _) | None => true
             | _ => false
             end
         | None => true
         | _ => false
         end
  | _ => false
  end.

End IdentifierResolutionSpec.

(** * Definitions for the statements *)

(** [name_counts] holds, for a base seen [k + 1] times, the number [k]. *)
Definition counts_agree (name_counts : gmap string Z) (earlier : list string)
  : Prop :=
  forall b, name_counts !! b
            = match IdentifierResolutionSpec.occurrences b earlier with
              | O => None
              | S k => Some (Z.of_nat k)
              end.


(** A widget with an id and a declared name. *)
Definition named_widget (id name : string) : pyval :=
  obj [ ("id", PStr id); ("type", PStr "Button");
        ("properties", obj [("name", PStr name)]) ].

(** The example of the design document: [My Btn!], [My_Btn], [other]. *)
Definition example_widgets : list pyval :=
  [ named_widget "widget_1" "My Btn!"; named_widget "widget_2" "My_Btn";
    named_widget "widget_3" "other" ].

(** The same without the exclamation mark: [My Btn], [My_Btn], [other]. *)
Definition colliding_widgets : list pyval :=
  [ named_widget "widget_1" "My Btn"; named_widget "widget_2" "My_Btn";
    named_widget "widget_3" "other" ].

(** Two widgets named [btn] and one named [btn_1]. *)
Definition clashing_widgets : list pyval :=
  [ named_widget "widget_1" "btn"; named_widget "widget_2" "btn";
    named_widget "widget_3" "btn_1" ].

(** The registry once the two generator modules are imported; the PyQt6
    generator is built for the set orders of the running interpreter. *)
Definition registry (order_types : list pyval -> list pyval)
    (order_classes : list string -> list string)
  : gmap string BaseGenerator.generator :=
  BaseGenerator.register_generator "Tkinter" TkinterGenerator.instance
    (BaseGenerator.register_generator "PyQt6"
       (PyQt6Generator.instance order_types order_classes) ∅).

(** [v[k1][k2]...] where every step is a dict lookup *)
Fixpoint nested (v : pyval) (path : list string) : option pyval :=
  match path with
  | [] => Some v
  | k :: rest =>
      match v with
      | PDict d => match dget k d with Some x => nested x rest | None => None end
      | _ => None
      end
  end.

(** A session with one button that has the colors of the standard widgets. *)
Definition button_colors : pyval :=
  obj [ ("background", PStr "#FFFFFF"); ("foreground", PStr "#000000");
        ("border", PStr "#CCCCCC") ].

Definition button_properties : dict :=
  [ (PStr "name", PStr "button_1"); (PStr "colors", button_colors) ].

Definition styled_button : pyval :=
  obj [ ("type", PStr "Button"); ("properties", PDict button_properties) ].

Definition one_button : StateManager.t :=
  snd (StateManager.add_widget styled_button StateManager.init).

(** The update that sets [colors.background] alone. *)
Definition background_alone (color : string) : dict :=
  [ (PStr "colors", obj [("background", PStr color)]) ].

Definition set_background (color : string) : pyval :=
  obj [("properties", PDict (background_alone color))].

Definition widget_field (s : StateManager.t) (widget_id : string)
    (path : list string) : option pyval :=
  StateManager.get_widget widget_id s ≫= fun w => nested w path.

(** A document as [validate_project_data] wants it. *)
Definition is_array (v : pyval) : bool :=
  match v with PList _ => true | _ => false end.

(** The path [open_project] reads: the argument, or the file dialog's
    answer when there is none. *)
Definition path_opened (chosen : string) (filepath : option string) : string :=
  match filepath with
  | Some f => if String.eqb f "" then chosen else f
  | None => chosen
  end.

Definition document_without_window : dict :=
  [ (PStr "name", PStr "Demo"); (PStr "framework", PStr "PyQt6");
    (PStr "widgets", PList []) ].

(** A triple for statements on an object: from a state in [P], the
    statement ends in [Q] with its value, or in [E] when it raises. *)
Definition hoare {S A} (P : S -> Prop) (m : SM S A) (Q : A -> S -> Prop)
    (E : S -> Prop) : Prop :=
  forall s, P s ->
    match m s with
    | (Ret a, s') => Q a s'
    | (Raise _, s') => E s'
    end.

(** Sessions: a sequence of additions and removals, each applied to the
    state the one before left; an addition that raises issues no id. *)
Inductive operation : Type :=
| Add (widget_data : pyval)
| Remove (widget_id : string).

Definition apply_operation (op : operation) (s : StateManager.t)
  : StateManager.t * list string :=
  match op with
  | Add widget_data =>
      match StateManager.add_widget widget_data s with
      | (Ret widget_id, s') => (s', [widget_id])
      | (Raise _, s') => (s', [])
      end
  | Remove widget_id => (snd (StateManager.remove_widget widget_id s), [])
  end.

(** The state after the operations and the ids issued, oldest first. *)
Fixpoint run (ops : list operation) (s : StateManager.t)
  : StateManager.t * list string :=
  match ops with
  | [] => (s, [])
  | op :: rest =>
      let '(s', issued) := apply_operation op s in
      let '(s'', later) := run rest s' in
      (s'', issued ++ later)
  end.

Definition widget_id_of (n : Z) : string := "widget_" +:+ str_of_int n.

(** Widget data [add_widget] accepts: an object with a [type] that is
    text, and properties, if any, that are an object. *)
Definition addable (widget_data : pyval) : bool :=
  match widget_data with
  | PDict d =>
      match dget "type" d with Some (PStr _) => true | _ => false end
      && match dget "properties" d with
         | Some (PDict _) | None => true
         | _ => false
         end
  | _ => false
  end.

Definition additions (ops : list operation) : list pyval :=
  omap (fun op => match op with Add d => Some d | Remove _ => None end) ops.

(** Three buttons added, the first removed in between. *)
Definition short_session : list operation :=
  [ Add styled_button; Add styled_button; Remove "widget_1";
    Add styled_button ].

(** Ids of the form [widget_<n>]: the text [widget_] and then decimal
    digits, at least one and no more than [int()] reads. *)
Fixpoint after_prefix (p s : string) : option string :=
  match p, s with
  | EmptyString, _ => Some s
  | String a p', String b s' =>
      if Ascii.eqb a b then after_prefix p' s' else None
  | _, _ => None
  end.

Definition number_of_id (id : string) : option Z :=
  match after_prefix "widget_" id with
  | Some (String c r) =>
      if str_forallb is_ascii_digit (String c r)
         && (Z.of_nat (String.length (String c r)) <=? int_max_str_digits)
      then Some (digits_value 0 (String c r)) else None
  | _ => None
  end.

(** The id of a widget of a document, when it is there and is text. *)
Definition id_text (widget : pyval) : option string :=
  match widget with
  | PDict d => match dget "id" d with Some (PStr id) => Some id | _ => None end
  | _ => None
  end.

(** The widgets of a document the loader is stated for: objects; an id, if
    there is one, is text, and either does not begin with [widget_] or has
    the form [widget_<n>]. *)
Definition loadable_widget (widget : pyval) : bool :=
  match widget with
  | PDict d =>
      match dget "id" d with
      | None => true
      | Some (PStr id) =>
          negb (startswith id "widget_") || bool_decide (is_Some (number_of_id id))
      | Some _ => false
      end
  | _ => false
  end.

(** The numbers of the ids [widget_<n>] of a document, and their
    maximum. *)
Definition loaded_numbers (ws : list pyval) : list Z :=
  omap number_of_id (omap id_text ws).

Definition max_of (numbers : list Z) : Z := fold_right Z.max 0 numbers.

(** Settings the loader can merge: absent, or an object. *)
Definition settings_ok (d : dict) : bool :=
  match dget "canvas_settings" d with
  | Some (PDict _) | None => true
  | _ => false
  end
  && match dget "layer_config" d with
     | Some (PDict _) | None => true
     | _ => false
     end.



(** The widget map the loader builds: each widget with an id is stored
    under it, a later one replacing an earlier one of the same id. *)
Definition store_widget (widgets : dict) (widget : pyval) : dict :=
  match id_text widget with
  | Some id => kset_raw (PStr id) widget widgets
  | None => widgets
  end.

Definition loaded_widgets (ws : list pyval) : dict :=
  fold_left store_widget ws [].


(** The construct a widget type maps to in a generator's table, if any;
    only text is a key of the table. *)
Definition class_of (table : list (string * string)) (widget_type : pyval)
  : option string :=
  match widget_type with
  | PStr s => snd <$> find (fun kv => String.eqb s (fst kv)) table
  | _ => None
  end.

(** One round of the loop of [generate_imports] over the used types. *)
Definition add_class (classes : list string) (widget_type : pyval)
  : list string :=
  match class_of PyQt6Generator.widget_class_map widget_type with
  | Some c => if String.eqb c "" then classes else set_add_str c classes
  | None => classes
  end.

(** The scenario of the design document: a PyQt6 project with a window of
    geometry 100, 100, 800, 600 and a button named [submit] that shows the
    message [Done]; a list box is the second widget. *)
Definition scenario_project : pyval :=
  obj [ ("name", PStr "Scenario"); ("framework", PStr "PyQt6");
        ("main_window",
          obj [("properties",
                 obj [ ("title", PStr "Scenario");
                       ("geometry",
                         PList [PInt 100; PInt 100; PInt 800; PInt 600]) ])]);
        ("widgets",
          PList
            [ obj [ ("id", PStr "widget_1"); ("type", PStr "Button");
                    ("properties",
                      obj [ ("name", PStr "submit"); ("text", PStr "Submit");
                            ("geometry",
                              PList [PInt 10; PInt 10; PInt 120; PInt 40]);
                            ("action",
                              obj [ ("type", PStr "message");
                                    ("target", PStr "Done") ]) ]) ];
              obj [ ("id", PStr "widget_2"); ("type", PStr "ListBox");
                    ("properties",
                      obj [ ("name", PStr "choices");
                            ("items", PList [PStr "a"; PStr "b"]) ]) ] ]) ].

(** ** The projects the generators are stated for

    Objects shaped as the data model of the design document has them; a
    key that is read with a default may be absent. *)
Definition opt (d : dict) (k : string) (p : pyval -> bool) : bool :=
  match dget k d with Some v => p v | None => true end.

Definition is_str (v : pyval) : bool :=
  match v with PStr _ => true | _ => false end.

Definition is_dict (v : pyval) : bool :=
  match v with PDict _ => true | _ => false end.

Definition is_list (v : pyval) : bool :=
  match v with PList _ => true | _ => false end.

Definition is_geometry (v : pyval) : bool :=
  match v with PList [_; _; _; _] => true | _ => false end.

Definition tab_ok (v : pyval) : bool :=
  match v with PDict d => opt d "title" is_str | _ => false end.

Definition tabs_ok (v : pyval) : bool :=
  match v with PList l => forallb tab_ok l | _ => false end.

Definition properties_ok (v : pyval) : bool :=
  match v with
  | PDict d =>
      opt d "name" is_str && opt d "text" is_str
      && opt d "geometry" is_geometry && opt d "placeholder" is_str
      && opt d "items" is_list && opt d "tab_data" tabs_ok
      && opt d "font" is_dict && opt d "colors" is_dict
      && opt d "action" is_dict
  | _ => false
  end.

Definition ir_widget (v : pyval) : bool :=
  match v with
  | PDict d =>
      opt d "id" hashable && opt d "type" hashable
      && opt d "properties" properties_ok
  | _ => false
  end.

Definition window_properties_ok (v : pyval) : bool :=
  match v with
  | PDict d => opt d "geometry" is_geometry && opt d "colors" is_dict
  | _ => false
  end.

Definition window_ok (v : pyval) : bool :=
  match v with
  | PDict d => opt d "properties" window_properties_ok
  | _ => false
  end.

Definition widgets_ok (v : pyval) : bool :=
  match v with PList ws => forallb ir_widget ws | _ => false end.

Definition ir_project (v : pyval) : bool :=
  match v with
  | PDict d =>
      opt d "name" is_str && opt d "main_window" window_ok
      && opt d "widgets" widgets_ok
  | _ => false
  end.

Definition widgets_of (project_data : pyval) : list pyval :=
  match project_data with
  | PDict d => match dget "widgets" d with Some (PList ws) => ws | _ => [] end
  | _ => []
  end.

(** A computation that returns. *)
Definition ok {A} (m : outcome A) : Prop := exists a, m = Ret a.

(** A widget whose type is hashable and is no key of the table. *)
Definition unrecognized (table : list (string * string)) (widget : pyval)
  : bool :=
  match widget with
  | PDict d =>
      let t := default (PStr "") (dget "type" d) in
      hashable t && negb (bool_decide (is_Some (class_of table t)))
  | _ => false
  end.

(** What [PyQt6Generator.generate_widget_code] comes to for a type that is
    not in its table: the construction of a [QWidget], the geometry, and
    the common properties. *)
Definition pyqt6_fallback (widget_data : pyval) (parent_var : string)
  : outcome string :=
  properties ← py_get widget_data "properties" (PDict []);
  name ← py_get properties "name" (PStr "widget");
  var_name ← BaseGenerator.sanitize_name name;
  geometry ← py_get properties "geometry"
               (PList [PInt 0; PInt 0; PInt 100; PInt 50]);
  geometry_code ← BaseGenerator.generate_geometry_code geometry;
  common_code ←
    PyQt6Generator.generate_common_properties_code widget_data
      (parent_var +:+ "." +:+ var_name);
  Ret (join NL
         ([ parent_var +:+ "." +:+ var_name +:+ " = QWidget(" +:+ parent_var
              +:+ ".central_widget)";
            parent_var +:+ "." +:+ var_name +:+ ".setGeometry("
              +:+ geometry_code +:+ ")" ]
          ++ (if String.eqb common_code "" then [] else [common_code]))).

(** The options of the Tkinter fallback: colors and font. *)
Definition tkinter_common_options (properties : pyval)
  : outcome (list string) :=
  colors ← py_get properties "colors" (PDict []);
  bg ← py_get colors "background" PNone;
  fg ← py_get colors "foreground" PNone;
  font_data ← py_get properties "font" (PDict []);
  o_font ←
    (if truthy font_data then
       family ← py_get font_data "family" (PStr "Arial");
       size ← py_get font_data "size" (PInt 9);
       bold ← py_get font_data "bold" (PBool false);
       italic ← py_get font_data "italic" (PBool false);
       Ret ["font=(" +:+ DQ +:+ py_str family +:+ DQ +:+ ", " +:+ py_str size
            +:+ ", " +:+ DQ +:+ (if truthy bold then "bold" else "normal")
            +:+ DQ +:+ ", " +:+ DQ
            +:+ (if truthy italic then "italic" else "roman") +:+ DQ +:+ ")"]
     else Ret []);
  Ret ((if truthy bg then ["bg=" +:+ DQ +:+ py_str bg +:+ DQ] else [])
       ++ (if truthy fg then ["fg=" +:+ DQ +:+ py_str fg +:+ DQ] else [])
       ++ o_font).

(** What [TkinterGenerator.generate_widget_code] comes to for a type that
    is not in its table: the construction of a [tk.Widget] with the color
    and font options, the placement, and the disabled state. *)
Definition tkinter_fallback (widget_data : pyval) (parent_var : string)
  : outcome string :=
  properties ← py_get widget_data "properties" (PDict []);
  name ← py_get properties "name" (PStr "widget");
  var_name ← BaseGenerator.sanitize_name name;
  options ← tkinter_common_options properties;
  let parent_ref :=
    if String.eqb parent_var "self" then parent_var +:+ ".root"
    else parent_var in
  let creation :=
    if String.eqb (join ", " options) "" then
      parent_var +:+ "." +:+ var_name +:+ " = tk.Widget(" +:+ parent_ref
      +:+ ")"
    else
      parent_var +:+ "." +:+ var_name +:+ " = tk.Widget(" +:+ parent_ref
      +:+ ", " +:+ join ", " options +:+ ")" in
  geometry ← py_get properties "geometry"
               (PList [PInt 0; PInt 0; PInt 100; PInt 50]);
  '(x, y, width, height) ← BaseGenerator.unpack4 geometry;
  enabled ← py_get properties "enabled" (PBool true);
  Ret (join NL
         ([ creation;
            parent_var +:+ "." +:+ var_name +:+ ".place(x=" +:+ py_str x
              +:+ ", y=" +:+ py_str y +:+ ", width=" +:+ py_str width
              +:+ ", height=" +:+ py_str height +:+ ")" ]
          ++ (if negb (truthy enabled)
              then [parent_var +:+ "." +:+ var_name +:+ ".configure(state="
                    +:+ DQ +:+ "disabled" +:+ DQ +:+ ")"]
              else []))).

(** A widget of a type that no generator has in its table. *)
Definition map_view : pyval :=
  obj [ ("id", PStr "widget_10"); ("type", PStr "MapView");
        ("properties", obj [("name", PStr "map")]) ].

(** The generator [g], whose widget code is [widget_code], returns for the
    project the single file [main.py], and the text of that file contains
    the indented code of every widget of the project. *)
Definition generates (g : BaseGenerator.generator)
    (widget_code : pyval -> string -> outcome string) (project_data : pyval)
  : Prop :=
  exists main codes,
    BaseGenerator.generate_project g project_data = Ret [("main.py", main)]
    /\ Forall2 (fun w c => widget_code w "self" = Ret c)
         (widgets_of project_data) codes
    /\ Forall (fun c =>
                 contains_str (BaseGenerator.format_code c 2) main = true)
         codes.

(** A widget of the data model whose id is a key of the resolved names and
    whose code is generated. *)
Definition renders (widget_code : pyval -> string -> outcome string)
    (var_names : kdict string) (w : pyval) : Prop :=
  ir_widget w = true
  /\ khas (IdentifierResolutionSpec.declared_id w) var_names = true
  /\ ok (widget_code w "self").

(** A project with a label and the widget of a type that is in no table. *)
Definition map_project : pyval :=
  obj [ ("name", PStr "Atlas"); ("framework", PStr "PyQt6");
        ("main_window", obj [("properties", obj [("title", PStr "Atlas")])]);
        ("widgets",
          PList
            [ obj [ ("id", PStr "widget_9"); ("type", PStr "Label");
                    ("properties",
                      obj [("name", PStr "caption"); ("text", PStr "Map")]) ];
              map_view ]) ].

(** ** Statements on the history of the state manager *)

(** The undo stack holds at least one snapshot, and the two stacks
    together hold at most [max_undo_levels], which is [n]. *)
Definition history_ok (n : nat) (s : StateManager.t) : Prop :=
  (1 <= length (StateManager.undo_stack s))%nat
  /\ (length (StateManager.undo_stack s)
      + length (StateManager.redo_stack s) <= n)%nat
  /\ StateManager.max_undo_levels s = n.

(** The calls a user of the state manager and of the property editor can
    make. *)
Inductive user_call : Type :=
| NewProject
| Undo
| Redo
| SetTargetFramework (framework : string)
| AddWidget (widget_data : pyval)
| RemoveWidget (widget_id : string)
| UpdateWidget (widget_id : string) (updates : pyval)
| SetSelectedWidget (widget_id : option string)
| UpdateMainWindow (updates : pyval)
| LoadProjectData (project_data : pyval)
| MarkAsSaved
| SetProjectPath (path : string)
| UpdateCanvasSettings (settings : pyval)
| UpdateLayerConfig (config : pyval)
| PropertyChanged (widget_id property_path : string) (value : pyval).

(** The state a call leaves, whether it returns or raises. *)
Definition perform (a : user_call) (s : StateManager.t) : StateManager.t :=
  match a with
  | NewProject => snd (StateManager.new_project s)
  | Undo => snd (StateManager.undo s)
  | Redo => snd (StateManager.redo s)
  | SetTargetFramework framework =>
      snd (StateManager.change_target_framework framework s)
  | AddWidget widget_data => snd (StateManager.add_widget widget_data s)
  | RemoveWidget widget_id => snd (StateManager.remove_widget widget_id s)
  | UpdateWidget widget_id updates =>
      snd (StateManager.update_widget widget_id updates s)
  | SetSelectedWidget widget_id =>
      snd (StateManager.set_selected_widget widget_id s)
  | UpdateMainWindow updates => snd (StateManager.update_main_window updates s)
  | LoadProjectData project_data =>
      snd (StateManager.load_project_data project_data s)
  | MarkAsSaved => snd (StateManager.mark_as_saved s)
  | SetProjectPath path => snd (StateManager.change_project_path path s)
  | UpdateCanvasSettings settings =>
      snd (StateManager.update_canvas_settings settings s)
  | UpdateLayerConfig config =>
      snd (StateManager.update_layer_config config s)
  | PropertyChanged widget_id property_path value =>
      snd (PropertyEditor.on_property_changed widget_id property_path value s)
  end.

Definition perform_all (actions : list user_call) (s : StateManager.t)
  : StateManager.t :=
  fold_left (fun s a => perform a s) actions s.

(** What an edit of properties leaves alone: the two stacks, the flag of
    unsaved changes, the counter, the selection, the framework and the
    path. *)
Definition bookkeeping (s : StateManager.t) :=
  (StateManager.undo_stack s, StateManager.redo_stack s,
   StateManager.max_undo_levels s, StateManager.unsaved_changes s,
   StateManager.widget_counter s, StateManager.selected_widget_id s,
   StateManager.target_framework s, StateManager.project_path s).

(** ** Statements on loading and saving *)



(** A project file without widgets, one whose widgets have other ids, and
    the manager of a project with one button. *)
Definition document_without_widgets : dict :=
  [ (PStr "name", PStr "Bare"); (PStr "framework", PStr "Tkinter");
    (PStr "main_window", PDict []) ].



Definition button_manager : ProjectManager.t :=
  {| ProjectManager.state_manager := one_button;
     ProjectManager.shown := [] |}.


(** Widget data with a name and without a type. *)
Definition typeless_widget : pyval :=
  obj [("properties", obj [("name", PStr "ghost")])].

(** The base name the loop of [resolve_variable_names] computes for a
    widget, which is also the name [generate_widget_code] computes. *)
Definition base_name (widget : pyval) : outcome string :=
  properties ← py_get widget "properties" (PDict []);
  base_name ← py_get properties "name" (PStr "widget");
  BaseGenerator.sanitize_name base_name.

(** Three widgets of which two declare the same name. *)
Definition same_named_widgets : list pyval :=
  [ named_widget "widget_1" "ok"; named_widget "widget_2" "ok";
    named_widget "widget_3" "cancel" ].

(** A project that passes [validate_project_data] and holds a label whose
    geometry has three values. *)
Definition short_label_properties : dict :=
  [ (PStr "name", PStr "caption");
    (PStr "geometry", PList [PInt 10; PInt 10; PInt 80]) ].

Definition short_label : dict :=
  [ (PStr "id", PStr "widget_1"); (PStr "type", PStr "Label");
    (PStr "properties", PDict short_label_properties) ].

Definition short_label_project : dict :=
  [ (PStr "name", PStr "Atlas"); (PStr "framework", PStr "PyQt6");
    (PStr "main_window", PDict []);
    (PStr "widgets",
      PList [named_widget "widget_2" "ok"; PDict short_label]) ].

(** * Properties *)

(** ** Text *)

Ltac each_char c := destruct c as [[] [] [] [] [] [] [] []].

Lemma str_map_ext (f g : ascii -> ascii) s :
  (forall c, f c = g c) -> str_map f s = str_map g s.
Proof. intros E. induction s as [|c r IH]; simpl; [done|]. by rewrite E, IH. Qed.

Lemma word_char_allowed c :
  BaseGenerator.word_char c = IdentifierResolutionSpec.allowed c.
Proof. each_char c; reflexivity. Qed.

Lemma isdigit_after_replace c :
  isdigit (if IdentifierResolutionSpec.allowed c then c else "_"%char)
  = IdentifierResolutionSpec.digit c.
Proof. each_char c; reflexivity. Qed.

Lemma sanitize_name_spec s :
  BaseGenerator.sanitize_name (PStr s)
  = Ret (IdentifierResolutionSpec.sanitized_base s).
Proof.
  unfold BaseGenerator.sanitize_name, IdentifierResolutionSpec.sanitized_base,
    BaseGenerator.re_sub_non_word.
  rewrite (str_map_ext _ (fun c => if IdentifierResolutionSpec.allowed c
                                   then c else "_"%char))
    by (intros c; by rewrite word_char_allowed).
  destruct s as [|c r]; simpl; [done|].
  rewrite isdigit_after_replace.
  by destruct (IdentifierResolutionSpec.digit c).
Qed.

(** ** Identifier resolution *)

Section resolution.
Import BaseGenerator IdentifierResolutionSpec.

Lemma occurrences_snoc b earlier base :
  occurrences b (earlier ++ [base])
  = (occurrences b earlier + if decide (base = b) then 1 else 0)%nat.
Proof.
  unfold occurrences. rewrite filter_app, length_app. f_equal.
  rewrite filter_cons, filter_nil. by destruct (decide (base = b)).
Qed.

Lemma counts_agree_step name_counts earlier base :
  counts_agree name_counts earlier ->
  counts_agree
    (<[base := match name_counts !! base with
               | Some n => n + 1
               | None => 0
               end]> name_counts)
    (earlier ++ [base]).
Proof.
  intros H b. rewrite occurrences_snoc.
  destruct (decide (base = b)) as [->|Hne].
  - rewrite lookup_insert_eq, (H b).
    destruct (occurrences b earlier) as [|k]; simpl; [done|].
    replace (k + 1)%nat with (S k) by lia. f_equal. lia.
  - rewrite lookup_insert_ne by done. rewrite (H b).
    by rewrite Nat.add_0_r.
Qed.

Lemma resolve_widget_ok name_counts acc w :
  widget_ok w = true ->
  let base := sanitized_base (declared_name w) in
  resolve_widget (name_counts, acc) w
  = Ret (<[base := match name_counts !! base with
                   | Some n => n + 1
                   | None => 0
                   end]> name_counts,
         kset_raw (declared_id w)
           (match name_counts !! base with
            | Some n => base +:+ "_" +:+ str_of_int (n + 1)
            | None => base
            end) acc).
Proof.
  destruct w as [| | | | | |d]; try done.
  unfold widget_ok, resolve_widget, declared_name, declared_id, kset.
  cbn [py_get mbind outcome_bind].
  intros Hok. apply andb_prop in Hok as [Hid Hp]. revert Hid Hp.
  destruct (dget "id" d) as [i|]; cbn [default]; intros Hid Hp;
    [|clear Hid; set (i := PStr ""); assert (Hid : hashable i = true) by done].
  all: revert Hp;
    destruct (dget "properties" d) as [[| | | | | |p]|]; try done;
    cbn [py_get mbind outcome_bind];
    try (destruct (dget "name" p) as [[]|]; try done);
    intros _; try change (dget "name" []) with (@None pyval); cbv beta iota;
    rewrite sanitize_name_spec; cbn [mbind outcome_bind];
    match goal with
    | |- context [?nc !! ?b] => destruct (nc !! b)
    end; cbn [mbind outcome_bind]; rewrite Hid; reflexivity.
Qed.

Lemma resolve_loop ws : forall name_counts earlier acc,
  counts_agree name_counts earlier ->
  forallb widget_ok ws = true ->
  exists name_counts',
    for_each resolve_widget ws (name_counts, acc)
    = Ret (name_counts',
           fold_left (fun m kv => kset_raw (fst kv) (snd kv) m)
             (zip (map declared_id ws)
                  (final_names earlier
                     (map (fun w => sanitized_base (declared_name w)) ws)))
             acc).
Proof.
  induction ws as [|w ws IH]; intros name_counts earlier acc Hc Hok.
  - by eexists.
  - simpl in Hok. apply andb_prop in Hok as [Hw Hws].
    cbn [for_each]. rewrite (resolve_widget_ok _ _ _ Hw).
    unfold mbind at 1, outcome_bind at 1.
    set (base := sanitized_base (declared_name w)).
    destruct (IH _ (earlier ++ [base])
                (kset_raw (declared_id w)
                   (match name_counts !! base with
                    | Some n => base +:+ "_" +:+ str_of_int (n + 1)
                    | None => base
                    end) acc)
                (counts_agree_step _ _ base Hc) Hws) as [nc' E].
    exists nc'. rewrite E. cbn [map final_names zip zip_with fold_left fst snd].
    fold base. rewrite (Hc base). unfold numbered.
    destruct (occurrences base earlier) as [|k]; [done|].
    replace (Z.of_nat k + 1) with (Z.of_nat (S k)) by lia. done.
Qed.

Lemma resolve_variable_names_list ws :
  forallb widget_ok ws = true ->
  resolve_variable_names (PList ws) = Ret (resolve ws).
Proof.
  intros Hok. unfold resolve_variable_names.
  destruct (resolve_loop ws ∅ [] [] (fun b => lookup_empty b) Hok) as [nc E].
  cbn [py_iter mbind outcome_bind]. unfold kdict in *. by rewrite E.
Qed.

End resolution.

(** C1, at the input that breaks it: the widgets declared [btn], [btn],
    [btn_1] get the names [btn], [btn_1], [btn_1], so the second and the
    third widget, whose ids differ, share the variable name [btn_1]. *)
Theorem resolve_variable_names_repeats_a_name :
  exists names,
    BaseGenerator.resolve_variable_names (PList clashing_widgets) = Ret names
    /\ kget (PStr "widget_2") names = Some "btn_1"
    /\ kget (PStr "widget_3") names = Some "btn_1".
Proof. eexists. repeat split; reflexivity. Qed.

(** C2 as stated fails at its own example: [My Btn!] is sanitized to
    [My_Btn_], the exclamation mark being replaced like the space, so it
    does not collide with [My_Btn] and the names are [My_Btn_], [My_Btn],
    [other], not [My_Btn], [My_Btn_1], [other]. *)
Lemma resolve_variable_names_example_differs :
  BaseGenerator.resolve_variable_names (PList example_widgets)
  = Ret [ (PStr "widget_1", "My_Btn_"); (PStr "widget_2", "My_Btn");
          (PStr "widget_3", "other") ]
  /\ BaseGenerator.resolve_variable_names (PList example_widgets)
     <> Ret [ (PStr "widget_1", "My_Btn"); (PStr "widget_2", "My_Btn_1");
              (PStr "widget_3", "other") ].
Proof. split; [reflexivity | discriminate]. Qed.

(** C2, amended in its example only: on widgets whose id can be a dict key
    and whose name is text, [resolve_variable_names] returns the mapping of
    the design document: each name sanitized (characters outside
    [A-Za-z0-9_] replaced by [_], [_] put in front of a leading digit,
    [widget] for an empty result), the first occurrence of a base kept and
    the k-th later one named [base_k]. *)
Theorem resolve_variable_names_implements_spec (widgets : list pyval) :
  forallb IdentifierResolutionSpec.widget_ok widgets = true ->
  BaseGenerator.resolve_variable_names (PList widgets)
  = Ret (IdentifierResolutionSpec.resolve widgets).
Proof. apply resolve_variable_names_list. Qed.

(** The example with [My Btn] in place of [My Btn!], through the theorem:
    the names are [My_Btn], [My_Btn_1], [other]. *)
Lemma resolve_variable_names_example :
  forallb IdentifierResolutionSpec.widget_ok colliding_widgets = true
  /\ BaseGenerator.resolve_variable_names (PList colliding_widgets)
     = Ret [ (PStr "widget_1", "My_Btn"); (PStr "widget_2", "My_Btn_1");
             (PStr "widget_3", "other") ].
Proof.
  split; [reflexivity|].
  rewrite (resolve_variable_names_implements_spec colliding_widgets eq_refl).
  vm_compute. reflexivity.
Defined.

(** ** The registry *)

(** C4 as stated fails: for a key that is not registered the lookup
    returns [None]; it raises nothing. *)
Lemma get_generator_unknown_key_returns :
  registry id id !! "Kivy" = None
  /\ BaseGenerator.get_generator (registry id id) "Kivy" = Ret None
  /\ ~ exists e, BaseGenerator.get_generator (registry id id) "Kivy" = Raise e.
Proof.
  split; [reflexivity|]. split; [reflexivity|]. intros [e H]. discriminate H.
Qed.

(** C4, amended: for every framework key that is not in the registry,
    [get_generator] returns [None] at lookup time, and raises no error. *)
Theorem get_generator_absent_key (reg : gmap string BaseGenerator.generator)
    (framework : string) :
  reg !! framework = None ->
  BaseGenerator.get_generator reg framework = Ret None.
Proof. intros H. unfold BaseGenerator.get_generator. by rewrite H. Qed.

Lemma get_generator_absent_key_witness :
  registry id id !! "Kivy" = None
  /\ BaseGenerator.get_generator (registry id id) "Kivy" = Ret None.
Proof.
  split; [reflexivity|].
  apply (get_generator_absent_key (registry id id) "Kivy"). reflexivity.
Defined.

(** ** The state manager *)

(** C10: [remove_widget] on an id that is not in the widget map returns
    [False] and leaves the object as it was: widgets, counter, selection,
    undo and redo stacks, and no signal is emitted. *)
Theorem remove_widget_absent (s : StateManager.t) (widget_id : string) :
  khas (PStr widget_id) (StateManager.widgets s) = false ->
  StateManager.remove_widget widget_id s = (Ret false, s).
Proof.
  intros H. unfold StateManager.remove_widget, read, mbind, SM_bind.
  by rewrite H.
Qed.

Lemma remove_widget_absent_witness :
  khas (PStr "widget_2") (StateManager.widgets one_button) = false
  /\ StateManager.remove_widget "widget_2" one_button = (Ret false, one_button).
Proof.
  split; [reflexivity|].
  apply (remove_widget_absent one_button "widget_2"). reflexivity.
Defined.

(** C5, at the input that breaks it.  A button has the colors background,
    foreground and border; [update_widget] with the update that sets
    [colors.background] alone leaves a [colors] group that holds the
    background only.  [update_main_window] does the same to the window's
    [text] color.  [merge_properties] of the widget classes, which no
    caller uses, keeps the siblings on the same update. *)
Theorem update_widget_replaces_the_group :
  widget_field one_button "widget_1" ["properties"; "colors"]
    = Some button_colors
  /\ widget_field
       (snd (StateManager.update_widget "widget_1" (set_background "#FF0000")
               one_button))
       "widget_1" ["properties"; "colors"]
     = Some (obj [("background", PStr "#FF0000")])
  /\ nested (StateManager.project_data StateManager.init)
       ["main_window"; "properties"; "colors"]
     = Some (obj [("background", PStr "#F0F0F0"); ("text", PStr "#000000")])
  /\ nested
       (StateManager.project_data
          (snd (StateManager.update_main_window (set_background "#FFFFFF")
                  StateManager.init)))
       ["main_window"; "properties"; "colors"]
     = Some (obj [("background", PStr "#FFFFFF")])
  /\ nested
       (PDict (BaseWidget.merge_properties button_properties
                 (background_alone "#FF0000")))
       ["colors"]
     = Some (obj [ ("background", PStr "#FF0000");
                   ("foreground", PStr "#000000");
                   ("border", PStr "#CCCCCC") ]).
Proof. repeat split; reflexivity. Qed.

(** ** The project manager *)

Lemma py_in_dict k d : py_in k (PDict d) = Ret (dhas k d).
Proof. reflexivity. Qed.

Lemma validate_object (d : dict) :
  ProjectManager.validate_project_data (PDict d)
  = dhas "name" d && dhas "framework" d && dhas "main_window" d
    && match dget "widgets" d with
       | Some w => is_array w
       | None => true
       end.
Proof.
  unfold ProjectManager.validate_project_data. cbn [any_of].
  rewrite !py_in_dict. cbn [fmap outcome_fmap mbind outcome_bind negb].
  unfold py_getitem, dhas, dget, khas.
  destruct (kget (PStr "name") d); cbn; [|done].
  destruct (kget (PStr "framework") d); cbn; [|done].
  destruct (kget (PStr "main_window") d); cbn; [|done].
  destruct (kget (PStr "widgets") d) as [[]|]; done.
Qed.

(** X22: a project file that holds a JSON object which lacks [name],
    [framework] or [main_window], or whose [widgets] is there and is not
    an array, is rejected by [validate_project_data]; [open_project] on
    it returns [False], shows the message box, and leaves the state
    manager as it was, [load_project_data] not being called. *)
Theorem invalid_document_is_rejected (d : dict) :
  dhas "name" d = false \/ dhas "framework" d = false
  \/ dhas "main_window" d = false
  \/ (exists w, dget "widgets" d = Some w /\ is_array w = false) ->
  ProjectManager.validate_project_data (PDict d) = false
  /\ forall chosen load_json filepath pm,
       path_opened chosen filepath <> "" ->
       load_json (path_opened chosen filepath) = Ret (PDict d) ->
       ProjectManager.open_project chosen load_json filepath pm
       = (false,
          {| ProjectManager.state_manager := ProjectManager.state_manager pm;
             ProjectManager.shown :=
               ProjectManager.shown pm
               ++ [ProjectManager.show_error "Invalid Project" None] |}).
Proof.
  intros H.
  assert (V : ProjectManager.validate_project_data (PDict d) = false).
  { rewrite validate_object.
    destruct H as [-> | [-> | [-> | (w & -> & ->)]]];
      rewrite ?andb_false_r; reflexivity. }
  split; [exact V|].
  intros chosen load_json filepath pm Hne Hload.
  unfold ProjectManager.open_project. fold (path_opened chosen filepath).
  apply String.eqb_neq in Hne. rewrite Hne, Hload, V. reflexivity.
Qed.

Lemma invalid_document_is_rejected_witness :
  let d := document_without_window in
  let pm := {| ProjectManager.state_manager := StateManager.init;
               ProjectManager.shown := [] |} in
  dhas "main_window" d = false
  /\ ProjectManager.validate_project_data (PDict d) = false
  /\ ProjectManager.open_project "" (fun _ => Ret (PDict d)) (Some "demo.pgb") pm
     = (false,
        {| ProjectManager.state_manager := StateManager.init;
           ProjectManager.shown :=
             [ProjectManager.show_error "Invalid Project" None] |}).
Proof.
  destruct (invalid_document_is_rejected document_without_window) as [V O].
  { right. right. left. reflexivity. }
  split; [reflexivity|]. split; [exact V|].
  apply (O "" (fun _ => Ret (PDict document_without_window)) (Some "demo.pgb")
           {| ProjectManager.state_manager := StateManager.init;
              ProjectManager.shown := [] |});
    [discriminate | reflexivity].
Defined.

(** C7, at the input that breaks it.  A project file that holds the
    array of the three names has none of the required fields: there is no
    field to read in an array.  Yet [validate_project_data] accepts it,
    [in] on a list being membership, and [open_project] hands it to
    [load_project_data], which replaces the project data by the array
    before it raises [TypeError]; [open_project] returns [False] with the
    exception shown. *)
Theorem array_of_names_is_not_rejected :
  let doc := PList [PStr "name"; PStr "framework"; PStr "main_window"] in
  let pm := {| ProjectManager.state_manager := StateManager.init;
               ProjectManager.shown := [] |} in
  py_getitem doc "name" = Raise TypeError
  /\ py_getitem doc "framework" = Raise TypeError
  /\ py_getitem doc "main_window" = Raise TypeError
  /\ ProjectManager.validate_project_data doc = true
  /\ fst (StateManager.load_project_data doc StateManager.init) = Raise TypeError
  /\ StateManager.project_data
       (snd (StateManager.load_project_data doc StateManager.init)) = doc
  /\ ProjectManager.open_project "" (fun _ => Ret doc) (Some "names.pgb") pm
     = (false,
        {| ProjectManager.state_manager :=
             StateManager.set_project_data doc StateManager.init;
           ProjectManager.shown :=
             [ProjectManager.show_error "Failed to open project"
                (Some TypeError)] |}).
Proof. repeat split; reflexivity. Qed.

(** ** Rules for statements on an object *)

Section hoare_rules.
Context {S : Type}.
Implicit Types (P E : S -> Prop).

Lemma hoare_consequence {A} P P' (m : SM S A) Q Q' E E' :
  hoare P' m Q' E' ->
  (forall s, P s -> P' s) -> (forall a s, Q' a s -> Q a s) ->
  (forall s, E' s -> E s) ->
  hoare P m Q E.
Proof.
  intros H HP HQ HE s Hs. specialize (H s (HP s Hs)).
  destruct (m s) as [[a|e] s']; auto.
Qed.

Lemma hoare_ret {A} (a : A) (Q : A -> S -> Prop) E :
  hoare (Q a) (mret a) Q E.
Proof. intros s Hs. exact Hs. Qed.

Lemma hoare_bind {A B} P (m : SM S A) (f : A -> SM S B) R Q E :
  hoare P m R E -> (forall a, hoare (R a) (f a) Q E) ->
  hoare P (m ≫= f) Q E.
Proof.
  intros Hm Hf s Hs. specialize (Hm s Hs).
  unfold mbind, SM_bind. destruct (m s) as [[a|e] s']; [|done].
  exact (Hf a s' Hm).
Qed.

Lemma hoare_ret_bind {A B} P (a : A) (f : A -> SM S B) Q E :
  hoare P (f a) Q E -> hoare P (mret a ≫= f) Q E.
Proof. intros H. exact H. Qed.

Lemma hoare_lift_bind {A B} P (o : outcome A) (f : A -> SM S B) Q E :
  (forall s, P s -> E s) ->
  (forall a, o = Ret a -> hoare P (f a) Q E) ->
  hoare P (lift o ≫= f) Q E.
Proof.
  intros HE Hf s Hs. unfold mbind, SM_bind, lift.
  destruct o as [a|e]; [|by apply HE]. exact (Hf a eq_refl s Hs).
Qed.

Lemma hoare_lift {A} P (o : outcome A) (Q : A -> S -> Prop) E :
  (forall s, P s -> E s) -> (forall a s, o = Ret a -> P s -> Q a s) ->
  hoare P (lift o) Q E.
Proof. intros HE HQ s Hs. unfold lift. destruct o; auto. Qed.

Lemma hoare_write_bind {B} P P' (g : S -> S) (f : unit -> SM S B) Q E :
  (forall s, P s -> P' (g s)) -> hoare P' (f tt) Q E ->
  hoare P (write g ≫= f) Q E.
Proof. intros Hg Hf s Hs. exact (Hf (g s) (Hg s Hs)). Qed.

Lemma hoare_write P (g : S -> S) (Q : unit -> S -> Prop) E :
  (forall s, P s -> Q tt (g s)) -> hoare P (write g) Q E.
Proof. intros Hg s Hs. exact (Hg s Hs). Qed.

Lemma hoare_read_bind {A B} P (g : S -> A) (f : A -> SM S B) Q E :
  (forall v, hoare (fun s => P s /\ g s = v) (f v) Q E) ->
  hoare P (read g ≫= f) Q E.
Proof. intros Hf s Hs. exact (Hf (g s) s (conj Hs eq_refl)). Qed.

Lemma hoare_query_bind {A B} P (g : S -> outcome A) (f : A -> SM S B) Q E :
  (forall s, P s -> E s) ->
  (forall v, hoare (fun s => P s /\ g s = Ret v) (f v) Q E) ->
  hoare P (query g ≫= f) Q E.
Proof.
  intros HE Hf s Hs. unfold mbind, SM_bind, query.
  destruct (g s) as [v|e] eqn:Eg; [|by apply HE].
  exact (Hf v s (conj Hs Eg)).
Qed.

End hoare_rules.

Lemma hoare_lift_ret_bind {S A B} (P : S -> Prop) (o : outcome A) (a : A)
    (f : A -> SM S B) Q E :
  o = Ret a -> hoare P (f a) Q E -> hoare P (lift o ≫= f) Q E.
Proof. intros -> H. exact H. Qed.

Lemma hoare_lift_ret {S A} (P : S -> Prop) (o : outcome A) (a : A)
    (Q : A -> S -> Prop) E :
  o = Ret a -> (forall s, P s -> Q a s) -> hoare P (lift o) Q E.
Proof. intros -> H s Hs. by apply H. Qed.

Lemma hoare_assoc {S A B C} (P : S -> Prop) (m : SM S A) (f : A -> SM S B)
    (g : B -> SM S C) Q E :
  hoare P (m ≫= fun a => f a ≫= g) Q E -> hoare P ((m ≫= f) ≫= g) Q E.
Proof.
  intros H s Hs. specialize (H s Hs). unfold mbind, SM_bind in *.
  by destruct (m s) as [[a|e] s'].
Qed.

Lemma hoare_read_bind_inv {S A B} (P : S -> Prop) (g : S -> A)
    (f : A -> SM S B) Q E :
  (forall v, hoare P (f v) Q E) -> hoare P (read g ≫= f) Q E.
Proof. intros Hf s Hs. exact (Hf (g s) s Hs). Qed.

Lemma hoare_query_bind_inv {S A B} (P : S -> Prop) (g : S -> outcome A)
    (f : A -> SM S B) Q E :
  (forall s, P s -> E s) -> (forall v, hoare P (f v) Q E) ->
  hoare P (query g ≫= f) Q E.
Proof.
  intros HE Hf s Hs. unfold mbind, SM_bind, query.
  destruct (g s) as [v|e]; [|by apply HE]. exact (Hf v s Hs).
Qed.



Lemma hoare_change_ret_bind {S B} (P P' : S -> Prop) (g : S -> outcome S)
    (f : unit -> SM S B) Q E :
  (forall s, P s -> exists s', g s = Ret s' /\ P' s') ->
  hoare P' (f tt) Q E ->
  hoare P (change g ≫= f) Q E.
Proof.
  intros Hg Hf s Hs. unfold mbind, SM_bind, change.
  destruct (Hg s Hs) as (s' & -> & Hs'). exact (Hf s' Hs').
Qed.


(** ** Widget ids *)

Section widget_ids.
Import StateManager.

Ltac hstep :=
  lazymatch goal with
  | |- hoare _ (lift _ ≫= _) _ _ =>
      apply hoare_lift_bind; [try (intros ? ?; tauto) | intros ? ?]
  | |- hoare ?P (write _ ≫= _) _ _ =>
      apply (hoare_write_bind P P); [try (intros ? H; exact H) |]
  | |- hoare _ (read _ ≫= _) _ _ => apply hoare_read_bind_inv; intros ?
  | |- hoare _ (query _ ≫= _) _ _ =>
      apply hoare_query_bind_inv; [try (intros ? ?; tauto) | intros ?]
  | |- hoare _ (mret _ ≫= _) _ _ => apply hoare_ret_bind
  | |- hoare _ ((if ?b then _ else _) ≫= _) _ _ => destruct b
  | |- hoare ?P ((_ ≫= _) ≫= _) _ _ =>
      apply (hoare_bind P _ _ (fun _ => P)); [| intros ?]
  | |- hoare _ (if ?b then _ else _) _ _ => destruct b
  | |- hoare _ (lift _) _ _ =>
      apply hoare_lift; [try (intros ? ?; tauto) | try (intros ? ? ? ?; tauto)]
  | |- hoare ?P (mret ?a) ?Q _ =>
      let H := fresh in
      assert (H : forall s, P s -> Q a s);
      [| intros ? ?; apply H; assumption]
  end.

Lemma save_state_counter c E :
  hoare (fun s => widget_counter s = c) save_state
        (fun _ s => widget_counter s = c) E.
Proof. intros s Hs. exact Hs. Qed.

Lemma add_widget_counter c widget_data :
  hoare (fun s => widget_counter s = c) (add_widget widget_data)
        (fun id s => widget_counter s = c + 1 /\ id = widget_id_of (c + 1))
        (fun s => widget_counter s = c + 1).
Proof.
  unfold add_widget.
  eapply hoare_bind; [apply save_state_counter|]. intros [].
  eapply (hoare_write_bind _ (fun s => widget_counter s = c + 1)).
  { intros s Hs. simpl. lia. }
  apply hoare_read_bind. intros v.
  eapply (hoare_consequence _ (fun s => widget_counter s = c + 1 /\ v = c + 1)
            _ _ _ _ (fun s => widget_counter s = c + 1 /\ v = c + 1)).
  2: { intros s [H1 H2]. split; [done|]. by rewrite <- H2. }
  2: { intros a s H. exact H. }
  2: { intros s [H _]. exact H. }
  repeat hstep.
  all: intros ? [? ->]; split; done.
Qed.

Lemma remove_widget_counter_inv c widget_id :
  hoare (fun s => widget_counter s = c) (remove_widget widget_id)
        (fun _ s => widget_counter s = c) (fun s => widget_counter s = c).
Proof.
  unfold remove_widget.
  apply hoare_read_bind. intros present.
  eapply (hoare_consequence _ (fun s => widget_counter s = c) _ _
            (fun _ s => widget_counter s = c) _ (fun s => widget_counter s = c));
    [| tauto | tauto | tauto].
  destruct present; [|intros s Hs; exact Hs].
  eapply hoare_bind; [apply save_state_counter|]. intros [].
  repeat hstep.
  all: try by intros.
  apply hoare_write. by intros.
Qed.

Lemma remove_widget_counter widget_id s :
  widget_counter (snd (remove_widget widget_id s)) = widget_counter s.
Proof.
  pose proof (remove_widget_counter_inv (widget_counter s) widget_id s eq_refl).
  by destruct (remove_widget widget_id s) as [[b|e] s'].
Qed.

End widget_ids.

Lemma to_int_not_nil z : Z.to_int z <> Pos Nil /\ Z.to_int z <> Neg Nil.
Proof.
  destruct z as [|p|p]; simpl; split; try discriminate;
    intros [= H]; by apply (DecimalPos.Unsigned.to_uint_nonnil p).
Qed.

Lemma str_of_int_inj a b : str_of_int a = str_of_int b -> a = b.
Proof.
  unfold str_of_int. intros H. apply DecimalZ.to_int_inj.
  apply (f_equal NilZero.int_of_string) in H.
  destruct (to_int_not_nil a), (to_int_not_nil b).
  rewrite !NilZero.isi in H by assumption. by injection H.
Qed.

Lemma widget_id_of_inj a b : widget_id_of a = widget_id_of b -> a = b.
Proof. unfold widget_id_of. intros [= H]. by apply str_of_int_inj. Qed.

(** ** Dicts with text keys *)

Lemma py_eqb_str a x : py_eqb (PStr a) x = true <-> x = PStr a.
Proof.
  destruct x; simpl; split; try done.
  - intros H. apply String.eqb_eq in H. by subst.
  - intros [= ->]. apply String.eqb_refl.
Qed.

Lemma py_eqb_str_false a b : a <> b -> py_eqb (PStr a) (PStr b) = false.
Proof. intros H. simpl. by apply String.eqb_neq. Qed.

Lemma kget_kset_str {V} a b (v : V) d :
  kget (PStr a) (kset_raw (PStr b) v d)
  = if String.eqb a b then Some v else kget (PStr a) d.
Proof.
  induction d as [|[k0 v0] r IH]; cbn [kset_raw kget].
  - simpl. by destruct (a =? b)%string.
  - destruct (py_eqb (PStr b) k0) eqn:Eb; cbn [kget].
    + apply py_eqb_str in Eb as ->. simpl. by destruct (a =? b)%string.
    + destruct (py_eqb (PStr a) k0) eqn:Ea; [|exact IH].
      apply py_eqb_str in Ea as ->. simpl in Eb.
      rewrite String.eqb_sym in Eb. by rewrite Eb.
Qed.

Lemma dget_kset a b v d :
  dget a (kset_raw (PStr b) v d) = if String.eqb a b then Some v else dget a d.
Proof. apply kget_kset_str. Qed.

Lemma dhas_kset a b v d :
  dhas a (kset_raw (PStr b) v d) = String.eqb a b || dhas a d.
Proof.
  unfold dhas, khas. fold (dget a (kset_raw (PStr b) v d)). rewrite dget_kset.
  fold (dget a d). by destruct (String.eqb a b).
Qed.

Lemma dhas_dget k d : dhas k d = match dget k d with Some _ => true | None => false end.
Proof. reflexivity. Qed.

Section add_returns.
Import StateManager.

Ltac rstep :=
  lazymatch goal with
  | |- hoare _ (lift _ ≫= _) _ _ =>
      eapply hoare_lift_ret_bind;
      [ cbn [py_copy py_setitem py_in py_getitem hashable as_str];
        rewrite ?dget_kset, ?dhas_kset; cbn [String.eqb Ascii.eqb Bool.eqb orb];
        try match goal with H : dget _ _ = _ |- _ => rewrite H end;
        reflexivity
      | ]
  | |- hoare ?P (write _ ≫= _) _ _ =>
      apply (hoare_write_bind P P); [done |]
  | |- hoare _ (read _ ≫= _) _ _ => apply hoare_read_bind; intros ?
  | |- hoare _ (mret _ ≫= _) _ _ => apply hoare_ret_bind
  | |- hoare ?P ((_ ≫= _) ≫= _) _ _ => apply hoare_assoc
  | |- hoare _ ((if ?b then _ else _) ≫= _) _ _ => destruct b eqn:?
  | |- hoare _ (lift _) _ _ =>
      eapply hoare_lift_ret;
      [ cbn [py_copy py_setitem py_in py_getitem hashable as_str];
        rewrite ?dget_kset, ?dhas_kset; cbn [String.eqb Ascii.eqb Bool.eqb orb];
        try match goal with H : dget _ _ = _ |- _ => rewrite H end;
        reflexivity
      | done ]
  | |- hoare _ (mret _) _ _ => intros ? ?; done
  end.

Lemma add_widget_never_raises widget_data :
  addable widget_data = true ->
  hoare (fun _ => True) (add_widget widget_data) (fun _ _ => True)
        (fun _ => False).
Proof.
  destruct widget_data as [| | | | | |d]; try done. unfold addable.
  destruct (dget "type" d) as [[| | | |ty| |]|] eqn:Ety; try done.
  intros Hp. cbn [andb] in Hp. unfold add_widget.
  eapply (hoare_bind _ _ _ (fun _ _ => True)); [intros s _; exact I|].
  intros [].
  do 5 rstep.
  destruct (dget "properties" d) as [[| | | | | |p]|] eqn:Ep; try done.
  - rewrite dhas_dget, Ep. repeat rstep.
  - rewrite dhas_dget, Ep. repeat rstep.
Qed.

Lemma add_widget_returns widget_data s :
  addable widget_data = true ->
  fst (add_widget widget_data s) = Ret (widget_id_of (widget_counter s + 1)).
Proof.
  intros Hok.
  pose proof (add_widget_never_raises widget_data Hok s I) as Hr.
  pose proof (add_widget_counter (widget_counter s) widget_data s eq_refl) as Hc.
  destruct (add_widget widget_data s) as [[id|e] s']; [|done].
  destruct Hc as [_ ->]. reflexivity.
Qed.

End add_returns.

Section sessions.
Import StateManager.

Lemma apply_operation_counter op s :
  let '(s', issued) := apply_operation op s in
  (issued = [] \/ issued = [widget_id_of (widget_counter s + 1)])
  /\ widget_counter s <= widget_counter s'
  /\ (issued <> [] -> widget_counter s' = widget_counter s + 1).
Proof.
  destruct op as [widget_data|widget_id]; simpl.
  - pose proof (add_widget_counter (widget_counter s) widget_data s eq_refl) as H.
    destruct (add_widget widget_data s) as [[id|e] s'].
    + destruct H as [H ->]. split; [by right|]. split; [lia|done].
    + split; [by left|]. split; [lia|done].
  - rewrite remove_widget_counter. split; [by left|]. split; [lia|done].
Qed.

Lemma run_numbers ops : forall s,
  exists numbers,
    snd (run ops s) = map widget_id_of numbers
    /\ StronglySorted Z.lt numbers
    /\ Forall (fun n => widget_counter s < n) numbers.
Proof.
  induction ops as [|op ops IH]; intros s.
  - exists []. repeat split; constructor.
  - cbn [run]. pose proof (apply_operation_counter op s) as H.
    destruct (apply_operation op s) as [s' issued].
    destruct H as (Hi & Hle & Hlt).
    destruct (IH s') as (numbers & E & Hs & Hf).
    destruct (run ops s') as [s'' later]. simpl in E |- *. subst later.
    assert (Hf' : Forall (fun n => widget_counter s < n) numbers).
    { eapply Forall_impl; [exact Hf|]. intros n Hn. simpl in Hn. lia. }
    destruct Hi as [->| ->].
    + exists numbers. done.
    + exists ((widget_counter s + 1) :: numbers). split; [done|].
      specialize (Hlt ltac:(done)). split.
      * constructor; [done|]. eapply Forall_impl; [exact Hf|].
        intros n Hn. simpl in Hn. lia.
      * constructor; [lia | done].
Qed.

Lemma StronglySorted_lt_NoDup numbers :
  StronglySorted Z.lt numbers -> NoDup numbers.
Proof.
  induction 1 as [|n l Hs IH Hf]; constructor; [|done].
  intros Hin. rewrite Forall_forall in Hf. specialize (Hf n Hin). lia.
Qed.

Lemma run_issues_all ops : forall s,
  forallb addable (additions ops) = true ->
  length (snd (run ops s)) = length (additions ops).
Proof.
  induction ops as [|op ops IH]; intros s Hok; [done|].
  cbn [run]. destruct op as [widget_data|widget_id]; simpl in Hok |- *.
  - apply andb_prop in Hok as [Hd Hok].
    pose proof (add_widget_returns widget_data s Hd) as Hr.
    destruct (add_widget widget_data s) as [[id|e] s']; [|done].
    specialize (IH s' Hok). destruct (run ops s') as [s'' later].
    simpl in *. by rewrite IH.
  - specialize (IH (snd (remove_widget widget_id s)) Hok).
    destruct (run ops _) as [s'' later]. simpl in *. done.
Qed.

(** C6: in every sequence of [add_widget] and [remove_widget] from a new
    project, the ids returned are [widget_<n>] with [n] positive and
    strictly greater than in every id returned before, so no id is returned
    twice; [remove_widget] leaves the counter as it is; and every
    [add_widget] on widget data with a type returns its id. *)
Theorem widget_ids_increase (ops : list operation) :
  (exists numbers,
      snd (run ops init) = map widget_id_of numbers
      /\ StronglySorted Z.lt numbers
      /\ Forall (fun n => 0 < n) numbers)
  /\ NoDup (snd (run ops init))
  /\ (forall widget_id s,
        widget_counter (snd (remove_widget widget_id s)) = widget_counter s)
  /\ (forallb addable (additions ops) = true ->
      length (snd (run ops init)) = length (additions ops)).
Proof.
  destruct (run_numbers ops init) as (numbers & E & Hs & Hf).
  split; [by exists numbers|]. split.
  - rewrite E. apply NoDup_fmap_2; [|by apply StronglySorted_lt_NoDup].
    intros a b. apply widget_id_of_inj.
  - split; [apply remove_widget_counter | apply run_issues_all].
Qed.

Lemma widget_ids_increase_witness :
  forallb addable (additions short_session) = true
  /\ snd (run short_session init) = ["widget_1"; "widget_2"; "widget_3"]
  /\ length (snd (run short_session init)) = length (additions short_session).
Proof.
  split; [reflexivity|]. split; [reflexivity|].
  apply (widget_ids_increase short_session). reflexivity.
Defined.

End sessions.

(** ** Reading the number of an id *)

Lemma split_without_separator sep s :
  str_has sep s = false -> split sep s = [s].
Proof.
  induction s as [|a r IH]; simpl; [done|].
  rewrite Ascii.eqb_sym. destruct (Ascii.eqb sep a); simpl; [done|].
  intros H. by rewrite (IH H).
Qed.

Lemma digit_facts c :
  is_ascii_digit c = true ->
  int_space c = false /\ Ascii.eqb c "_" = false /\ Ascii.eqb c "-" = false
  /\ Ascii.eqb c "+" = false.
Proof. each_char c; (discriminate || done). Qed.

Lemma digits_no_underscore s :
  str_forallb is_ascii_digit s = true -> str_has "_" s = false.
Proof.
  induction s as [|a r IH]; simpl; [done|].
  intros H. apply andb_prop in H as [Ha Hr].
  destruct (digit_facts a Ha) as (_ & -> & _). simpl. auto.
Qed.

Lemma digits_rstrip s :
  str_forallb is_ascii_digit s = true -> int_rstrip s = s.
Proof.
  induction s as [|a r IH]; simpl; [done|].
  intros H. apply andb_prop in H as [Ha Hr]. rewrite (IH Hr).
  destruct r; [|done]. by destruct (digit_facts a Ha) as (-> & _).
Qed.

Lemma digits_body_ok s b :
  str_forallb is_ascii_digit s = true -> s <> "" -> int_body_ok b s = true.
Proof.
  revert b. induction s as [|a r IH]; intros b; simpl; [done|].
  intros H _. apply andb_prop in H as [Ha Hr]. rewrite Ha.
  destruct r; [done|]. by apply IH.
Qed.

Lemma digits_drop_underscores s :
  str_forallb is_ascii_digit s = true -> drop_underscores s = s.
Proof.
  induction s as [|a r IH]; simpl; [done|].
  intros H. apply andb_prop in H as [Ha Hr].
  destruct (digit_facts a Ha) as (_ & -> & _). by rewrite (IH Hr).
Qed.

Lemma int_of_digits s :
  str_forallb is_ascii_digit s = true -> s <> "" ->
  Z.of_nat (String.length s) <= int_max_str_digits ->
  int_of_str s = Ret (digits_value 0 s).
Proof.
  intros Hd Hne Hlen. unfold int_of_str.
  destruct s as [|c r]; [done|]. pose proof Hd as Hd'.
  cbn [str_forallb] in Hd'. apply andb_prop in Hd' as [Hc Hr].
  destruct (digit_facts c Hc) as (Hsp & _ & Hm & Hp).
  cbn [int_lstrip]. rewrite Hsp, (digits_rstrip _ Hd).
  assert (E : int_of_unsigned (String c r) = Ret (digits_value 0 (String c r))).
  { unfold int_of_unsigned.
    rewrite (digits_body_ok _ false Hd), (digits_drop_underscores _ Hd)
      by done.
    apply Z.ltb_ge in Hlen. by rewrite Hlen. }
  apply Ascii.eqb_neq in Hm, Hp.
  destruct c as [[] [] [] [] [] [] [] []]; try exact E; done.
Qed.

Lemma after_prefix_app p s rest :
  after_prefix p s = Some rest <-> s = p +:+ rest.
Proof.
  revert s. induction p as [|a p IH]; intros s; simpl.
  - split; [by intros [= ->] | by intros ->].
  - destruct s as [|b s]; [done|].
    destruct (Ascii.eqb_spec a b) as [->|Hne].
    + rewrite IH. split; [by intros -> | by intros [= ->]].
    + split; [done|]. intros [= E _]. by symmetry in E.
Qed.

Lemma number_of_id_reads id n :
  number_of_id id = Some n ->
  startswith id "widget_" = true
  /\ int_of_str (List.last (split "_" id) "") = Ret n.
Proof.
  unfold number_of_id.
  destruct (after_prefix "widget_" id) as [[|c r]|] eqn:E; try done.
  destruct (str_forallb is_ascii_digit (String c r)) eqn:Hd; [|done].
  cbn [andb].
  destruct (Z.leb_spec (Z.of_nat (String.length (String c r)))
              int_max_str_digits) as [Hlen|Hlen]; [|done].
  intros [= <-]. apply after_prefix_app in E as ->. split; [reflexivity|].
  change (split "_" ("widget_" +:+ String c r))
    with ("widget" :: split "_" (String c r)).
  rewrite (split_without_separator _ _ (digits_no_underscore _ Hd)).
  cbn [List.last]. by apply int_of_digits.
Qed.

Lemma number_of_id_nonneg id n : number_of_id id = Some n -> 0 <= n.
Proof.
  unfold number_of_id.
  destruct (after_prefix "widget_" id) as [[|c r]|]; try done.
  destruct (str_forallb _ _ && _); [|done]. intros [= <-].
  assert (H : forall s acc, 0 <= acc -> 0 <= digits_value acc s).
  { induction s as [|a s IH]; intros acc Hacc; simpl; [done|].
    apply IH. lia. }
  apply H. lia.
Qed.

(** ** Maxima *)

Lemma max_of_upper numbers n : n ∈ numbers -> n <= max_of numbers.
Proof.
  induction numbers as [|x l IH]; [by intros H; inversion H|].
  intros H. apply elem_of_cons in H as [->|H]; simpl; [lia|].
  specialize (IH H). lia.
Qed.

Lemma max_of_member numbers :
  numbers <> [] -> Forall (fun n => 0 <= n) numbers ->
  max_of numbers ∈ numbers.
Proof.
  induction numbers as [|x l IH]; [done|]. intros _ Hf.
  apply Forall_cons in Hf as [Hx Hl]. simpl.
  destruct l as [|y l'].
  - simpl. rewrite Z.max_l by lia. left.
  - specialize (IH ltac:(done) Hl).
    destruct (Z.max_spec x (max_of (y :: l'))) as [[_ ->]|[_ ->]];
      [by right | left].
Qed.

Lemma max_of_same_elements l1 l2 :
  Forall (fun n => 0 <= n) l1 -> Forall (fun n => 0 <= n) l2 ->
  (forall n, n ∈ l1 <-> n ∈ l2) -> max_of l1 = max_of l2.
Proof.
  intros H1 H2 E.
  destruct l1 as [|x l1].
  { destruct l2 as [|y l2]; [done|].
    exfalso. assert (y ∈ []) by (apply E; left). by eapply not_elem_of_nil. }
  destruct l2 as [|y l2].
  { exfalso. assert (x ∈ []) by (apply E; left). by eapply not_elem_of_nil. }
  apply Z.le_antisymm; apply max_of_upper.
  - apply E. by apply max_of_member.
  - apply E. by apply max_of_member.
Qed.

Lemma py_max_max_of numbers :
  numbers <> [] -> Forall (fun n => 0 <= n) numbers ->
  py_max numbers = Ret (max_of numbers).
Proof.
  destruct numbers as [|x l]; [done|]. intros _ Hf. simpl. f_equal.
  apply Forall_cons in Hf as [Hx Hl]. revert x Hx.
  induction l as [|y l IH]; intros x Hx; simpl.
  - lia.
  - apply Forall_cons in Hl as [Hy Hl]. rewrite (IH Hl) by lia.
    assert (0 <= max_of l).
    { clear -Hl. induction Hl; simpl; lia. }
    lia.
Qed.

(** ** Loading a document *)

Section loading.
Import StateManager.

Lemma loadable_widget_cases w :
  loadable_widget w = true ->
  exists d, w = PDict d
    /\ ((dget "id" d = None /\ id_text w = None)
        \/ exists id, dget "id" d = Some (PStr id) /\ id_text w = Some id
             /\ (startswith id "widget_" = true -> is_Some (number_of_id id))).
Proof.
  destruct w as [| | | | | |d]; try done. simpl. intros H. exists d.
  split; [done|].
  destruct (dget "id" d) as [[| | | |id| |]|]; try done; [|by left].
  right. exists id. repeat split. intros Hs. rewrite Hs in H. simpl in H.
  by apply bool_decide_eq_true in H.
Qed.


Lemma kset_raw_keys (id : string) (v : pyval) : forall (d : dict) ks,
  map fst d = map PStr ks ->
  exists ks', map fst (kset_raw (PStr id) v d) = map PStr ks'
    /\ forall x, x ∈ ks' <-> x ∈ ks \/ x = id.
Proof.
  induction d as [|[k0 v0] r IH]; intros ks E.
  - destruct ks; [|done]. exists [id]. split; [done|]. intros x.
    rewrite list_elem_of_singleton. split; [by right|].
    intros [H|H]; [by apply not_elem_of_nil in H | done].
  - destruct ks as [|k ks]; [done|]. simpl in E. injection E as -> E.
    cbn [kset_raw]. destruct (py_eqb (PStr id) (PStr k)) eqn:Ek.
    + apply py_eqb_str in Ek. injection Ek as ->.
      exists (id :: ks). split; [simpl; by rewrite E|]. intros x.
      rewrite elem_of_cons. tauto.
    + destruct (IH ks E) as (ks' & E' & H). exists (k :: ks').
      split; [simpl; by rewrite E'|]. intros x.
      rewrite !elem_of_cons, H. tauto.
Qed.

Lemma loaded_keys ws : forall (acc : dict) ks,
  map fst acc = map PStr ks ->
  exists ks', map fst (fold_left store_widget ws acc) = map PStr ks'
    /\ forall x, x ∈ ks' <-> x ∈ ks \/ x ∈ omap id_text ws.
Proof.
  induction ws as [|w ws IH]; intros acc ks E.
  - exists ks. split; [done|]. intros x. simpl. split; [by left|].
    intros [H|H]; [done | by apply not_elem_of_nil in H].
  - cbn [fold_left]. unfold store_widget at 2.
    change (omap id_text (w :: ws))
      with (match id_text w with
            | Some y => y :: omap id_text ws
            | None => omap id_text ws
            end).
    destruct (id_text w) as [id|].
    + destruct (kset_raw_keys id w acc ks E) as (ks1 & E1 & H1).
      destruct (IH _ ks1 E1) as (ks' & E' & H'). exists ks'.
      split; [done|]. intros x. rewrite H', H1, elem_of_cons. tauto.
    + apply (IH _ ks E).
Qed.

Lemma widget_numbers_of_keys ks :
  Forall (fun id => startswith id "widget_" = true -> is_Some (number_of_id id))
         ks ->
  widget_numbers (map PStr ks) = Ret (omap number_of_id ks).
Proof.
  induction 1 as [|id ks Hid Hks IH]; [done|].
  change (omap number_of_id (id :: ks))
    with (match number_of_id id with
          | Some y => y :: omap number_of_id ks
          | None => omap number_of_id ks
          end).
  cbn [map widget_numbers as_str mbind outcome_bind].
  destruct (startswith id "widget_") eqn:Hs.
  - destruct (Hid eq_refl) as [n Hn]. rewrite Hn.
    destruct (number_of_id_reads id n Hn) as [_ ->].
    cbn [mbind outcome_bind]. by rewrite IH.
  - destruct (number_of_id id) as [n|] eqn:Hn; [|exact IH].
    destruct (number_of_id_reads id n Hn) as [Hs' _]. congruence.
Qed.

End loading.

Section loading_counter.
Import StateManager.

Lemma hoare_update_field_bind {B} (P : t -> Prop) field set arg
    (k : unit -> M B) Q E :
  (forall s d', P s -> P (set d' s)) ->
  ((exists u, arg = PDict u) \/ forall s, P s -> E s) ->
  hoare P (k tt) Q E ->
  hoare P (update_field field set arg ≫= k) Q E.
Proof.
  intros Hset Harg Hk s Hs. unfold mbind, SM_bind, update_field.
  destruct Harg as [[u ->]|HE].
  - simpl. apply Hk. by apply Hset.
  - destruct (dict_update (field s) arg) as [d' [e|]].
    + apply HE. by apply Hset.
    + apply Hk. by apply Hset.
Qed.

Lemma loaded_ids_numbered ws :
  forallb loadable_widget ws = true ->
  Forall (fun id => startswith id "widget_" = true -> is_Some (number_of_id id))
         (omap id_text ws).
Proof.
  intros Hok. apply Forall_forall. intros id Hin.
  apply list_elem_of_omap in Hin as (w & Hw & Hid).
  rewrite forallb_forall in Hok. apply list_elem_of_In in Hw.
  destruct (loadable_widget_cases w (Hok w Hw))
    as (d & -> & [[_ Hn]|(id' & _ & Hi & H)]); [congruence|].
  rewrite Hid in Hi. injection Hi as <-. exact H.
Qed.

Lemma loaded_widgets_numbers ws :
  forallb loadable_widget ws = true -> loaded_numbers ws <> [] ->
  truthy (PDict (loaded_widgets ws)) = true
  /\ exists numbers,
       widget_numbers (map fst (loaded_widgets ws)) = Ret numbers
       /\ py_max numbers = Ret (max_of (loaded_numbers ws)).
Proof.
  intros Hok Hne.
  destruct (loaded_keys ws [] [] eq_refl) as (ks & Ek & Hks).
  assert (Hsame : forall x, x ∈ ks <-> x ∈ omap id_text ws).
  { intros x. rewrite Hks. split; [|by right].
    intros [H|H]; [by apply not_elem_of_nil in H | done]. }
  assert (Hnum : Forall (fun id => startswith id "widget_" = true
                                   -> is_Some (number_of_id id)) ks).
  { apply Forall_forall. intros id Hin. apply Hsame in Hin.
    by apply (proj1 (Forall_forall _ _) (loaded_ids_numbered ws Hok)). }
  assert (Hel : forall n, n ∈ omap number_of_id ks <-> n ∈ loaded_numbers ws).
  { intros n. unfold loaded_numbers. rewrite !list_elem_of_omap.
    split; intros (id & Hin & Hn); exists id; (split; [by apply Hsame|done]). }
  assert (Hpos : forall l, Forall (fun n => 0 <= n) (omap number_of_id l)).
  { intros l. apply Forall_forall. intros n Hin.
    apply list_elem_of_omap in Hin as (id & _ & Hn).
    by apply (number_of_id_nonneg id). }
  assert (Hne' : omap number_of_id ks <> []).
  { intros E. destruct (loaded_numbers ws) as [|n l] eqn:El; [done|].
    assert (n ∈ omap number_of_id ks) by (apply Hel; left).
    rewrite E in H. by apply not_elem_of_nil in H. }
  split.
  - unfold loaded_widgets in *. destruct (fold_left store_widget ws []); [|done].
    destruct ks; [done|discriminate].
  - exists (omap number_of_id ks). unfold loaded_widgets in *. rewrite Ek.
    split; [by apply widget_numbers_of_keys|].
    rewrite (py_max_max_of _ Hne' (Hpos ks)). f_equal.
    apply max_of_same_elements; [apply Hpos | apply Hpos | exact Hel].
Qed.






End loading_counter.

(** ** The order of strings *)

Lemma ascii_compare_refl a : Ascii.compare a a = Eq.
Proof. unfold Ascii.compare. apply N.compare_refl. Qed.

Lemma string_compare_refl s : String.compare s s = Eq.
Proof. induction s as [|a s IH]; simpl; [done|]. by rewrite ascii_compare_refl. Qed.

Lemma string_compare_lt_trans a : forall b c,
  String.compare a b = Lt -> String.compare b c = Lt -> String.compare a c = Lt.
Proof.
  induction a as [|x a IH]; intros [|y b] [|z c]; simpl; try done.
  unfold Ascii.compare.
  destruct (N.compare_spec (N_of_ascii x) (N_of_ascii y)) as [Exy|Lxy|Gxy];
    destruct (N.compare_spec (N_of_ascii y) (N_of_ascii z)) as [Eyz|Lyz|Gyz];
    try done; intros H1 H2.
  - rewrite Exy, Eyz, N.compare_refl. by apply (IH b c).
  - rewrite Exy. by apply N.compare_lt_iff in Lyz as ->.
  - rewrite <- Eyz. by apply N.compare_lt_iff in Lxy as ->.
  - assert (N_of_ascii x < N_of_ascii z)%N as L by lia.
    by apply N.compare_lt_iff in L as ->.
Qed.

#[local] Instance str_le_total : Total str_le.
Proof. intros a b. apply String.leb_total. Qed.

#[local] Instance str_le_antisymm : AntiSymm (=) str_le.
Proof. intros a b. apply String.leb_antisym. Qed.

#[local] Instance str_le_trans : Transitive str_le.
Proof.
  intros a b c. unfold str_le, String.leb.
  destruct (String.compare a b) eqn:Eab; [| |done];
    destruct (String.compare b c) eqn:Ebc; try done; intros _ _.
  - apply String.compare_eq_iff in Eab as ->. by rewrite Ebc.
  - apply String.compare_eq_iff in Eab as ->. by rewrite Ebc.
  - apply String.compare_eq_iff in Ebc as <-. by rewrite Eab.
  - by rewrite (string_compare_lt_trans a b c Eab Ebc).
Qed.

Lemma sorted_strs_permutation l1 l2 :
  l1 ≡ₚ l2 -> sorted_strs l1 = sorted_strs l2.
Proof.
  intros H. unfold sorted_strs.
  apply (Sorted_unique str_le); try apply Sorted_merge_sort; try apply _.
  by rewrite !merge_sort_Permutation.
Qed.

(** ** Sets as lists *)

Lemma set_add_str_elements x c l : x ∈ set_add_str c l <-> x ∈ l \/ x = c.
Proof.
  unfold set_add_str. destruct (existsb (String.eqb c) l) eqn:E.
  - split; [by left|]. intros [H| ->]; [done|].
    apply existsb_exists in E as (y & Hy & Ey).
    apply String.eqb_eq in Ey as ->. by apply list_elem_of_In.
  - rewrite elem_of_app, list_elem_of_singleton. tauto.
Qed.

Lemma set_add_str_NoDup c l : NoDup l -> NoDup (set_add_str c l).
Proof.
  intros H. unfold set_add_str. destruct (existsb (String.eqb c) l) eqn:E; [done|].
  apply NoDup_app. split; [done|]. split; [|apply NoDup_singleton].
  intros x Hx Hc. apply list_elem_of_singleton in Hc as ->.
  assert (existsb (String.eqb c) l = true); [|congruence].
  apply existsb_exists. exists c. split; [by apply list_elem_of_In|].
  apply String.eqb_refl.
Qed.

(** ** Determinism of the generators *)

Section determinism.
Import BaseGenerator.

Lemma class_lookup_hashable table t :
  hashable t = true ->
  PyQt6Generator.class_lookup table t = Ret (class_of table t).
Proof. by destruct t. Qed.

Lemma classes_loop l : forall acc,
  Forall (fun t => hashable t = true) l ->
  for_each (fun classes widget_type =>
              qt_class ← PyQt6Generator.class_lookup
                           PyQt6Generator.widget_class_map widget_type;
              match qt_class with
              | Some c =>
                  if String.eqb c "" then Ret classes
                  else Ret (set_add_str c classes)
              | None => Ret classes
              end) l acc
  = Ret (fold_left add_class l acc).
Proof.
  induction l as [|t l IH]; intros acc Hl; [done|].
  apply Forall_cons in Hl as [Ht Hl]. cbn [for_each fold_left].
  rewrite (class_lookup_hashable _ _ Ht). cbn [mbind outcome_bind].
  unfold add_class at 2.
  destruct (class_of PyQt6Generator.widget_class_map t) as [c|];
    [destruct (String.eqb c "")|]; cbn [mbind outcome_bind]; by apply IH.
Qed.

Lemma add_class_elements l : forall acc x,
  x ∈ fold_left add_class l acc
  <-> x ∈ acc
      \/ exists t, t ∈ l /\ class_of PyQt6Generator.widget_class_map t = Some x
                   /\ x <> "".
Proof.
  induction l as [|t l IH]; intros acc x; cbn [fold_left].
  - split; [by left|]. intros [H|(t & Ht & _)]; [done|].
    by apply not_elem_of_nil in Ht.
  - rewrite IH. unfold add_class at 1.
    destruct (class_of PyQt6Generator.widget_class_map t) as [c|] eqn:Ec.
    + destruct (String.eqb_spec c "") as [->|Hne].
      * split; intros [H|(t' & Ht' & Hc & Hx)]; auto.
        -- right. exists t'. split; [by right|done].
        -- apply elem_of_cons in Ht' as [->|Ht']; [congruence|].
           right. by exists t'.
      * rewrite set_add_str_elements.
        split; intros [H|(t' & Ht' & Hc & Hx)].
        -- destruct H as [H| ->]; [by left|]. right. exists t.
           split; [left|done].
        -- right. exists t'. split; [by right|done].
        -- by left; left.
        -- apply elem_of_cons in Ht' as [->|Ht'].
           ++ left. right. congruence.
           ++ right. by exists t'.
    + split; intros [H|(t' & Ht' & Hc & Hx)]; auto.
      * right. exists t'. split; [by right|done].
      * apply elem_of_cons in Ht' as [->|Ht']; [congruence|].
        right. by exists t'.
Qed.

Lemma add_class_NoDup l : forall acc,
  NoDup acc -> NoDup (fold_left add_class l acc).
Proof.
  induction l as [|t l IH]; intros acc H; cbn [fold_left]; [done|].
  apply IH. unfold add_class.
  destruct (class_of _ t) as [c|]; [|done].
  destruct (String.eqb c ""); [done|]. by apply set_add_str_NoDup.
Qed.

Lemma set_add_fold_elements l : forall acc x,
  x ∈ fold_left (fun classes c => set_add_str c classes) l acc
  <-> x ∈ acc \/ x ∈ l.
Proof.
  induction l as [|c l IH]; intros acc x; cbn [fold_left].
  - split; [by left|]. intros [H|H]; [done | by apply not_elem_of_nil in H].
  - rewrite IH, set_add_str_elements, elem_of_cons. tauto.
Qed.

Lemma set_add_fold_NoDup l : forall acc,
  NoDup acc ->
  NoDup (fold_left (fun classes c => set_add_str c classes) l acc).
Proof.
  induction l as [|c l IH]; intros acc H; cbn [fold_left]; [done|].
  apply IH. by apply set_add_str_NoDup.
Qed.

Lemma used_types_hashable ws : forall acc used,
  Forall (fun t => hashable t = true) acc ->
  for_each (fun used widget =>
              t ← py_get widget "type" PNone;
              if hashable t then Ret (set_add_val t used)
              else Raise TypeError) ws acc = Ret used ->
  Forall (fun t => hashable t = true) used.
Proof.
  induction ws as [|w ws IH]; intros acc used Hacc; cbn [for_each].
  - by intros [= <-].
  - destruct (py_get w "type" PNone) as [t|e]; cbn [mbind outcome_bind]; [|done].
    destruct (hashable t) eqn:Ht; cbn [mbind outcome_bind]; [|done].
    apply IH. unfold set_add_val. destruct (existsb _ acc); [done|].
    apply Forall_app. split; [done|]. by constructor.
Qed.

Lemma sorted_classes_independent (o1 o1' : list pyval -> list pyval)
    (o2 o2' : list string -> list string) used :
  (forall l, o1 l ≡ₚ l) -> (forall l, o1' l ≡ₚ l) ->
  (forall l, o2 l ≡ₚ l) -> (forall l, o2' l ≡ₚ l) ->
  let classes o :=
    fold_left (fun classes c => set_add_str c classes)
      ["QVBoxLayout"; "QHBoxLayout"; "QGridLayout"]
      (fold_left add_class (o used) ["QApplication"; "QMainWindow"; "QWidget"])
  in
  sorted_strs (o2 (classes o1)) = sorted_strs (o2' (classes o1')).
Proof.
  intros H1 H1' H2 H2' classes. apply sorted_strs_permutation.
  rewrite H2, H2'. apply NoDup_Permutation.
  - apply set_add_fold_NoDup, add_class_NoDup.
    by apply (bool_decide_unpack _).
  - apply set_add_fold_NoDup, add_class_NoDup.
    by apply (bool_decide_unpack _).
  - intros x. unfold classes. rewrite !set_add_fold_elements, !add_class_elements.
    split; (intros [[H|(t & Ht & Hc)]|H]; [by left; left| |by right]);
      left; right; exists t; (split; [|done]).
    + rewrite H1'. by rewrite H1 in Ht.
    + rewrite H1. by rewrite H1' in Ht.
Qed.

Lemma generate_imports_independent (o1 o1' : list pyval -> list pyval)
    (o2 o2' : list string -> list string) project_data :
  (forall l, o1 l ≡ₚ l) -> (forall l, o1' l ≡ₚ l) ->
  (forall l, o2 l ≡ₚ l) -> (forall l, o2' l ≡ₚ l) ->
  PyQt6Generator.generate_imports o1 o2 project_data
  = PyQt6Generator.generate_imports o1' o2' project_data.
Proof.
  intros H1 H1' H2 H2'. unfold PyQt6Generator.generate_imports.
  destruct (py_get project_data "widgets" (PList [])) as [widgets|e];
    cbn [mbind outcome_bind]; [|done].
  destruct (py_iter widgets) as [ws|e]; cbn [mbind outcome_bind]; [|done].
  destruct (for_each _ ws []) as [used|e] eqn:Eu; cbn [mbind outcome_bind];
    [|done].
  pose proof (used_types_hashable ws [] used ltac:(constructor) Eu) as Hh.
  rewrite !classes_loop.
  2: { eapply Forall_forall. intros t Ht. rewrite H1' in Ht.
       by apply (proj1 (Forall_forall _ _) Hh). }
  2: { eapply Forall_forall. intros t Ht. rewrite H1 in Ht.
       by apply (proj1 (Forall_forall _ _) Hh). }
  cbn [mbind outcome_bind].
  by rewrite (sorted_classes_independent o1 o1' o2 o2' used H1 H1' H2 H2').
Qed.

Lemma generate_project_independent (o1 o1' : list pyval -> list pyval)
    (o2 o2' : list string -> list string) project_data :
  (forall l, o1 l ≡ₚ l) -> (forall l, o1' l ≡ₚ l) ->
  (forall l, o2 l ≡ₚ l) -> (forall l, o2' l ≡ₚ l) ->
  generate_project (PyQt6Generator.instance o1 o2) project_data
  = generate_project (PyQt6Generator.instance o1' o2') project_data.
Proof.
  intros H1 H1' H2 H2'. unfold generate_project.
  cbn [get_file_extension generate_main_file generate_additional_files
       PyQt6Generator.instance].
  unfold PyQt6Generator.generate_main_file.
  by rewrite (generate_imports_independent o1 o1' o2 o2' project_data).
Qed.

End determinism.

(** C9: whatever order the interpreter iterates its sets in, a generator of
    the registry gives the same result on the same project, the exception
    included when it raises: [generate_imports] of the PyQt6 generator
    sorts the classes it has collected, and the Tkinter generator iterates
    no set. *)
Theorem generate_project_is_deterministic
    (o1 o1' : list pyval -> list pyval) (o2 o2' : list string -> list string) :
  (forall l, o1 l ≡ₚ l) -> (forall l, o2 l ≡ₚ l) ->
  (forall l, o1' l ≡ₚ l) -> (forall l, o2' l ≡ₚ l) ->
  forall framework g g' project_data,
    registry o1 o2 !! framework = Some g ->
    registry o1' o2' !! framework = Some g' ->
    BaseGenerator.generate_project g project_data
    = BaseGenerator.generate_project g' project_data.
Proof.
  intros H1 H2 H1' H2' framework g g' project_data.
  unfold registry, BaseGenerator.register_generator.
  rewrite !lookup_insert.
  destruct (decide ("Tkinter" = framework)); [by intros [= <-] [= <-]|].
  destruct (decide ("PyQt6" = framework)); [|by rewrite lookup_empty].
  intros [= <-] [= <-]. by apply generate_project_independent.
Qed.

Lemma generate_project_is_deterministic_witness :
  BaseGenerator.generate_project (PyQt6Generator.instance id id)
    scenario_project
  = BaseGenerator.generate_project (PyQt6Generator.instance reverse reverse)
      scenario_project.
Proof.
  apply (generate_project_is_deterministic id reverse id reverse
           (fun l => reflexivity _) (fun l => reflexivity _)
           (fun l => reverse_Permutation l) (fun l => reverse_Permutation l)
           "PyQt6");
    reflexivity.
Defined.

(** ** Generation returns on the projects of the data model *)

Lemma ok_ret {A} (a : A) : ok (Ret a).
Proof. by exists a. Qed.

Lemma ok_bind {A B} (m : outcome A) (f : A -> outcome B) :
  ok m -> (forall a, m = Ret a -> ok (f a)) -> ok (m ≫= f).
Proof. intros [a ->] H. by apply H. Qed.

Lemma ok_if {A} (b : bool) (m1 m2 : outcome A) :
  ok m1 -> ok m2 -> ok (if b then m1 else m2).
Proof. by destruct b. Qed.

Lemma py_get_opt d k p default :
  opt d k p = true -> p default = true ->
  exists v, py_get (PDict d) k default = Ret v /\ p v = true.
Proof.
  unfold opt. cbn [py_get]. intros H Hd. eexists. split; [reflexivity|].
  by destruct (dget k d).
Qed.

Lemma py_get_dict d k default : ok (py_get (PDict d) k default).
Proof. by eexists. Qed.

Lemma py_in_getitem_opt d k p :
  opt d k p = true ->
  (py_in k (PDict d) = Ret false)
  \/ exists v, py_in k (PDict d) = Ret true
               /\ py_getitem (PDict d) k = Ret v /\ p v = true.
Proof.
  unfold opt. cbn [py_in py_getitem]. unfold dhas, khas. fold (dget k d).
  destruct (dget k d) as [v|]; [|by left]. intros H. right. by exists v.
Qed.

Ltac split_ands :=
  repeat match goal with
    | H : _ && _ = true |- _ => apply andb_prop in H as [? ?]
    end.

(** [fetch H v Hv] reads the key whose shape [H] gives, once. *)
Ltac fetch H v Hv :=
  let E := fresh in
  lazymatch type of H with
  | opt ?d ?k ?p = true =>
      lazymatch goal with
      | |- context [py_get (PDict d) k ?dv] =>
          destruct (py_get_opt d k p dv H eq_refl) as (v & E & Hv);
          rewrite ?E; clear E; cbn [mbind outcome_bind]; cbv zeta
      end
  end.

Ltac fetch_key k v Hv :=
  match goal with
  | H : opt _ k _ = true |- _ => fetch H v Hv
  end.

Ltac get_any :=
  match goal with
  | |- ok (py_get (PDict ?d) ?k ?v ≫= _) =>
      apply ok_bind; [apply py_get_dict | intros ? _; cbv zeta]
  end.

Lemma geometry_code_ok g :
  is_geometry g = true -> ok (BaseGenerator.generate_geometry_code g).
Proof.
  destruct g as [| | | | |[|a [|b [|c [|d []]]]]|]; try done. intros _.
  by eexists.
Qed.

Lemma unpack4_ok g : is_geometry g = true -> ok (BaseGenerator.unpack4 g).
Proof.
  destruct g as [| | | | |[|a [|b [|c [|d []]]]]|]; try done. intros _.
  by eexists.
Qed.

Lemma font_code_ok f : is_dict f = true -> ok (BaseGenerator.generate_font_code f).
Proof. destruct f; try done. intros _. by eexists. Qed.

Lemma sanitize_name_ok n : is_str n = true -> ok (BaseGenerator.sanitize_name n).
Proof. destruct n; try done. intros _. by eexists. Qed.

Section pyqt6_returns.
Import BaseGenerator PyQt6Generator.

Lemma tabs_code_ok var_ref tabs : forall i,
  forallb tab_ok tabs = true -> ok (tabs_code var_ref i tabs).
Proof.
  induction tabs as [|tab tabs IH]; intros i H; [apply ok_ret|].
  simpl in H. apply andb_prop in H as [Ht Hts]. cbn [tabs_code].
  destruct tab as [| | | | | |d]; try done. simpl in Ht.
  fetch Ht title Htitle. destruct title; try done. cbn [as_str mbind outcome_bind].
  apply ok_bind; [by apply IH|]. intros rest _. apply ok_ret.
Qed.

Lemma range_code_ok var_ref d a b : ok (range_code var_ref (PDict d) a b).
Proof. by eexists. Qed.

Lemma specific_code_ok t d var_ref :
  opt d "properties" properties_ok = true ->
  ok (generate_widget_specific_code t (PDict d) var_ref).
Proof.
  intros Hp. unfold generate_widget_specific_code.
  fetch Hp props Hprops. destruct props as [| | | | | |p]; try done.
  simpl in Hprops. split_ands.
  apply ok_bind; [|intros parts _; apply ok_ret].
  repeat match goal with
         | |- ok (if ?c then _ else _) => apply ok_if
         end; try apply ok_ret; try apply range_code_ok; try by eexists.
  - destruct (py_in_getitem_opt p "placeholder" is_str ltac:(done))
      as [-> | (v & -> & -> & Hv)]; cbn [mbind outcome_bind]; [by eexists|].
    destruct v; try done. by eexists.
  - fetch_key "items" items Hitems. destruct items; try done.
    apply ok_if; by eexists.
  - fetch_key "tab_data" tabs Htabs. destruct tabs as [| | | | |tabs|]; try done.
    by apply tabs_code_ok.
Qed.

Lemma common_code_ok d var_ref :
  opt d "properties" properties_ok = true ->
  ok (generate_common_properties_code (PDict d) var_ref).
Proof.
  intros Hp. unfold generate_common_properties_code.
  fetch Hp props Hprops. destruct props as [| | | | | |p]; try done.
  simpl in Hprops. split_ands.
  do 2 get_any.
  fetch_key "font" font Hfont. destruct font as [| | | | | |f]; try done.
  apply ok_bind.
  { apply ok_if; [by eexists | apply ok_ret]. }
  intros p_font _.
  fetch_key "colors" colors Hcolors. destruct colors as [| | | | | |c]; try done.
  apply ok_bind; [|intros ? _; apply ok_ret].
  apply ok_if; [|apply ok_ret].
  cbn [py_in py_getitem]. unfold dhas, khas.
  fold (dget "background" c) (dget "foreground" c) (dget "border" c).
  destruct (dget "background" c), (dget "foreground" c), (dget "border" c);
    cbn [mbind outcome_bind app]; by eexists.
Qed.

Lemma pyqt6_widget_code_ok w parent_var :
  ir_widget w = true -> ok (generate_widget_code w parent_var).
Proof.
  destruct w as [| | | | | |d]; try done. simpl. intros H. split_ands.
  unfold generate_widget_code.
  fetch_key "type" t Ht.
  assert (Hp : opt d "properties" properties_ok = true) by done.
  fetch Hp props Hprops.
  destruct props as [| | | | | |p]; try done.
  rewrite (class_lookup_hashable _ _ Ht). cbn [mbind outcome_bind].
  simpl in Hprops. split_ands.
  fetch_key "name" name Hname. destruct name; try done.
  cbn [sanitize_name mbind outcome_bind].
  apply ok_bind; [apply ok_if; by eexists|]. intros creation _.
  fetch_key "geometry" geometry Hgeometry.
  apply ok_bind; [by apply geometry_code_ok|]. intros geometry_code _.
  apply ok_bind; [by apply specific_code_ok|]. intros specific _.
  apply ok_bind; [by apply common_code_ok|]. intros common _.
  apply ok_ret.
Qed.

End pyqt6_returns.

(** ** Widgets of a type that is not in the table *)

Section fallback.
Import BaseGenerator.

Lemma unrecognized_reads table w :
  unrecognized table w = true ->
  exists d t, w = PDict d /\ py_get w "type" (PStr "") = Ret t
    /\ hashable t = true /\ class_of table t = None.
Proof.
  destruct w as [| | | | | |d]; try done. simpl. intros H.
  apply andb_prop in H as [Hh Hn]. exists d. eexists.
  split; [done|]. split; [reflexivity|]. split.
  - by destruct (dget "type" d).
  - apply negb_true_iff, bool_decide_eq_false in Hn.
    destruct (class_of table _) as [c|] eqn:E; [|by destruct (dget "type" d)].
    exfalso. apply Hn. destruct (dget "type" d); by eexists.
Qed.

Lemma not_in_table table t :
  class_of table t = None ->
  forall k, k ∈ map fst table -> py_eqb t (PStr k) = false.
Proof.
  intros H k Hk. destruct t as [| | | |s| |]; try done.
  unfold class_of in H. apply fmap_None in H.
  apply list_elem_of_In, in_map_iff in Hk as (kv & <- & Hin).
  apply (find_none _ _ H kv Hin).
Qed.

Ltac same_step :=
  lazymatch goal with
  | |- (?m ≫= _) = (?m ≫= _) =>
      destruct m; cbn [mbind outcome_bind]; [|reflexivity]
  end.

Ltac key_false H :=
  repeat match goal with
    | |- context [py_eqb ?t (PStr ?k)] =>
        rewrite (H k) by (by apply (bool_decide_unpack _))
    end.

Lemma pyqt6_fallback_code w parent_var :
  unrecognized PyQt6Generator.widget_class_map w = true ->
  PyQt6Generator.generate_widget_code w parent_var
  = pyqt6_fallback w parent_var.
Proof.
  intros H. destruct (unrecognized_reads _ _ H) as (d & t & -> & Et & Hh & Hc).
  pose proof (not_in_table _ t Hc) as Hk.
  unfold PyQt6Generator.generate_widget_code, pyqt6_fallback.
  rewrite Et. cbn [mbind outcome_bind].
  rewrite (class_lookup_hashable _ _ Hh), Hc. cbn [mbind outcome_bind default].
  unfold PyQt6Generator.generate_widget_specific_code, in_strs.
  cbn [existsb]. key_false Hk. cbn [orb].
  repeat same_step. reflexivity.
Qed.

Lemma py_get_getitem c k v :
  py_get c k PNone = Ret v -> truthy v = true -> py_getitem c k = Ret v.
Proof.
  destruct c as [| | | | | |d]; try done. cbn [py_get py_getitem].
  destruct (dget k d); [congruence|]. intros [= <-]. done.
Qed.

Lemma tkinter_fallback_code w parent_var :
  unrecognized TkinterGenerator.widget_class_map w = true ->
  TkinterGenerator.generate_widget_code w parent_var
  = tkinter_fallback w parent_var.
Proof.
  intros H. destruct (unrecognized_reads _ _ H) as (d & t & -> & Et & Hh & Hc).
  pose proof (not_in_table _ t Hc) as Hk.
  unfold TkinterGenerator.generate_widget_code, tkinter_fallback,
    tkinter_common_options.
  rewrite Et. cbn [mbind outcome_bind].
  unfold TkinterGenerator.class_lookup.
  rewrite (class_lookup_hashable _ _ Hh), Hc. cbn [mbind outcome_bind default].
  unfold TkinterGenerator.generate_widget_specific_options,
    TkinterGenerator.generate_widget_post_creation_code, in_strs.
  cbn [existsb]. key_false Hk. cbn [orb].
  destruct (py_get (PDict d) "properties" (PDict [])) as [props|e] eqn:Ep;
    cbn [mbind outcome_bind]; [|done].
  destruct (py_get props "name" _) as [name|e]; cbn [mbind outcome_bind];
    [|done].
  destruct (sanitize_name _) as [var_name|e]; cbn [mbind outcome_bind]; [|done].
  destruct (py_get props "colors" _) as [colors|e]; cbn [mbind outcome_bind];
    [|done].
  destruct (py_get colors "background" _) as [bg|e] eqn:Ebg;
    cbn [mbind outcome_bind]; [|done].
  assert (Eo : (if truthy bg
                then c ← py_getitem colors "background";
                     Ret ["bg=" +:+ DQ +:+ py_str c +:+ DQ]
                else Ret [])
               = Ret (if truthy bg then ["bg=" +:+ DQ +:+ py_str bg +:+ DQ]
                      else [])).
  { destruct (truthy bg) eqn:Tb; [|done]. by rewrite (py_get_getitem _ _ _ Ebg). }
  rewrite Eo. clear Eo. cbn [mbind outcome_bind].
  destruct (py_get colors "foreground" _) as [fg|e] eqn:Efg;
    cbn [mbind outcome_bind]; [|done].
  assert (Eo : (if truthy fg
                then c ← py_getitem colors "foreground";
                     Ret ["fg=" +:+ DQ +:+ py_str c +:+ DQ]
                else Ret [])
               = Ret (if truthy fg then ["fg=" +:+ DQ +:+ py_str fg +:+ DQ]
                      else [])).
  { destruct (truthy fg) eqn:Tf; [|done]. by rewrite (py_get_getitem _ _ _ Efg). }
  rewrite Eo. clear Eo. cbn [mbind outcome_bind].
  destruct (py_get props "font" _) as [font_data|e]; cbn [mbind outcome_bind];
    [|done].
  cbv zeta.
  match goal with
  | |- (?m ≫= _) = _ =>
      destruct m as [o_font|e]; cbn [mbind outcome_bind]; [|done]
  end.
  rewrite !app_nil_r. cbn [app].
  repeat same_step. reflexivity.
Qed.

End fallback.

Section tkinter_returns.
Import BaseGenerator TkinterGenerator.

Lemma tkinter_tabs_code_ok var_ref tabs : forall i,
  forallb tab_ok tabs = true -> ok (tabs_code var_ref i tabs).
Proof.
  induction tabs as [|tab tabs IH]; intros i H; [apply ok_ret|].
  simpl in H. apply andb_prop in H as [Ht Hts]. cbn [tabs_code].
  destruct tab as [| | | | | |d]; try done. simpl in Ht.
  fetch Ht title Htitle. destruct title; try done. cbn [as_str mbind outcome_bind].
  apply ok_bind; [by apply IH|]. intros rest _. apply ok_ret.
Qed.

Ltac branches :=
  repeat match goal with
         | |- ok (if ?c then _ else _) => apply ok_if
         end.

Lemma specific_options_ok t d :
  opt d "properties" properties_ok = true ->
  ok (generate_widget_specific_options t (PDict d)).
Proof.
  intros Hp. unfold generate_widget_specific_options.
  fetch Hp props Hprops. destruct props as [| | | | | |p]; try done.
  simpl in Hprops. split_ands.
  branches; try apply ok_ret; try by eexists.
  fetch_key "action" action Haction.
  destruct action as [| | | | | |a]; try done. get_any.
  apply ok_if; [|apply ok_ret].
  fetch_key "name" name Hname. destruct name; try done. by eexists.
Qed.

Lemma post_creation_code_ok t d var_ref :
  opt d "properties" properties_ok = true ->
  ok (generate_widget_post_creation_code t (PDict d) var_ref).
Proof.
  intros Hp. unfold generate_widget_post_creation_code.
  fetch Hp props Hprops. destruct props as [| | | | | |p]; try done.
  simpl in Hprops. split_ands.
  assert (Hph : opt p "placeholder" is_str = true) by done.
  apply ok_bind; [apply ok_if; by eexists|]. intros is_entry_ph E.
  apply ok_bind; [|intros parts _; apply ok_ret].
  destruct is_entry_ph.
  { destruct (py_eqb t (PStr "Entry")); [|done].
    destruct (py_in_getitem_opt p "placeholder" is_str Hph)
      as [E' | (v & _ & -> & Hv)]; [congruence|].
    destruct v; try done. by eexists. }
  apply ok_if.
  { fetch_key "items" items Hitems. destruct items; try done.
    branches; by eexists. }
  apply ok_bind; [apply ok_if; by eexists|]. intros is_checked_box _.
  branches; try apply ok_ret; try by eexists.
  - do 2 get_any. apply ok_if; [|apply ok_ret].
    fetch_key "name" name Hname. destruct name; try done. by eexists.
  - fetch_key "tab_data" tabs Htabs. destruct tabs as [| | | | |tabs|]; try done.
    by apply tkinter_tabs_code_ok.
Qed.

Lemma tkinter_widget_code_ok w parent_var :
  ir_widget w = true -> ok (generate_widget_code w parent_var).
Proof.
  destruct w as [| | | | | |d]; try done. simpl. intros H. split_ands.
  unfold generate_widget_code.
  fetch_key "type" t Ht.
  assert (Hp : opt d "properties" properties_ok = true) by done.
  fetch Hp props Hprops.
  destruct props as [| | | | | |p]; try done.
  unfold class_lookup.
  rewrite (class_lookup_hashable _ _ Ht). cbn [mbind outcome_bind].
  simpl in Hprops. split_ands.
  fetch_key "name" name Hname. destruct name; try done.
  cbn [sanitize_name mbind outcome_bind].
  assert (Htx : opt p "text" is_str = true) by done.
  apply ok_bind; [apply ok_if; by eexists|]. intros has_text E.
  apply ok_bind.
  { destruct has_text; [|apply ok_ret].
    destruct (in_strs t _); [|done].
    destruct (py_in_getitem_opt p "text" is_str Htx)
      as [E' | (v & _ & -> & Hv)]; [congruence|].
    destruct v; try done. by eexists. }
  intros o_text _.
  fetch_key "colors" colors Hcolors.
  destruct colors as [| | | | | |c]; try done.
  destruct (py_get (PDict c) "background" PNone) as [bg|] eqn:Ebg; [|done].
  cbn [mbind outcome_bind].
  apply ok_bind.
  { destruct (truthy bg) eqn:Tb; [|apply ok_ret].
    rewrite (py_get_getitem _ _ _ Ebg Tb). by eexists. }
  intros o_bg _.
  destruct (py_get (PDict c) "foreground" PNone) as [fg|] eqn:Efg; [|done].
  cbn [mbind outcome_bind].
  apply ok_bind.
  { destruct (truthy fg) eqn:Tf; [|apply ok_ret].
    rewrite (py_get_getitem _ _ _ Efg Tf). by eexists. }
  intros o_fg _.
  fetch_key "font" font Hfont. destruct font as [| | | | | |f]; try done.
  apply ok_bind; [apply ok_if; by eexists|]. intros o_font _.
  apply ok_bind; [by apply specific_options_ok|]. intros options _. cbv zeta.
  fetch_key "geometry" geometry Hgeometry.
  apply ok_bind; [by apply unpack4_ok|]. intros [[[x y] width] height] _.
  apply ok_bind; [by apply post_creation_code_ok|]. intros post _.
  get_any. apply ok_ret.
Qed.

End tkinter_returns.

(** ** Text that contains a text *)

Lemma prefix_app_l x : forall a b,
  String.prefix x a = true -> String.prefix x (a +:+ b) = true.
Proof.
  induction x as [|c x IH]; intros a b; [by destruct (a +:+ b)|].
  destruct a as [|c' a]; [done|]. simpl.
  destruct (ascii_dec c c'); [apply IH|done].
Qed.

Lemma prefix_refl x : String.prefix x x = true.
Proof. induction x as [|c x IH]; [done|]. simpl. by destruct (ascii_dec c c). Qed.

Lemma contains_refl x : contains_str x x = true.
Proof.
  destruct x as [|c x]; [done|]. cbn [contains_str].
  by rewrite prefix_refl.
Qed.

Lemma contains_empty_prefix x : String.prefix x "" = true -> x = "".
Proof. by destruct x. Qed.

Lemma contains_app_l x a b :
  contains_str x a = true -> contains_str x (a +:+ b) = true.
Proof.
  induction a as [|c a IH].
  - change ("" +:+ b) with b. cbn [contains_str]. rewrite orb_false_r.
    intros ->%contains_empty_prefix. by destruct b.
  - change (String c a +:+ b) with (String c (a +:+ b)). cbn [contains_str].
    intros [H|H]%orb_prop.
    + apply (prefix_app_l x (String c a) b) in H.
      change (String c a +:+ b) with (String c (a +:+ b)) in H.
      by rewrite H.
    + by rewrite (IH H), orb_true_r.
Qed.

Lemma contains_app_r x a b :
  contains_str x b = true -> contains_str x (a +:+ b) = true.
Proof.
  intros H. induction a as [|c a IH]; [done|].
  change (String c a +:+ b) with (String c (a +:+ b)). cbn [contains_str].
  by rewrite IH, orb_true_r.
Qed.

Lemma contains_join x sep l : x ∈ l -> contains_str x (join sep l) = true.
Proof.
  induction l as [|y l IH]; intros H; [by apply not_elem_of_nil in H|].
  destruct l as [|z l].
  - apply list_elem_of_singleton in H as ->. apply contains_refl.
  - change (join sep (y :: z :: l)) with (y +:+ sep +:+ join sep (z :: l)).
    apply elem_of_cons in H as [->|H].
    + apply contains_app_l, contains_refl.
    + by apply contains_app_r, contains_app_r, IH.
Qed.

(** ** The ids of the widgets are keys of the resolved names *)

Lemma py_eqb_refl k : hashable k = true -> py_eqb k k = true.
Proof.
  destruct k as [|b|z|m e t|s| |]; try done; simpl; intros _.
  - by destruct b.
  - apply Z.eqb_refl.
  - unfold float_eqb. apply Z.eqb_refl.
  - apply String.eqb_refl.
Qed.

Section keys.
Context {V : Type}.
Implicit Types (d : kdict V) (k : pyval) (v : V).

Lemma khas_kset_raw_same k v d :
  hashable k = true -> khas k (kset_raw k v d) = true.
Proof.
  intros Hk. unfold khas. induction d as [|[k' v'] d IH]; cbn [kset_raw kget].
  - by rewrite py_eqb_refl.
  - destruct (py_eqb k k') eqn:E; cbn [kget]; rewrite E; [done|apply IH].
Qed.

Lemma khas_kset_raw_keeps k k' v d :
  khas k d = true -> khas k (kset_raw k' v d) = true.
Proof.
  unfold khas. induction d as [|[k0 v0] d IH]; cbn [kset_raw kget]; [done|].
  destruct (py_eqb k' k0); cbn [kget]; destruct (py_eqb k k0); try done.
Qed.

Lemma khas_fold_keeps k (l : list (pyval * V)) : forall d,
  khas k d = true ->
  khas k (fold_left (fun m kv => kset_raw (fst kv) (snd kv) m) l d) = true.
Proof.
  induction l as [|[k' v'] l IH]; intros d H; [done|].
  cbn [fold_left fst snd]. by apply IH, khas_kset_raw_keeps.
Qed.

Lemma khas_fold_member k (l : list (pyval * V)) : forall d,
  hashable k = true -> k ∈ map fst l ->
  khas k (fold_left (fun m kv => kset_raw (fst kv) (snd kv) m) l d) = true.
Proof.
  induction l as [|[k' v'] l IH]; intros d Hk H;
    [by apply not_elem_of_nil in H|].
  cbn [fold_left fst snd map] in *. apply elem_of_cons in H as [->|H].
  - by apply khas_fold_keeps, khas_kset_raw_same.
  - by apply IH.
Qed.

Lemma khas_kgetitem k d :
  hashable k = true -> khas k d = true -> ok (kgetitem k d).
Proof.
  unfold khas, kgetitem. intros ->. destruct (kget k d); [|done].
  intros _. by eexists.
Qed.

End keys.

Section resolved.
Import IdentifierResolutionSpec.

Lemma final_names_length bases : forall earlier,
  length (final_names earlier bases) = length bases.
Proof.
  induction bases as [|b bases IH]; intros earlier; [done|].
  cbn [final_names length]. by rewrite IH.
Qed.

Lemma fst_zip_same_length {A B} (l : list A) (k : list B) :
  length l = length k -> map fst (zip l k) = l.
Proof.
  revert k. induction l as [|x l IH]; intros [|y k]; try done.
  intros [= H]. cbn. by rewrite IH.
Qed.

Lemma ir_widget_ok w : ir_widget w = true -> widget_ok w = true.
Proof.
  destruct w as [| | | | | |d]; try done. simpl. intros H. split_ands.
  apply andb_true_intro. split; [done|].
  unfold opt in *. destruct (dget "properties" d) as [[| | | | | |p]|]; try done.
  simpl in *. split_ands. unfold opt in *.
  by destruct (dget "name" p) as [[]|].
Qed.

Lemma ir_widget_id w :
  ir_widget w = true ->
  py_get w "id" (PStr "") = Ret (declared_id w)
  /\ hashable (declared_id w) = true.
Proof.
  destruct w as [| | | | | |d]; try done. simpl. intros H. split_ands.
  unfold opt in *. by destruct (dget "id" d).
Qed.

Lemma resolved_ids ws w :
  forallb ir_widget ws = true -> w ∈ ws ->
  khas (declared_id w) (resolve ws) = true.
Proof.
  intros Hws Hw. unfold resolve, mapping. apply khas_fold_member.
  - apply ir_widget_id. rewrite forallb_forall in Hws.
    by apply Hws, list_elem_of_In.
  - rewrite fst_zip_same_length
      by (by rewrite final_names_length, !length_map).
    by apply list_elem_of_fmap_2.
Qed.

End resolved.

(** ** The loops of the class definition *)

Lemma for_each_ok {A S} (body : S -> A -> outcome S) l :
  (forall s x, x ∈ l -> ok (body s x)) -> forall s, ok (for_each body l s).
Proof.
  induction l as [|x l IH]; intros H s; [apply ok_ret|]. cbn [for_each].
  apply ok_bind; [apply H; by left|]. intros s' _. apply IH.
  intros s'' y Hy. apply H. by right.
Qed.

Lemma any_of_ok {A} (p : A -> outcome bool) l :
  (forall x, x ∈ l -> ok (p x)) -> ok (any_of p l).
Proof.
  induction l as [|x l IH]; intros H; [apply ok_ret|]. cbn [any_of].
  apply ok_bind; [apply H; by left|]. intros [] _; [apply ok_ret|].
  apply IH. intros y Hy. apply H. by right.
Qed.

Section class_definition.
Import BaseGenerator IdentifierResolutionSpec.

Variable widget_code : pyval -> string -> outcome string.
Variable var_names : kdict string.

Lemma widgets_loop ws : forall code,
  Forall (renders widget_code var_names) ws ->
  exists codes,
    Forall2 (fun w c => widget_code w "self" = Ret c) ws codes
    /\ for_each (fun code widget =>
                   widget_id ← py_get widget "id" (PStr "");
                   known ← kin widget_id var_names;
                   if known : bool then
                     var_name ← kgetitem widget_id var_names;
                     widget_code ← widget_code widget "self";
                     let indented_code := format_code widget_code 2 in
                     Ret (code ++ [""; indented_code])
                   else Ret code) ws code
       = Ret (code ++ flat_map (fun c => [""; format_code c 2]) codes).
Proof.
  induction ws as [|w ws IH]; intros code H.
  - exists []. split; [constructor|]. cbn. by rewrite app_nil_r.
  - apply Forall_cons in H as [(Hw & Hk & [c Hc]) Hws].
    destruct (ir_widget_id w Hw) as [Eid Hid].
    destruct (khas_kgetitem _ _ Hid Hk) as [v Ev].
    destruct (IH (code ++ [""; format_code c 2]) Hws) as (codes & HF & E).
    exists (c :: codes). split; [by constructor|].
    cbn [for_each]. rewrite Eid. cbn [mbind outcome_bind].
    unfold kin. rewrite Hid, Hk. cbn [mbind outcome_bind].
    rewrite Ev, Hc. cbn [mbind outcome_bind].
    rewrite <- app_assoc in E. exact E.
Qed.

End class_definition.

Lemma block_in_lines (header : list string) codes c :
  c ∈ codes ->
  BaseGenerator.format_code c 2
  ∈ header ++ flat_map (fun c => [""; BaseGenerator.format_code c 2]) codes.
Proof.
  intros Hc. apply elem_of_app. right. apply list_elem_of_In, in_flat_map.
  exists c. split; [by apply list_elem_of_In|]. right. by left.
Qed.

Lemma renders_all widget_code ws :
  forallb ir_widget ws = true ->
  (forall w, ir_widget w = true -> ok (widget_code w "self")) ->
  Forall (renders widget_code (IdentifierResolutionSpec.resolve ws)) ws.
Proof.
  intros Hws Hcode. apply Forall_forall. intros w Hw.
  pose proof Hws as Hall. rewrite forallb_forall in Hall.
  assert (ir_widget w = true) by by apply Hall, list_elem_of_In.
  split; [done|]. split; [by apply resolved_ids|by apply Hcode].
Qed.

(** ** The project, generator by generator *)

Lemma project_widgets d :
  opt d "widgets" widgets_ok = true ->
  exists ws, py_get (PDict d) "widgets" (PList []) = Ret (PList ws)
    /\ widgets_of (PDict d) = ws /\ forallb ir_widget ws = true.
Proof.
  unfold opt. cbn [py_get widgets_of].
  destruct (dget "widgets" d) as [[| | | | |ws|]|]; try done.
  - intros H. by exists ws.
  - intros _. by exists [].
Qed.

Lemma ir_widgets_member ws w :
  forallb ir_widget ws = true -> w ∈ ws -> ir_widget w = true.
Proof. rewrite forallb_forall. intros H Hw. by apply H, list_elem_of_In. Qed.

Section pyqt6_project.
Import BaseGenerator PyQt6Generator.

Variable order_types : list pyval -> list pyval.
Variable order_classes : list string -> list string.
Hypothesis order_types_permutes : forall l, order_types l ≡ₚ l.

Lemma pyqt6_button_handler_ok name a :
  ok (generate_button_handler name (PDict a)).
Proof.
  unfold generate_button_handler. get_any.
  apply ok_bind; [|intros ? _; apply ok_ret].
  repeat apply ok_if; by eexists.
Qed.

Lemma pyqt6_event_handlers_ok ws var_names :
  forallb ir_widget ws = true ->
  ok (generate_event_handlers (PList ws) var_names).
Proof.
  intros Hws. unfold generate_event_handlers. cbn [py_iter mbind outcome_bind].
  apply ok_bind; [|intros ? _; apply ok_ret].
  apply for_each_ok. intros handlers w Hw.
  pose proof (ir_widgets_member _ _ Hws Hw) as Hir.
  destruct w as [| | | | | |d]; try done. simpl in Hir. split_ands.
  get_any. fetch_key "properties" props Hprops.
  destruct props as [| | | | | |p]; try done. simpl in Hprops. split_ands.
  fetch_key "id" i Hi. unfold kin, kgetitem, khas. rewrite Hi.
  cbn [mbind outcome_bind].
  destruct (kget i var_names) as [var_name|]; [|apply ok_ret].
  cbn [mbind outcome_bind]. apply ok_if; [|apply ok_ret].
  fetch_key "action" action Haction. destruct action as [| | | | | |act]; try done.
  get_any. apply ok_if; [|apply ok_ret].
  apply ok_bind; [apply pyqt6_button_handler_ok|]. intros ? _. apply ok_ret.
Qed.

Lemma pyqt6_imports_ok d :
  opt d "widgets" widgets_ok = true ->
  ok (generate_imports order_types order_classes (PDict d)).
Proof.
  intros H. destruct (project_widgets d H) as (ws & E & _ & Hws).
  unfold generate_imports. rewrite E. cbn [py_iter mbind outcome_bind].
  apply ok_bind.
  { apply for_each_ok. intros used w Hw.
    pose proof (ir_widgets_member _ _ Hws Hw) as Hir.
    destruct w as [| | | | | |dw]; try done. simpl in Hir. split_ands.
    fetch_key "type" t Ht. rewrite Ht. apply ok_ret. }
  intros used Eu. cbv zeta.
  pose proof (used_types_hashable ws [] used ltac:(constructor) Eu) as Hh.
  rewrite classes_loop.
  2: { eapply Forall_forall. intros t Ht. rewrite order_types_permutes in Ht.
       by apply (proj1 (Forall_forall _ _) Hh). }
  cbn [mbind outcome_bind]. apply ok_ret.
Qed.

Lemma pyqt6_class_definition class_name mw ws var_names :
  window_ok mw = true -> forallb ir_widget ws = true ->
  Forall (renders generate_widget_code var_names) ws ->
  exists codes text,
    Forall2 (fun w c => generate_widget_code w "self" = Ret c) ws codes
    /\ generate_class_definition class_name mw (PList ws) var_names = Ret text
    /\ Forall (fun c => contains_str (format_code c 2) text = true) codes.
Proof.
  intros Hmw Hws Hr. destruct mw as [| | | | | |m]; try done. simpl in Hmw.
  unfold generate_class_definition.
  fetch Hmw props Hprops. destruct props as [| | | | | |p]; try done.
  simpl in Hprops. split_ands.
  destruct (py_get_dict p "title" (PStr "My Application")) as [title ->].
  cbn [mbind outcome_bind].
  fetch_key "geometry" geometry Hgeometry.
  destruct (geometry_code_ok geometry Hgeometry) as [geometry_code ->].
  cbn [py_iter mbind outcome_bind]. cbv zeta.
  match goal with
  | |- context [for_each _ ws ?code] =>
      destruct (widgets_loop generate_widget_code var_names ws code Hr)
        as (codes & HF & E)
  end.
  exists codes. cbv zeta in E. rewrite E. cbn [mbind outcome_bind].
  destruct (pyqt6_event_handlers_ok ws var_names Hws) as [handlers ->].
  cbn [mbind outcome_bind]. eexists. split; [done|]. split; [reflexivity|].
  apply Forall_forall. intros c Hc. apply contains_join.
  unfold generate_main_layout_code. cbn [String.eqb].
  destruct (String.eqb handlers ""); [|apply elem_of_app; left];
    by apply block_in_lines.
Qed.

Lemma pyqt6_generates project_data :
  ir_project project_data = true ->
  generates (instance order_types order_classes) generate_widget_code
    project_data.
Proof.
  destruct project_data as [| | | | | |d]; try done. simpl. intros H.
  split_ands.
  assert (Hw : opt d "widgets" widgets_ok = true) by done.
  destruct (project_widgets d Hw) as (ws & Ews & Eof & Hws).
  destruct (pyqt6_imports_ok d Hw) as [imports Ei].
  unfold generates, generate_project.
  cbn [BaseGenerator.get_file_extension BaseGenerator.generate_main_file
       BaseGenerator.generate_additional_files instance].
  unfold generate_main_file.
  fetch_key "name" name Hname. destruct name as [| | | |name| |]; try done.
  cbn [as_str mbind outcome_bind]. cbv zeta.
  fetch_key "main_window" mw Hmw.
  rewrite Ews. cbn [mbind outcome_bind].
  rewrite (resolve_variable_names_list ws)
    by (apply forallb_forall; intros w Hin; apply ir_widget_ok;
        by apply (ir_widgets_member ws), list_elem_of_In).
  cbn [mbind outcome_bind]. rewrite Ei. cbn [mbind outcome_bind].
  destruct (pyqt6_class_definition (replace_char " " "" name) mw ws
              (IdentifierResolutionSpec.resolve ws) Hmw Hws)
    as (codes & text & HF & -> & Hc).
  { apply renders_all; [done|]. intros w Hir. by apply pyqt6_widget_code_ok. }
  cbn [mbind outcome_bind]. eexists. exists codes.
  split; [reflexivity|]. rewrite Eof. split; [done|].
  eapply Forall_impl; [exact Hc|]. intros c Hin. cbv beta in *.
  do 4 apply contains_app_r. by apply contains_app_l.
Qed.

End pyqt6_project.

Section tkinter_project.
Import BaseGenerator TkinterGenerator.

Lemma tkinter_button_handler_ok name a :
  ok (generate_button_handler name (PDict a)).
Proof.
  unfold generate_button_handler. get_any.
  apply ok_bind; [|intros ? _; apply ok_ret].
  repeat apply ok_if; by eexists.
Qed.

Lemma tkinter_event_handlers_ok ws var_names :
  forallb ir_widget ws = true ->
  ok (generate_event_handlers (PList ws) var_names).
Proof.
  intros Hws. unfold generate_event_handlers. cbn [py_iter mbind outcome_bind].
  apply ok_bind.
  { apply any_of_ok. intros w Hw.
    pose proof (ir_widgets_member _ _ Hws Hw) as Hir.
    destruct w as [| | | | | |d]; try done. simpl in Hir. split_ands.
    get_any. apply ok_if; [|apply ok_ret].
    fetch_key "properties" props Hprops.
    destruct props as [| | | | | |p]; try done. by eexists. }
  intros has_placeholder _. cbv zeta.
  apply ok_bind; [|intros ? _; apply ok_ret].
  apply for_each_ok. intros handlers w Hw.
  pose proof (ir_widgets_member _ _ Hws Hw) as Hir.
  destruct w as [| | | | | |d]; try done. simpl in Hir. split_ands.
  get_any. fetch_key "properties" props Hprops.
  destruct props as [| | | | | |p]; try done. simpl in Hprops. split_ands.
  fetch_key "id" i Hi. unfold kin, kgetitem, khas. rewrite Hi.
  cbn [mbind outcome_bind].
  destruct (kget i var_names) as [var_name|]; [|apply ok_ret].
  cbn [andb]. apply ok_if; [|apply ok_ret]. cbn [mbind outcome_bind].
  fetch_key "action" action Haction.
  destruct action as [| | | | | |act]; try done.
  get_any. apply ok_if; [|apply ok_ret].
  apply ok_bind; [apply tkinter_button_handler_ok|]. intros ? _. apply ok_ret.
Qed.

Lemma tkinter_imports_ok d :
  opt d "widgets" widgets_ok = true -> ok (generate_imports (PDict d)).
Proof.
  intros H. destruct (project_widgets d H) as (ws & E & _ & Hws).
  unfold generate_imports. rewrite E. cbn [py_iter mbind outcome_bind].
  apply ok_bind; [|intros ? _; apply ok_ret].
  apply any_of_ok. intros w Hw.
  pose proof (ir_widgets_member _ _ Hws Hw) as Hir.
  destruct w as [| | | | | |dw]; try done. by eexists.
Qed.

Lemma tkinter_class_definition class_name mw ws var_names :
  window_ok mw = true -> forallb ir_widget ws = true ->
  Forall (renders generate_widget_code var_names) ws ->
  exists codes text,
    Forall2 (fun w c => generate_widget_code w "self" = Ret c) ws codes
    /\ generate_class_definition class_name mw (PList ws) var_names = Ret text
    /\ Forall (fun c => contains_str (format_code c 2) text = true) codes.
Proof.
  intros Hmw Hws Hr. destruct mw as [| | | | | |m]; try done. simpl in Hmw.
  unfold generate_class_definition.
  fetch Hmw props Hprops. destruct props as [| | | | | |p]; try done.
  simpl in Hprops. split_ands.
  destruct (py_get_dict p "title" (PStr "My Application")) as [title ->].
  cbn [mbind outcome_bind].
  fetch_key "geometry" geometry Hgeometry.
  destruct geometry as [| | | | |[|g0 [|g1 [|g2 [|g3 []]]]]|]; try done.
  fetch_key "colors" colors Hcolors.
  destruct colors as [| | | | | |c]; try done.
  cbn [py_index lookup list_lookup mbind outcome_bind]. cbv zeta.
  destruct (py_get (PDict c) "background" PNone) as [bg|] eqn:Ebg; [|done].
  cbn [mbind outcome_bind].
  match goal with
  | |- context [(if truthy bg then ?m else Ret ?l) ≫= _] =>
      assert (Eh : exists header, (if truthy bg then m else Ret l) = Ret header)
  end.
  { destruct (truthy bg) eqn:Tb; [|by eexists].
    rewrite (py_get_getitem _ _ _ Ebg Tb). by eexists. }
  destruct Eh as [header ->]. cbn [py_iter mbind outcome_bind].
  match goal with
  | |- context [for_each _ ws ?code] =>
      destruct (widgets_loop generate_widget_code var_names ws code Hr)
        as (codes & HF & E)
  end.
  exists codes. cbv zeta in E. rewrite E. cbn [mbind outcome_bind].
  destruct (tkinter_event_handlers_ok ws var_names Hws) as [handlers ->].
  cbn [mbind outcome_bind]. eexists. split; [done|]. split; [reflexivity|].
  apply Forall_forall. intros x Hx. apply contains_join.
  apply elem_of_app. left.
  destruct (String.eqb handlers ""); [|apply elem_of_app; left];
    by apply block_in_lines.
Qed.

Lemma tkinter_generates project_data :
  ir_project project_data = true ->
  generates instance generate_widget_code project_data.
Proof.
  destruct project_data as [| | | | | |d]; try done. simpl. intros H.
  split_ands.
  assert (Hw : opt d "widgets" widgets_ok = true) by done.
  destruct (project_widgets d Hw) as (ws & Ews & Eof & Hws).
  destruct (tkinter_imports_ok d Hw) as [imports Ei].
  unfold generates, generate_project.
  cbn [BaseGenerator.get_file_extension BaseGenerator.generate_main_file
       BaseGenerator.generate_additional_files instance].
  unfold generate_main_file.
  fetch_key "name" name Hname. destruct name as [| | | |name| |]; try done.
  cbn [as_str mbind outcome_bind]. cbv zeta.
  fetch_key "main_window" mw Hmw.
  rewrite Ews. cbn [mbind outcome_bind].
  rewrite (resolve_variable_names_list ws)
    by (apply forallb_forall; intros w Hin; apply ir_widget_ok;
        by apply (ir_widgets_member ws), list_elem_of_In).
  cbn [mbind outcome_bind]. rewrite Ei. cbn [mbind outcome_bind].
  destruct (tkinter_class_definition (replace_char " " "" name) mw ws
              (IdentifierResolutionSpec.resolve ws) Hmw Hws)
    as (codes & text & HF & -> & Hc).
  { apply renders_all; [done|]. intros w Hir. by apply tkinter_widget_code_ok. }
  cbn [mbind outcome_bind]. eexists. exists codes.
  split; [reflexivity|]. rewrite Eof. split; [done|].
  eapply Forall_impl; [exact Hc|]. intros c Hin. cbv beta in *.
  do 4 apply contains_app_r. by apply contains_app_l.
Qed.

End tkinter_project.

(** ** Widgets of a type that is in no table *)

(** C3 as stated fails: the code of a widget whose type is in no table is
    the construction of the fallback class of the generator; it holds no
    comment sign and does not name the type. *)
Lemma map_view_gets_no_marker :
  map_view ∈ widgets_of map_project
  /\ unrecognized PyQt6Generator.widget_class_map map_view = true
  /\ unrecognized TkinterGenerator.widget_class_map map_view = true
  /\ (exists code,
        PyQt6Generator.generate_widget_code map_view "self" = Ret code
        /\ code = "self.map = QWidget(self.central_widget)" +:+ NL
                  +:+ "self.map.setGeometry(0, 0, 100, 50)"
        /\ contains_str "#" code = false
        /\ contains_str "MapView" code = false)
  /\ (exists code,
        TkinterGenerator.generate_widget_code map_view "self" = Ret code
        /\ code = "self.map = tk.Widget(self.root)" +:+ NL
                  +:+ "self.map.place(x=0, y=0, width=100, height=50)"
        /\ contains_str "#" code = false
        /\ contains_str "MapView" code = false).
Proof.
  split; [apply list_elem_of_In; vm_compute; right; left; reflexivity|].
  split; [reflexivity|]. split; [reflexivity|].
  split; eexists; (split; [vm_compute; reflexivity|]); repeat split;
    vm_compute; reflexivity.
Qed.

(** C3, amended: on every project of the data model, whatever the types of
    its widgets, [generate_project] of the two generators raises nothing:
    it returns the map with the one file [main.py], whose text contains the
    indented code of every widget of the project; and the code of a widget
    whose type is not in the table of the generator is that of the fallback
    class, [QWidget] or [tk.Widget], with geometry and common properties,
    without any placeholder. *)
Theorem unrecognized_type_falls_back
    (order_types : list pyval -> list pyval)
    (order_classes : list string -> list string) (project_data : pyval) :
  (forall l, order_types l ≡ₚ l) ->
  ir_project project_data = true ->
  generates (PyQt6Generator.instance order_types order_classes)
    PyQt6Generator.generate_widget_code project_data
  /\ generates TkinterGenerator.instance TkinterGenerator.generate_widget_code
       project_data
  /\ (forall w parent_var,
        unrecognized PyQt6Generator.widget_class_map w = true ->
        PyQt6Generator.generate_widget_code w parent_var
        = pyqt6_fallback w parent_var)
  /\ (forall w parent_var,
        unrecognized TkinterGenerator.widget_class_map w = true ->
        TkinterGenerator.generate_widget_code w parent_var
        = tkinter_fallback w parent_var).
Proof.
  intros Ho Hp. split; [by apply pyqt6_generates|].
  split; [by apply tkinter_generates|].
  split; intros w parent_var Hw;
    [by apply pyqt6_fallback_code | by apply tkinter_fallback_code].
Qed.

Lemma unrecognized_type_falls_back_witness :
  ir_project map_project = true
  /\ generates (PyQt6Generator.instance id id)
       PyQt6Generator.generate_widget_code map_project
  /\ generates TkinterGenerator.instance TkinterGenerator.generate_widget_code
       map_project.
Proof.
  split; [reflexivity|].
  destruct (unrecognized_type_falls_back id id map_project
              (fun l => reflexivity _) eq_refl) as (H1 & H2 & _).
  split; [exact H1 | exact H2].
Defined.

(** ** The undo history *)

Lemma hoare_change_bind_inv {S B} (P : S -> Prop) (g : S -> outcome S)
    (f : unit -> SM S B) Q E :
  (forall s s', P s -> g s = Ret s' -> P s') -> (forall s, P s -> E s) ->
  hoare P (f tt) Q E ->
  hoare P (change g ≫= f) Q E.
Proof.
  intros Hg HE Hf s Hs. unfold mbind, SM_bind, change.
  destruct (g s) as [s'|e] eqn:Eg; [|by apply HE].
  exact (Hf s' (Hg s s' Hs Eg)).
Qed.

Lemma hoare_change_inv {S} (P : S -> Prop) (g : S -> outcome S) :
  (forall s s', P s -> g s = Ret s' -> P s') ->
  hoare P (change g) (fun _ => P) P.
Proof.
  intros Hg s Hs. unfold change.
  destruct (g s) as [s'|e] eqn:Eg; [by apply (Hg s)|done].
Qed.

Lemma hoare_for_each_inv {S A} (P : S -> Prop) (body : A -> SM S unit) l :
  (forall x, hoare P (body x) (fun _ => P) P) ->
  hoare P (for_each_SM body l) (fun _ => P) P.
Proof.
  intros Hb. induction l as [|x l IH]; [intros s Hs; exact Hs|].
  cbn [for_each_SM]. eapply hoare_bind; [apply Hb|]. intros []. exact IH.
Qed.

Lemma hoare_inv_bind {S A B} (P : S -> Prop) (m : SM S A) (f : A -> SM S B)
    Q :
  hoare P m (fun _ => P) P -> (forall a, hoare P (f a) Q P) ->
  hoare P (m ≫= f) Q P.
Proof. intros Hm Hf. by eapply hoare_bind. Qed.

Lemma hoare_snd {S A} (P : S -> Prop) (m : SM S A) :
  hoare P m (fun _ => P) P -> forall s, P s -> P (snd (m s)).
Proof. intros H s Hs. specialize (H s Hs). by destruct (m s) as [[a|e] s']. Qed.

Lemma snd_hoare {S A} (P : S -> Prop) (m : SM S A) :
  (forall s, P s -> P (snd (m s))) -> hoare P m (fun _ => P) P.
Proof. intros H s Hs. specialize (H s Hs). by destruct (m s) as [[a|e] s']. Qed.

(** The statement keeps the invariant [P], which does not look at the
    fields the plain assignments of the statement set. *)
Ltac kept := let H := fresh in intros ? H; exact H.

Ltac keep :=
  lazymatch goal with
  | |- hoare _ (lift _ ≫= _) _ _ =>
      apply hoare_lift_bind; [try kept | intros ? ?]
  | |- hoare ?P (write _ ≫= _) _ _ =>
      apply (hoare_write_bind P P); [try kept |]
  | |- hoare _ (read _ ≫= _) _ _ => apply hoare_read_bind_inv; intros ?
  | |- hoare _ (query _ ≫= _) _ _ =>
      apply hoare_query_bind_inv; [try kept | intros ?]
  | |- hoare _ (mret _ ≫= _) _ _ => apply hoare_ret_bind
  | |- hoare _ ((if ?b then _ else _) ≫= _) _ _ => destruct b
  | |- hoare ?P ((_ ≫= _) ≫= _) _ _ =>
      apply (hoare_bind P _ _ (fun _ => P)); [| intros ?]
  | |- hoare _ (if ?b then _ else _) _ _ => destruct b
  | |- hoare _ (match ?o with Some _ => _ | None => _ end) _ _ => destruct o
  | |- hoare _ (lift _) _ _ =>
      apply hoare_lift; [try kept | try (intros ? ?; kept)]
  | |- hoare _ (write _) _ _ => apply hoare_write; try kept
  | |- hoare _ (mret _) _ _ => kept
  end.

Section history.
Import StateManager.

Variable n : nat.

Lemma push_undo_length s :
  (length (undo_stack s) <= max_undo_levels s)%nat ->
  (1 <= max_undo_levels s)%nat ->
  (1 <= length (undo_stack (push_undo s)))%nat
  /\ (length (undo_stack (push_undo s)) <= max_undo_levels s)%nat.
Proof.
  intros Hl Hm. unfold push_undo. cbn [undo_stack set_undo_stack].
  destruct (Nat.ltb_spec (max_undo_levels s)
              (length (undo_stack s ++ [get_current_state s]))) as [H|H];
    rewrite ?length_tl; rewrite length_app in *; simpl in *; lia.
Qed.

Lemma save_state_history :
  hoare (history_ok n) save_state (fun _ => history_ok n) (history_ok n).
Proof.
  intros s (H1 & H2 & H3). unfold save_state, mbind, SM_bind, write. simpl.
  destruct (push_undo_length s) as [Ha Hb]; [lia | lia |].
  split; [exact Ha|]. split; [simpl in *; lia | exact H3].
Qed.

Lemma reset_history (s : t) :
  history_ok n s ->
  history_ok n (push_undo (set_redo_stack [] (set_undo_stack [] s))).
Proof.
  intros (H1 & H2 & H3). unfold history_ok, push_undo. simpl.
  destruct (Nat.ltb_spec (max_undo_levels s) 1); simpl; lia.
Qed.

Lemma restore_state_history state :
  hoare (history_ok n) (restore_state state)
        (fun _ => history_ok n) (history_ok n).
Proof. unfold restore_state. repeat keep. Qed.

Lemma list_pop_length {A} (l : list A) x r :
  list_pop l = Ret (x, r) -> length l = S (length r).
Proof.
  unfold list_pop. destruct (reverse l) as [|y l'] eqn:E; [done|].
  intros [= <- <-]. rewrite <- (length_reverse l), E. simpl.
  by rewrite length_reverse.
Qed.

Lemma undo_history :
  hoare (history_ok n) undo (fun _ => history_ok n) (history_ok n).
Proof.
  unfold undo. apply hoare_read_bind. intros len.
  destruct (Nat.ltb_spec 1 len) as [Hn|Hn]; [|by intros s [Hs _]].
  apply hoare_query_bind; [by intros s [Hs _]|]. intros [current_state rest].
  eapply (hoare_write_bind _ (fun s => (2 <= S (length (undo_stack s)))%nat
             /\ (S (length (undo_stack s)) + length (redo_stack s) <= n)%nat
             /\ max_undo_levels s = n)).
  { intros s [[(H1 & H2 & H3) Hl] Hp]. apply list_pop_length in Hp.
    simpl. lia. }
  eapply (hoare_write_bind _ (history_ok n)).
  { intros s (H1 & H2 & H3). repeat split; simpl; rewrite ?length_app;
      simpl; lia. }
  apply hoare_query_bind_inv; [done|]. intros previous_state.
  eapply hoare_bind; [apply restore_state_history|]. intros [].
  apply hoare_write. by intros s Hs.
Qed.

Lemma redo_history :
  hoare (history_ok n) redo (fun _ => history_ok n) (history_ok n).
Proof.
  unfold redo. apply hoare_read_bind. intros nonempty.
  destruct nonempty; [|by intros s [Hs _]].
  apply hoare_query_bind; [by intros s [Hs _]|]. intros [state rest].
  eapply (hoare_write_bind _ (fun s => (1 <= length (undo_stack s))%nat
             /\ (length (undo_stack s) + S (length (redo_stack s)) <= n)%nat
             /\ max_undo_levels s = n)).
  { intros s [[(H1 & H2 & H3) Hl] Hp]. apply list_pop_length in Hp.
    simpl. lia. }
  eapply (hoare_write_bind _ (history_ok n)).
  { intros s (H1 & H2 & H3). repeat split; simpl; rewrite ?length_app;
      simpl; lia. }
  eapply hoare_bind; [apply restore_state_history|]. intros [].
  apply hoare_write. by intros s Hs.
Qed.

Lemma history_of_bookkeeping s s' :
  bookkeeping s' = bookkeeping s -> history_ok n s -> history_ok n s'.
Proof. unfold bookkeeping, history_ok. intros [= -> -> -> _ _ _ _ _]. done. Qed.

Lemma kset_raw_present_keys {V} k (v w : V) d :
  kget k d = Some w -> map fst (kset_raw k v d) = map fst d.
Proof.
  induction d as [|[k0 v0] d IH]; cbn [kget kset_raw]; [done|].
  destruct (py_eqb k k0); [done|]. intros H. cbn [map fst]. by rewrite IH.
Qed.

Lemma update_widget_bookkeeping widget_id updates s :
  bookkeeping (snd (update_widget widget_id updates s)) = bookkeeping s
  /\ map fst (widgets (snd (update_widget widget_id updates s)))
     = map fst (widgets s).
Proof.
  unfold update_widget, on_widget, mbind, SM_bind, read, write.
  destruct (khas (PStr widget_id) (widgets s)); [|done].
  destruct (kget (PStr widget_id) (widgets s)) as [w|] eqn:Ew; [|done].
  destruct (apply_updates updates w) as [[[]|e] w']; cbn [snd];
    (split; [reflexivity|]); cbn [widgets set_widgets emit];
    by apply (kset_raw_present_keys _ _ w).
Qed.

Lemma set_main_window_inv (P : t -> Prop) w :
  (forall s pd, P s -> P (set_project_data pd s)) ->
  hoare P (set_main_window w) (fun _ => P) P.
Proof.
  intros HP. apply hoare_change_inv. intros s s' Hs.
  destruct (py_setitem _ _ _); [intros [= <-]; by apply HP | done].
Qed.

Lemma update_main_window_inv (P : t -> Prop) updates :
  (forall s pd, P s -> P (set_project_data pd s)) ->
  (forall s, P s -> P (emit state_changed s)) ->
  hoare P (update_main_window updates) (fun _ => P) P.
Proof.
  intros HP HE. unfold update_main_window.
  repeat
    lazymatch goal with
    | |- hoare _ (set_main_window _ ≫= _) _ _ =>
        eapply hoare_bind; [by apply set_main_window_inv | intros []]
    | |- hoare _ (set_main_window _) _ _ => by apply set_main_window_inv
    | |- hoare _ (for_each_SM _ _ ≫= _) _ _ =>
        eapply hoare_bind; [apply hoare_for_each_inv; intros ? | intros []]
    | |- hoare _ (write (emit state_changed)) _ _ =>
        apply hoare_write; intros ? ?; by apply HE
    | |- hoare _ (match ?v with PDict _ => _ | _ => _ end) _ _ => destruct v
    | |- hoare _ (let '(_, _) := ?p in _) _ _ => destruct p
    | _ => keep
    end.
Qed.

Lemma update_main_window_bookkeeping updates s :
  bookkeeping (snd (update_main_window updates s)) = bookkeeping s
  /\ widgets (snd (update_main_window updates s)) = widgets s.
Proof.
  apply (hoare_snd
           (fun s' => bookkeeping s' = bookkeeping s /\ widgets s' = widgets s)
           (update_main_window updates)); [|done].
  apply update_main_window_inv; by intros.
Qed.

Lemma on_property_changed_bookkeeping widget_id property_path value s :
  let s' :=
    snd (PropertyEditor.on_property_changed widget_id property_path value s) in
  bookkeeping s' = bookkeeping s /\ map fst (widgets s') = map fst (widgets s).
Proof.
  unfold PropertyEditor.on_property_changed. cbv zeta.
  set (parts := split "." property_path).
  destruct (String.eqb widget_id "main_window").
  - destruct parts as [|first [|name [|field [|]]]];
      try (split; reflexivity);
      (destruct (String.eqb first "properties"); [|split; reflexivity]);
      try (split; reflexivity).
    + destruct (update_main_window_bookkeeping
                  (obj [("properties", PDict [(PStr name, value)])]) s)
        as [H1 H2]. by rewrite H2.
    + unfold mbind, SM_bind, query.
      destruct (get_main_window_data s) as [current_data|e];
        [|split; reflexivity].
      unfold mbind, SM_bind, lift.
      destruct (PropertyEditor.nested_update _ _ _ _) as [updates|e];
        [|split; reflexivity].
      destruct (update_main_window_bookkeeping updates s) as [H1 H2].
      by rewrite H2.
  - destruct parts as [|first [|name [|field [|]]]];
      try (split; reflexivity);
      (destruct (String.eqb first "properties"); [|split; reflexivity]);
      try (split; reflexivity).
    + apply update_widget_bookkeeping.
    + unfold mbind, SM_bind, read.
      destruct (get_widget widget_id s) as [data|]; [|split; reflexivity].
      destruct (truthy data); [|split; reflexivity].
      unfold mbind, SM_bind, lift.
      destruct (PropertyEditor.nested_update _ _ _ _) as [updates|e];
        [|split; reflexivity].
      apply update_widget_bookkeeping.
Qed.

Lemma hoare_update_field_inv (P : t -> Prop) field set arg :
  (forall s d', P s -> P (set d' s)) ->
  hoare P (update_field field set arg) (fun _ => P) P.
Proof.
  intros Hset s Hs. unfold update_field.
  destruct (dict_update (field s) arg) as [d' [e|]]; by apply Hset.
Qed.

Lemma add_widget_history widget_data :
  hoare (history_ok n) (add_widget widget_data)
        (fun _ => history_ok n) (history_ok n).
Proof.
  unfold add_widget. eapply hoare_bind; [apply save_state_history|].
  intros []. repeat keep.
Qed.

Lemma remove_widget_history widget_id :
  hoare (history_ok n) (remove_widget widget_id)
        (fun _ => history_ok n) (history_ok n).
Proof.
  unfold remove_widget. keep. keep; [|keep].
  eapply hoare_bind; [apply save_state_history|]. intros []. repeat keep.
Qed.

Lemma change_target_framework_history framework :
  hoare (history_ok n) (change_target_framework framework)
        (fun _ => history_ok n) (history_ok n).
Proof.
  unfold change_target_framework. keep. keep; [|keep]. keep.
  apply hoare_change_bind_inv; [|done|].
  { intros s s' Hs. destruct (py_setitem _ _ _); [|done]. by intros [= <-]. }
  eapply hoare_bind; [apply save_state_history|]. intros []. keep.
Qed.

Lemma update_layer_config_history config :
  hoare (history_ok n) (update_layer_config config)
        (fun _ => history_ok n) (history_ok n).
Proof.
  unfold update_layer_config.
  eapply hoare_bind; [by apply hoare_update_field_inv|]. intros [].
  apply save_state_history.
Qed.

Lemma update_canvas_settings_history settings :
  hoare (history_ok n) (update_canvas_settings settings)
        (fun _ => history_ok n) (history_ok n).
Proof.
  unfold update_canvas_settings.
  eapply hoare_bind; [by apply hoare_update_field_inv|]. intros []. keep.
Qed.

Lemma new_project_history s :
  history_ok n s -> history_ok n (snd (new_project s)).
Proof.
  intros [H1 H2]. unfold new_project, save_initial_state, mbind, SM_bind, write.
  unfold history_ok, push_undo. simpl.
  destruct (Nat.ltb_spec (max_undo_levels s) 1); simpl; lia.
Qed.

Lemma load_project_data_history project_data :
  hoare (history_ok n) (load_project_data project_data)
        (fun _ => history_ok n) (history_ok n).
Proof.
  unfold load_project_data.
  repeat
    lazymatch goal with
    | |- hoare _ (write (set_undo_stack []) ≫= _) _ _ =>
        let s := fresh "s" in
        let Hs := fresh "Hs" in
        intros s Hs; unfold mbind, SM_bind, write, save_initial_state; cbn;
        apply (reset_history _ Hs)
    | |- hoare _ (update_field _ _ _) _ _ =>
        apply hoare_update_field_inv;
        let H := fresh in intros ? ? H; exact H
    | |- hoare _ (for_each_SM _ _ ≫= _) _ _ =>
        eapply hoare_bind; [apply hoare_for_each_inv; intros ? | intros []]
    | |- hoare _ (change _) _ _ =>
        let Hs := fresh "Hs" in
        apply hoare_change_inv; intros ? ? Hs;
        destruct (kset _ _ _); [by intros [= <-]|done]
    | _ => keep
    end.
Qed.

Lemma perform_history a s : history_ok n s -> history_ok n (perform a s).
Proof.
  destruct a; cbn [perform].
  - apply new_project_history.
  - apply hoare_snd, undo_history.
  - apply hoare_snd, redo_history.
  - apply hoare_snd, change_target_framework_history.
  - apply hoare_snd, add_widget_history.
  - apply hoare_snd, remove_widget_history.
  - apply history_of_bookkeeping, update_widget_bookkeeping.
  - unfold set_selected_widget, mbind, SM_bind, read, write.
    by destruct (negb _).
  - apply history_of_bookkeeping, update_main_window_bookkeeping.
  - apply hoare_snd, load_project_data_history.
  - done.
  - done.
  - apply hoare_snd, update_canvas_settings_history.
  - apply hoare_snd, update_layer_config_history.
  - apply history_of_bookkeeping, on_property_changed_bookkeeping.
Qed.

End history.

Section undo_redo.
Import StateManager.

Lemma list_pop_snoc {A} (l : list A) x : list_pop (l ++ [x]) = Ret (x, l).
Proof.
  unfold list_pop. rewrite reverse_snoc. by rewrite reverse_involutive.
Qed.

Lemma list_last_snoc {A} (l : list A) x : list_last (l ++ [x]) = Ret x.
Proof. unfold list_last. by rewrite reverse_snoc. Qed.

(** [undo] on a stack of at least two snapshots *)
Lemma undo_two s u a b :
  undo_stack s = u ++ [a; b] ->
  fst (undo s) = Ret tt
  /\ get_current_state (snd (undo s)) = a
  /\ undo_stack (snd (undo s)) = u ++ [a]
  /\ redo_stack (snd (undo s)) = redo_stack s ++ [b]
  /\ unsaved_changes (snd (undo s)) = true
  /\ target_framework (snd (undo s)) = target_framework s
  /\ project_path (snd (undo s)) = project_path s.
Proof.
  intros Hu.
  assert (Hu' : undo_stack s = (u ++ [a]) ++ [b]) by by rewrite <- app_assoc.
  assert (Hl : (1 <? length (undo_stack s))%nat = true).
  { apply Nat.ltb_lt. rewrite Hu, length_app. simpl. lia. }
  unfold undo, mbind, SM_bind, read, query, write. cbv beta.
  rewrite Hl, Hu', list_pop_snoc.
  cbn [undo_stack set_undo_stack set_redo_stack].
  rewrite list_last_snoc. unfold restore_state, mbind, SM_bind, read, write.
  destruct a as [pd ws c [sel|] cs lc]; cbn;
    [destruct (negb (String.eqb sel ""))|]; cbn; repeat split; reflexivity.
Qed.

(** [redo] on a redo stack that is not empty *)
Lemma redo_one s r b :
  redo_stack s = r ++ [b] ->
  fst (redo s) = Ret tt
  /\ get_current_state (snd (redo s)) = b
  /\ undo_stack (snd (redo s)) = undo_stack s ++ [b]
  /\ redo_stack (snd (redo s)) = r
  /\ unsaved_changes (snd (redo s)) = true.
Proof.
  intros Hr.
  assert (Hn : match redo_stack s with [] => false | _ => true end = true).
  { rewrite Hr. by destruct r. }
  unfold redo, mbind, SM_bind, read, query, write. cbv beta.
  rewrite Hn, Hr, list_pop_snoc.
  cbn [undo_stack set_undo_stack set_redo_stack].
  unfold restore_state, mbind, SM_bind, read, write.
  destruct b as [pd ws c [sel|] cs lc]; cbn;
    [destruct (negb (String.eqb sel ""))|]; cbn; repeat split; reflexivity.
Qed.

(** What [add_widget] does to the two stacks, whether it returns or
    raises: the snapshot of [save_state], nothing else. *)
Lemma add_widget_stacks widget_data s :
  undo_stack (snd (add_widget widget_data s)) = undo_stack (push_undo s)
  /\ redo_stack (snd (add_widget widget_data s)) = [].
Proof.
  set (P := fun s' : t => undo_stack s' = undo_stack (push_undo s)
                          /\ redo_stack s' = []).
  assert (H : hoare (fun s' => s' = s) (add_widget widget_data)
                (fun _ => P) P).
  { unfold add_widget. eapply (hoare_bind _ _ _ (fun _ => P)).
    { intros s' ->. by split. }
    intros []. repeat keep. }
  specialize (H s eq_refl).
  by destruct (add_widget widget_data s) as [[id|e] s'].
Qed.

End undo_redo.

(** X1: whatever calls are made on a new state manager, in any order and
    whether they return or raise, the undo stack is never empty and the
    undo and redo stacks together never hold more than the 50 snapshots of
    [max_undo_levels]. *)
Theorem history_stays_bounded (actions : list user_call) :
  history_ok 50 (perform_all actions StateManager.init).
Proof.
  assert (H : forall s, history_ok 50 s ->
                        history_ok 50 (perform_all actions s)).
  { induction actions as [|a actions IH]; intros s Hs; [done|].
    apply IH. by apply perform_history. }
  apply H. repeat split; simpl; lia.
Qed.

(** X5: an edit of properties, by [update_widget], by [update_main_window]
    or through [on_property_changed] of the property editor, is not
    recorded: the undo and redo stacks, the flag of unsaved changes, the
    counter and the selection are as before, and no widget is added or
    removed. *)
Theorem property_edits_are_not_recorded (s : StateManager.t)
    (widget_id property_path : string) (updates value : pyval) :
  let edited := snd (StateManager.update_widget widget_id updates s) in
  let window := snd (StateManager.update_main_window updates s) in
  let changed :=
    snd (PropertyEditor.on_property_changed widget_id property_path value s) in
  bookkeeping edited = bookkeeping s
  /\ bookkeeping window = bookkeeping s
  /\ bookkeeping changed = bookkeeping s
  /\ map fst (StateManager.widgets edited) = map fst (StateManager.widgets s)
  /\ StateManager.widgets window = StateManager.widgets s
  /\ map fst (StateManager.widgets changed)
     = map fst (StateManager.widgets s).
Proof.
  cbv zeta.
  pose proof (update_widget_bookkeeping widget_id updates s) as [H1 H2].
  pose proof (update_main_window_bookkeeping updates s) as [H3 H4].
  pose proof (on_property_changed_bookkeeping widget_id property_path value s)
    as [H5 H6].
  done.
Qed.

Section undo_of_edits.
Import StateManager.

Lemma push_undo_top s u a :
  undo_stack s = u ++ [a] -> (2 <= max_undo_levels s)%nat ->
  exists u', undo_stack (push_undo s) = u' ++ [a; get_current_state s].
Proof.
  intros Hu Hm. unfold push_undo. cbn [undo_stack set_undo_stack].
  rewrite Hu, <- app_assoc. cbn [app].
  destruct (Nat.ltb_spec (max_undo_levels s)
              (length (u ++ [a; get_current_state s]))) as [H|H];
    [|by exists u].
  rewrite length_app in H. simpl in H.
  destruct u as [|x u]; [simpl in H; lia|]. by exists u.
Qed.

(** [undo] after [add_widget] *)
Lemma undo_after_add_widget (s : t) (u : list snapshot) (a : snapshot)
    (widget_data : pyval) :
  undo_stack s = u ++ [a] -> (2 <= max_undo_levels s)%nat ->
  let undone := snd (undo (snd (add_widget widget_data s))) in
  fst (undo (snd (add_widget widget_data s))) = Ret tt
  /\ get_current_state undone = a
  /\ redo_stack undone = [get_current_state s]
  /\ last (undo_stack undone) = Some a.
Proof.
  intros Hu Hm. cbv zeta.
  destruct (add_widget_stacks widget_data s) as [H1 H2].
  destruct (push_undo_top s u a Hu Hm) as [u' Hu']. rewrite Hu' in H1.
  destruct (undo_two _ u' a (get_current_state s) H1)
    as (Hf & Hc & Hs & Hr & _).
  split; [exact Hf|]. split; [exact Hc|]. split; [by rewrite Hr, H2|].
  rewrite Hs. apply last_snoc.
Qed.

(** X2: [undo] after [add_widget] restores the snapshot that was on top of
    the undo stack before [add_widget] was called, and puts the state
    [add_widget] started from on the redo stack.  When that state was
    itself reached by an edit, the snapshot on top is the state before
    that edit, so the one [undo] takes back both. *)
Theorem undo_restores_the_snapshot_before (s : t) (u : list snapshot)
    (a : snapshot) (widget_data : pyval) :
  undo_stack s = u ++ [a] -> (2 <= max_undo_levels s)%nat ->
  let undone := snd (undo (snd (add_widget widget_data s))) in
  get_current_state undone = a
  /\ redo_stack undone = [get_current_state s]
  /\ last (undo_stack undone) = Some a.
Proof.
  intros Hu Hm.
  exact (proj2 (undo_after_add_widget s u a widget_data Hu Hm)).
Qed.

Lemma undo_restores_the_snapshot_before_witness :
  let s := snd (add_widget styled_button init) in
  let undone := snd (undo (snd (add_widget styled_button s))) in
  undo_stack s = [get_current_state init] ++ [get_current_state init]
  /\ widgets s <> [] /\ widgets undone = []
  /\ widget_counter undone = 0.
Proof.
  cbv zeta. split; [reflexivity|]. split; [discriminate|].
  destruct (undo_restores_the_snapshot_before
              (snd (add_widget styled_button init)) [get_current_state init]
              (get_current_state init) styled_button)
    as (Hc & _); [reflexivity | simpl; lia |].
  split; [exact (f_equal s_widgets Hc) | exact (f_equal s_widget_counter Hc)].
Defined.

(** X3: [redo] after [add_widget] and [undo] restores the state
    [add_widget] started from, and leaves nothing to redo: the widget that
    was added does not come back. *)
Theorem redo_does_not_bring_back_the_widget (s : t) (u : list snapshot)
    (a : snapshot) (widget_data : pyval) :
  undo_stack s = u ++ [a] -> (2 <= max_undo_levels s)%nat ->
  let redone := snd (redo (snd (undo (snd (add_widget widget_data s))))) in
  get_current_state redone = get_current_state s
  /\ widgets redone = widgets s
  /\ can_redo redone = false.
Proof.
  intros Hu Hm. cbv zeta.
  destruct (undo_after_add_widget s u a widget_data Hu Hm)
    as (_ & _ & Hr & _).
  destruct (redo_one _ [] (get_current_state s) Hr) as (_ & Hc & _ & Hr' & _).
  split; [exact Hc|]. split; [exact (f_equal s_widgets Hc)|].
  unfold can_redo. by rewrite Hr'.
Qed.

Lemma redo_does_not_bring_back_the_widget_witness :
  let redone := snd (redo (snd (undo (snd (add_widget styled_button init))))) in
  fst (add_widget styled_button init) = Ret "widget_1"
  /\ widgets redone = [] /\ can_redo redone = false.
Proof.
  cbv zeta. split; [reflexivity|].
  destruct (redo_does_not_bring_back_the_widget init []
              (get_current_state init) styled_button)
    as (_ & Hw & Hr); [reflexivity | simpl; lia |].
  split; [exact Hw | exact Hr].
Defined.



End undo_of_edits.

(** ** Loading, in full *)

Section load_in_full.
Import StateManager.

(** Running a statement, step by step *)
Lemma run_lift {S A B} (o : outcome A) (f : A -> SM S B) s a :
  o = Ret a -> (lift o ≫= f) s = f a s.
Proof. by intros ->. Qed.


Lemma run_write {S B} (g : S -> S) (f : unit -> SM S B) s :
  (write g ≫= f) s = f tt (g s).
Proof. reflexivity. Qed.

Lemma run_read {S A B} (g : S -> A) (f : A -> SM S B) s :
  (read g ≫= f) s = f (g s) s.
Proof. reflexivity. Qed.

Lemma run_query {S A B} (g : S -> outcome A) (f : A -> SM S B) s a :
  g s = Ret a -> (query g ≫= f) s = f a s.
Proof. intros H. unfold mbind, SM_bind, query. by rewrite H. Qed.

Lemma run_ret {S A B} (a : A) (f : A -> SM S B) s : (mret a ≫= f) s = f a s.
Proof. reflexivity. Qed.

Lemma run_bind {S A B} (m : SM S A) (f : A -> SM S B) s a s' :
  m s = (Ret a, s') -> (m ≫= f) s = f a s'.
Proof. intros H. unfold mbind, SM_bind. by rewrite H. Qed.

Lemma run_bind_raise {S A B} (m : SM S A) (f : A -> SM S B) s e s' :
  m s = (Raise e, s') -> (m ≫= f) s = (Raise e, s').
Proof. intros H. unfold mbind, SM_bind. by rewrite H. Qed.

(** The loop that fills [self.widgets], as an equation *)
Lemma load_loop_eq ws : forall s,
  forallb loadable_widget ws = true ->
  for_each_SM
    (fun widget =>
       has_id ← lift (py_in "id" widget);
       if has_id : bool then
         id ← lift (py_getitem widget "id");
         change (fun s => w ← kset id widget (widgets s);
                          Ret (set_widgets w s))
       else mret tt) ws s
  = (Ret tt, set_widgets (fold_left store_widget ws (widgets s)) s).
Proof.
  induction ws as [|w ws IH]; intros s Hok.
  - by destruct s.
  - simpl in Hok. apply andb_prop in Hok as [Hw Hws].
    cbn [for_each_SM fold_left]. unfold mbind at 1, SM_bind at 1.
    destruct (loadable_widget_cases w Hw)
      as (d & -> & [[Hd Hi]|(id & Hd & Hi & _)]).
    + assert (Hs : store_widget (widgets s) (PDict d) = widgets s)
        by (unfold store_widget; by rewrite Hi).
      unfold mbind, SM_bind, lift. cbn [py_in]. rewrite dhas_dget, Hd.
      cbn [mret SM_ret]. by rewrite (IH _ Hws), Hs.
    + assert (Hs : store_widget (widgets s) (PDict d)
                   = kset_raw (PStr id) (PDict d) (widgets s))
        by (unfold store_widget; by rewrite Hi).
      unfold mbind at 1 2, SM_bind at 1 2, lift. cbn [py_in py_getitem].
      rewrite dhas_dget, Hd. unfold change.
      cbn [kset hashable mbind outcome_bind].
      rewrite (IH _ Hws). cbn [widgets set_widgets]. by rewrite Hs.
Qed.



(** The rest of [load_project_data], after the widgets: it leaves the
    project data, the widgets, the counter, the path and the undo limit
    alone, also when it raises, which it does not when the two settings of
    the document are objects; and it ends with one snapshot, nothing
    selected and nothing to save. *)
Lemma load_project_data_rest d
    (Q : pyval -> dict -> Z -> option string -> nat -> Prop) :
  hoare (fun s => Q (project_data s) (widgets s) (widget_counter s)
                    (project_path s) (max_undo_levels s))
    (has ← lift (py_in "canvas_settings" (PDict d));
     _ ← (if has : bool then
            arg ← lift (py_getitem (PDict d) "canvas_settings");
            update_field canvas_settings set_canvas_settings arg
          else mret tt);
     has ← lift (py_in "layer_config" (PDict d));
     _ ← (if has : bool then
            arg ← lift (py_getitem (PDict d) "layer_config");
            update_field layer_config set_layer_config arg
          else mret tt);
     has ← lift (py_in "framework" (PDict d));
     _ ← (if has : bool then
            fw ← lift (py_getitem (PDict d) "framework");
            write (set_target_framework fw)
          else mret tt);
     _ ← write (set_selected_widget_id None);
     _ ← write (set_unsaved_changes false);
     _ ← write (set_undo_stack []);
     _ ← write (set_redo_stack []);
     _ ← save_initial_state;
     _ ← write (emit project_loaded);
     write (emit state_changed))
    (fun _ s => Q (project_data s) (widgets s) (widget_counter s)
                  (project_path s) (max_undo_levels s)
                /\ selected_widget_id s = None
                /\ unsaved_changes s = false
                /\ ((1 <= max_undo_levels s)%nat ->
                    undo_stack s = [get_current_state s])
                /\ redo_stack s = []
                /\ target_framework s
                   = default (target_framework s) (dget "framework" d))
    (fun s => Q (project_data s) (widgets s) (widget_counter s)
                (project_path s) (max_undo_levels s)
              /\ settings_ok d = false).
Proof.
  set (P := fun s : t => Q (project_data s) (widgets s) (widget_counter s)
                           (project_path s) (max_undo_levels s)).
  unfold settings_ok.
  eapply hoare_lift_ret_bind; [reflexivity|]. rewrite dhas_dget.
  eapply (hoare_bind _ _ _ (fun _ => P)).
  { destruct (dget "canvas_settings" d) as [cs|] eqn:Ecs; [|by intros s Hs].
    eapply hoare_lift_ret_bind; [cbn [py_getitem]; by rewrite Ecs|].
    intros s Hs. unfold update_field.
    destruct (dict_update (canvas_settings s) cs) as [d' [e|]] eqn:Eu;
      [|exact Hs].
    split; [exact Hs|]. by destruct cs. }
  intros [].
  eapply hoare_lift_ret_bind; [reflexivity|]. rewrite dhas_dget.
  eapply (hoare_bind _ _ _ (fun _ => P)).
  { destruct (dget "layer_config" d) as [lc|] eqn:Elc; [|by intros s Hs].
    eapply hoare_lift_ret_bind; [cbn [py_getitem]; by rewrite Elc|].
    intros s Hs. unfold update_field.
    destruct (dict_update (layer_config s) lc) as [d' [e|]] eqn:Eu;
      [|exact Hs].
    split; [exact Hs|]. rewrite andb_false_iff. right. by destruct lc. }
  intros [].
  eapply hoare_lift_ret_bind; [reflexivity|]. rewrite dhas_dget.
  eapply (hoare_bind _ _ _
            (fun _ s => P s /\ target_framework s
                               = default (target_framework s)
                                   (dget "framework" d))).
  { destruct (dget "framework" d) as [fw|] eqn:Efw; [|by intros s Hs].
    eapply hoare_lift_ret_bind; [cbn [py_getitem]; by rewrite Efw|].
    apply hoare_write. done. }
  intros []. intros s [HQ Hf].
  unfold mbind, SM_bind, write, save_initial_state, push_undo. cbn.
  unfold P in HQ.
  destruct (max_undo_levels s) as [|m] eqn:Em; cbn; rewrite ?Em.
  - repeat split; try done. intros; lia.
  - done.
Qed.

(** The loader up to the settings, for a list of widgets it can store *)
Lemma load_project_data_stores d ws s :
  dget "widgets" d = Some (PList ws) ->
  forallb loadable_widget ws = true ->
  loaded_widgets ws = [] \/ loaded_numbers ws <> [] ->
  let s' := snd (load_project_data (PDict d) s) in
  project_data s' = PDict d
  /\ widgets s' = loaded_widgets ws
  /\ widget_counter s'
     = match loaded_numbers ws with
       | [] => widget_counter s
       | _ => max_of (loaded_numbers ws)
       end
  /\ project_path s' = project_path s
  /\ max_undo_levels s' = max_undo_levels s
  /\ (fst (load_project_data (PDict d) s) = Ret tt ->
      selected_widget_id s' = None
      /\ unsaved_changes s' = false
      /\ ((1 <= max_undo_levels s)%nat -> undo_stack s' = [get_current_state s'])
      /\ redo_stack s' = [])
  /\ (settings_ok d = true -> fst (load_project_data (PDict d) s) = Ret tt).
Proof.
  intros Hw Hok Hcase. cbv zeta. unfold load_project_data.
  rewrite (run_lift _ _ _ (PDict d)) by reflexivity. rewrite run_write.
  rewrite (run_lift _ _ _ true) by (cbn [py_in]; by rewrite dhas_dget, Hw).
  set (counter := match loaded_numbers ws with
                  | [] => widget_counter s
                  | _ => max_of (loaded_numbers ws)
                  end).
  erewrite run_bind.
  2: { rewrite run_write.
       rewrite (run_lift _ _ _ (PList ws)) by (cbn [py_getitem]; by rewrite Hw).
       rewrite (run_lift _ _ _ ws) by reflexivity.
       rewrite (run_bind _ _ _ _ _ (load_loop_eq ws _ Hok)).
       cbn [widgets set_widgets]. fold (loaded_widgets ws).
       rewrite run_read. cbn [widgets set_widgets].
       instantiate (1 := set_widget_counter counter
                           (set_widgets (loaded_widgets ws)
                              (set_project_data (PDict d) s))).
       instantiate (1 := tt). subst counter.
       destruct Hcase as [He|Hne].
       - assert (Hn : loaded_numbers ws = []).
         { destruct (loaded_numbers ws) as [|x l] eqn:E; [done|].
           assert (Hx : loaded_numbers ws <> []) by by rewrite E.
           destruct (loaded_widgets_numbers ws Hok Hx) as [Ht _].
           by rewrite He in Ht. }
         rewrite Hn, He. cbn [truthy]. by destruct s.
       - destruct (loaded_widgets_numbers ws Hok Hne)
           as (Ht & numbers & Hnum & Hm).
         rewrite Ht.
         rewrite (run_query _ _ _ numbers) by exact Hnum.
         unfold mbind, SM_bind, lift, write. rewrite Hm.
         by destruct (loaded_numbers ws). }
  set (s2 := set_widget_counter counter _).
  pose proof (load_project_data_rest d
                (fun pd w c p m => pd = PDict d /\ w = loaded_widgets ws
                                   /\ c = counter /\ p = project_path s
                                   /\ m = max_undo_levels s) s2) as H.
  cbv beta in H. specialize (H ltac:(done)).
  match type of H with
  | match ?m with _ => _ end =>
      repeat match goal with
             | |- context [fst ?m'] => progress change m' with m
             | |- context [snd ?m'] => progress change m' with m
             end;
      destruct m as [[[]|e] s3]
  end; cbn [fst snd].
  - destruct H as ((H1 & H2 & H3 & H4 & H5) & H6 & H7 & H8 & H9 & _).
    rewrite H5 in H8. done.
  - destruct H as ((H1 & H2 & H3 & H4 & H5) & H6).
    repeat split; try done. congruence.
Qed.

(** A document with widgets the loader can store *)
Lemma load_project_data_widgets d ws s :
  dget "widgets" d = Some (PList ws) ->
  forallb loadable_widget ws = true ->
  loaded_widgets ws = [] \/ loaded_numbers ws <> [] ->
  settings_ok d = true -> (1 <= max_undo_levels s)%nat ->
  let s' := snd (load_project_data (PDict d) s) in
  fst (load_project_data (PDict d) s) = Ret tt
  /\ project_data s' = PDict d
  /\ widgets s' = loaded_widgets ws
  /\ widget_counter s'
     = match loaded_numbers ws with
       | [] => widget_counter s
       | _ => max_of (loaded_numbers ws)
       end
  /\ project_path s' = project_path s
  /\ selected_widget_id s' = None
  /\ unsaved_changes s' = false
  /\ undo_stack s' = [get_current_state s']
  /\ redo_stack s' = [].
Proof.
  intros Hw Hok Hcase Hset Hmax.
  destruct (load_project_data_stores d ws s Hw Hok Hcase)
    as (H1 & H2 & H3 & H4 & _ & H5 & H6).
  destruct (H5 (H6 Hset)) as (H7 & H8 & H9 & H10).
  cbv zeta. by rewrite (H6 Hset), (H9 Hmax).
Qed.

(** A document without the key [widgets] *)
Lemma load_project_data_keeps d s :
  dget "widgets" d = None ->
  let s' := snd (load_project_data (PDict d) s) in
  project_data s' = PDict d
  /\ widgets s' = widgets s
  /\ widget_counter s' = widget_counter s
  /\ project_path s' = project_path s
  /\ max_undo_levels s' = max_undo_levels s
  /\ (fst (load_project_data (PDict d) s) = Ret tt ->
      selected_widget_id s' = None
      /\ unsaved_changes s' = false
      /\ ((1 <= max_undo_levels s)%nat -> undo_stack s' = [get_current_state s'])
      /\ redo_stack s' = [])
  /\ (settings_ok d = true -> fst (load_project_data (PDict d) s) = Ret tt).
Proof.
  intros Hw. cbv zeta. unfold load_project_data.
  rewrite (run_lift _ _ _ (PDict d)) by reflexivity. rewrite run_write.
  rewrite (run_lift _ _ _ false) by (cbn [py_in]; by rewrite dhas_dget, Hw).
  rewrite run_ret.
  set (s2 := set_project_data (PDict d) s).
  pose proof (load_project_data_rest d
                (fun pd w c p m => pd = PDict d /\ w = widgets s
                                   /\ c = widget_counter s
                                   /\ p = project_path s
                                   /\ m = max_undo_levels s) s2) as H.
  cbv beta in H. specialize (H ltac:(done)).
  match type of H with
  | match ?m with _ => _ end =>
      repeat match goal with
             | |- context [fst ?m'] => progress change m' with m
             | |- context [snd ?m'] => progress change m' with m
             end;
      destruct m as [[[]|e] s3]
  end; cbn [fst snd].
  - destruct H as ((H1 & H2 & H3 & H4 & H5) & H6 & H7 & H8 & H9 & _).
    rewrite H5 in H8. done.
  - destruct H as ((H1 & H2 & H3 & H4 & H5) & H6).
    repeat split; try done. congruence.
Qed.

End load_in_full.

(** ** Opening and saving *)

Section opening.
Import StateManager.



(** X7: a project file that is an object with [name], [framework] and
    [main_window] and without the key [widgets] passes the validation, and
    opening it keeps the widgets and the counter of the project that was
    open, under the project data of the file, whether [open_project]
    returns [True] or [False].  It returns [True], with the path of the
    file and nothing to save, when the [canvas_settings] and the
    [layer_config] of the file are each absent or an object; when it
    returns [False] it has shown the exception and kept the path. *)
Theorem open_without_widgets_keeps_them (chosen : string)
    (load_json : string -> outcome pyval) (filepath : option string)
    (pm : ProjectManager.t) (d : dict) :
  path_opened chosen filepath <> "" ->
  load_json (path_opened chosen filepath) = Ret (PDict d) ->
  dhas "name" d = true -> dhas "framework" d = true ->
  dhas "main_window" d = true ->
  dget "widgets" d = None ->
  let opened := ProjectManager.open_project chosen load_json filepath pm in
  let s := ProjectManager.state_manager pm in
  let s' := ProjectManager.state_manager (snd opened) in
  project_data s' = PDict d
  /\ widgets s' = widgets s
  /\ widget_counter s' = widget_counter s
  /\ (settings_ok d = true ->
      fst opened = true
      /\ ProjectManager.shown (snd opened) = ProjectManager.shown pm
      /\ project_path s' = Some (path_opened chosen filepath)
      /\ unsaved_changes s' = false)
  /\ (fst opened = false ->
      project_path s' = project_path s
      /\ exists e,
           ProjectManager.shown (snd opened)
           = ProjectManager.shown pm
             ++ [ProjectManager.show_error "Failed to open project" (Some e)]).
Proof.
  intros Hne Hload Hn Hf Hm Hw. cbv zeta.
  unfold ProjectManager.open_project. fold (path_opened chosen filepath).
  apply String.eqb_neq in Hne. rewrite Hne, Hload.
  rewrite validate_object, Hn, Hf, Hm, Hw. cbn [andb negb].
  destruct (load_project_data_keeps d (ProjectManager.state_manager pm) Hw)
    as (H1 & H2 & H3 & H4 & _ & _ & H5).
  destruct (load_project_data (PDict d) (ProjectManager.state_manager pm))
    as [[[]|e] s1] eqn:E.
  - rewrite (run_bind _ _ _ _ _ E). cbn in *. done.
  - rewrite (run_bind_raise _ _ _ _ _ E). cbn in *.
    split; [done|]. split; [done|]. split; [done|]. split.
    + intros Hs. by specialize (H5 Hs).
    + intros _. split; [done|]. by exists e.
Qed.

Lemma open_without_widgets_keeps_them_witness :
  let opened :=
    ProjectManager.open_project ""
      (fun _ => Ret (PDict document_without_widgets)) (Some "bare.pgb")
      button_manager in
  fst opened = true
  /\ map fst (widgets (ProjectManager.state_manager (snd opened)))
     = [PStr "widget_1"]
  /\ widget_counter (ProjectManager.state_manager (snd opened)) = 1.
Proof.
  cbv zeta.
  destruct (open_without_widgets_keeps_them ""
              (fun _ => Ret (PDict document_without_widgets))
              (Some "bare.pgb") button_manager document_without_widgets)
    as (_ & H2 & H3 & H4 & _);
    try reflexivity; try discriminate.
  split; [exact (proj1 (H4 eq_refl))|].
  split; [by rewrite H2 | by rewrite H3].
Defined.




End opening.

Section round_trip.
Import StateManager.

Lemma kget_not_key {V} id (d : kdict V) :
  PStr id ∉ map fst d -> kget (PStr id) d = None.
Proof.
  induction d as [|[k v] d IH]; [done|]. cbn [map fst kget].
  rewrite not_elem_of_cons. intros [Hk Hd].
  destruct (py_eqb (PStr id) k) eqn:E; [|by apply IH].
  apply py_eqb_str in E. congruence.
Qed.







End round_trip.

(** ** Adding and removing, in full *)

Section add_remove.
Import StateManager.

Lemma save_state_eq s :
  save_state s
  = (Ret tt,
     emit state_changed
       (set_unsaved_changes true (set_redo_stack [] (push_undo s)))).
Proof. reflexivity. Qed.

Lemma kget_kdel_other {V} a b (d : kdict V) :
  a <> b -> kget (PStr a) (kdel (PStr b) d) = kget (PStr a) d.
Proof.
  intros Hne. induction d as [|[k v] d IH]; [done|]. cbn [kdel kget].
  destruct (py_eqb (PStr b) k) eqn:Eb; cbn [kget].
  - apply py_eqb_str in Eb as ->. by rewrite py_eqb_str_false.
  - destruct (py_eqb (PStr a) k); [done|exact IH].
Qed.

Lemma kget_kdel_same {V} a (d : kdict V) :
  NoDup (map fst d) -> kget (PStr a) (kdel (PStr a) d) = None.
Proof.
  induction d as [|[k v] d IH]; [done|]. cbn [map fst kdel].
  intros [Hk Hd]%NoDup_cons.
  destruct (py_eqb (PStr a) k) eqn:Ea.
  - apply py_eqb_str in Ea as ->. by apply kget_not_key.
  - cbn [kget]. rewrite Ea. by apply IH.
Qed.

(** X10: [remove_widget] on an id of the map takes that widget out and no
    other, leaves the counter, clears the selection when it was this
    widget, and records the state before for undo.  It returns [True] when
    the widget has a type; when it has none the [KeyError] of the log line
    comes after the removal. *)
Theorem remove_widget_takes_one_out (s : t) (widget_id : string) (w : pyval) :
  kget (PStr widget_id) (widgets s) = Some w ->
  NoDup (map fst (widgets s)) ->
  let s' := snd (remove_widget widget_id s) in
  fst (remove_widget widget_id s)
    = (_ ← py_getitem w "type"; Ret true)
  /\ kget (PStr widget_id) (widgets s') = None
  /\ (forall other, other <> widget_id ->
        kget (PStr other) (widgets s') = kget (PStr other) (widgets s))
  /\ widget_counter s' = widget_counter s
  /\ selected_widget_id s'
     = (if bool_decide (selected_widget_id s = Some widget_id) then None
        else selected_widget_id s)
  /\ undo_stack s' = undo_stack (push_undo s)
  /\ redo_stack s' = []
  /\ unsaved_changes s' = true.
Proof.
  intros Hw Hnd. cbv zeta. unfold remove_widget.
  rewrite run_read. unfold khas. rewrite Hw.
  rewrite (run_bind _ _ _ _ _ (save_state_eq s)).
  rewrite (run_query _ _ _ w) by (unfold kgetitem; cbn; by rewrite Hw).
  rewrite run_write, run_read. cbn [selected_widget_id set_widgets emit
    set_unsaved_changes set_redo_stack push_undo set_undo_stack].
  assert (Hdel : kget (PStr widget_id) (kdel (PStr widget_id) (widgets s))
                 = None) by by apply kget_kdel_same.
  destruct (bool_decide (selected_widget_id s = Some widget_id));
    unfold mbind, SM_bind, write, lift, mret, SM_ret; cbn;
    (destruct (py_getitem w "type") as [ty|e]; cbn;
     (split; [reflexivity|]); (split; [exact Hdel|]);
     (split; [intros other Ho; by apply kget_kdel_other|]); done).
Qed.

Lemma remove_widget_takes_one_out_witness :
  let s := snd (add_widget typeless_widget one_button) in
  map fst (widgets s) = [PStr "widget_1"; PStr "widget_2"]
  /\ fst (remove_widget "widget_2" s) = Raise KeyError
  /\ kget (PStr "widget_2") (widgets (snd (remove_widget "widget_2" s))) = None
  /\ widget_counter (snd (remove_widget "widget_2" s)) = 2.
Proof.
  cbv zeta. split; [vm_compute; reflexivity|].
  destruct (remove_widget_takes_one_out
              (snd (add_widget typeless_widget one_button)) "widget_2"
              (obj [ ("properties",
                       obj [ ("name", PStr "ghost");
                             ("geometry",
                               PList [PInt 100; PInt 100; PInt 200; PInt 100]);
                             ("layer", PInt 2) ]);
                     ("id", PStr "widget_2") ]))
    as (H1 & H2 & _ & H4 & _).
  - vm_compute. reflexivity.
  - vm_compute. apply NoDup_cons. split; [|apply NoDup_singleton].
    intros H. apply list_elem_of_singleton in H. discriminate H.
  - split; [exact H1|]. split; [exact H2|]. rewrite H4. vm_compute.
    reflexivity.
Defined.









End add_remove.
Section framework_and_groups.
Import StateManager.

Lemma change_target_framework_eq s framework pd :
  py_eqb (PStr framework) (target_framework s) = false ->
  project_data s = PDict pd ->
  change_target_framework framework s
  = (Ret tt,
     emit (framework_changed framework)
       (emit state_changed
          (set_unsaved_changes true
             (set_redo_stack []
                (push_undo
                   (set_project_data
                      (PDict (kset_raw (PStr "framework") (PStr framework) pd))
                      (set_target_framework (PStr framework) s))))))).
Proof.
  intros Hne Hpd.
  unfold change_target_framework, mbind, SM_bind, read, write, change.
  rewrite Hne. cbn [negb project_data set_target_framework]. rewrite Hpd.
  reflexivity.
Qed.

(** X12: [undo] does not restore the target framework.  In a state
    manager whose project data is an object, whose undo stack is not
    empty and whose undo limit is at least two, [set_target_framework]
    with another framework returns, sets [target_framework] and the
    [framework] of the project data, and pushes a snapshot.  [undo] then
    returns and restores what the snapshot that was on top of the undo
    stack before the change holds, project data included, while
    [target_framework] stays the new one.  When that snapshot is the state
    before the change, the project data is the one from before. *)
Theorem undo_keeps_the_new_framework (s : t) (u : list snapshot)
    (a : snapshot) (framework : string) :
  undo_stack s = u ++ [a] ->
  (2 <= max_undo_levels s)%nat ->
  is_dict (project_data s) = true ->
  target_framework s <> PStr framework ->
  let changed := snd (change_target_framework framework s) in
  let undone := snd (undo changed) in
  fst (change_target_framework framework s) = Ret tt
  /\ target_framework changed = PStr framework
  /\ py_getitem (project_data changed) "framework" = Ret (PStr framework)
  /\ fst (undo changed) = Ret tt
  /\ target_framework undone = PStr framework
  /\ get_current_state undone = a
  /\ (a = get_current_state s -> project_data undone = project_data s).
Proof.
  intros Hu Hm Hd Hne. cbv zeta.
  destruct (project_data s) as [| | | | | |pd] eqn:Hpd; try discriminate.
  assert (Hq : py_eqb (PStr framework) (target_framework s) = false).
  { destruct (py_eqb (PStr framework) (target_framework s)) eqn:E; [|done].
    apply py_eqb_str in E. by destruct Hne. }
  rewrite (change_target_framework_eq s framework pd Hq Hpd).
  cbn [fst snd]. split; [done|]. split; [done|].
  split.
  { cbn [project_data emit set_unsaved_changes set_redo_stack push_undo
         set_undo_stack set_project_data py_getitem].
    by rewrite dget_kset. }
  set (s1 := set_project_data _ (set_target_framework (PStr framework) s)).
  destruct (push_undo_top s1 u a Hu Hm) as [u' Hu'].
  destruct (undo_two
              (emit (framework_changed framework)
                 (emit state_changed
                    (set_unsaved_changes true
                       (set_redo_stack [] (push_undo s1)))))
              u' a (get_current_state s1) Hu')
    as (Hf & Hc & _ & _ & _ & Ht & _).
  split; [exact Hf|]. split; [exact Ht|]. split; [exact Hc|].
  intros Ha. apply (f_equal s_project_data) in Hc.
  cbn [s_project_data get_current_state] in Hc.
  by rewrite Hc, Ha, <- Hpd.
Qed.

Lemma undo_keeps_the_new_framework_witness :
  let undone := snd (undo (snd (change_target_framework "Tkinter" init))) in
  target_framework undone = PStr "Tkinter"
  /\ py_getitem (project_data undone) "framework" = Ret (PStr "PyQt6").
Proof.
  cbv zeta.
  destruct (undo_keeps_the_new_framework init [] (get_current_state init)
              "Tkinter")
    as (_ & _ & _ & _ & Ht & _ & Hp);
    [reflexivity | simpl; lia | reflexivity | discriminate |].
  split; [exact Ht|]. rewrite (Hp eq_refl). reflexivity.
Defined.

Lemma kget_kset_raw_other {V} a b (v : V) d :
  a <> b -> kget (PStr a) (kset_raw (PStr b) v d) = kget (PStr a) d.
Proof.
  intros H. rewrite kget_kset_str.
  by destruct (String.eqb_spec a b).
Qed.

Lemma kget_kset_raw_same {V} a (v : V) d :
  kget (PStr a) (kset_raw (PStr a) v d) = Some v.
Proof. by rewrite kget_kset_str, String.eqb_refl. Qed.

(** The widget [on_property_changed] leaves for a path of three parts *)
Lemma on_property_changed_group s widget_id property_path group field value
    w p g :
  widget_id <> "main_window" ->
  split "." property_path = ["properties"; group; field] ->
  get_widget widget_id s = Some (PDict w) ->
  dget "properties" w = Some (PDict p) ->
  dget group p = Some (PDict g) ->
  PropertyEditor.on_property_changed widget_id property_path value s
  = (Ret tt,
     emit (widget_modified widget_id)
       (set_widgets
          (kset_raw (PStr widget_id)
             (PDict
                (kset_raw (PStr "properties")
                   (PDict
                      (kset_raw (PStr group)
                         (PDict (kset_raw (PStr field) value g)) p)) w))
             (widgets s)) s)).
Proof.
  intros Hid Hsplit Hw Hp Hg. unfold PropertyEditor.on_property_changed.
  rewrite Hsplit. apply String.eqb_neq in Hid. rewrite Hid.
  cbn [String.eqb Ascii.eqb Bool.eqb].
  rewrite run_read, Hw.
  assert (Ht : truthy (PDict w) = true).
  { destruct w; [discriminate Hp | reflexivity]. }
  rewrite Ht.
  rewrite (run_lift _ _ _
             (obj [("properties",
                    PDict [(PStr group,
                            PDict (kset_raw (PStr field) value g))])])).
  2:{ unfold PropertyEditor.nested_update. cbn [py_get mbind outcome_bind].
      rewrite Hp. cbn [py_get]. rewrite Hg. reflexivity. }
  unfold update_widget. rewrite run_read.
  unfold get_widget in Hw. unfold khas. rewrite Hw.
  unfold mbind at 1, SM_bind at 1, on_widget. rewrite Hw.
  unfold apply_updates, mbind, SM_bind, lift, query, change, write, mret,
    SM_ret.
  cbn [obj map fst snd py_in dhas khas kget py_eqb String.eqb Ascii.eqb
       Bool.eqb].
  cbn [py_in fmap outcome_fmap negb]. rewrite dhas_dget, Hp.
  cbn [negb py_getitem fmap]. rewrite Hp.
  cbn [dget kget py_eqb String.eqb Ascii.eqb Bool.eqb dict_update kupdate
       fold_left fst snd py_setitem hashable for_each_SM negb].
  reflexivity.
Qed.

(** X13: an edit of one field of a group through [on_property_changed],
    with a path of three parts, keeps the other fields of the group: the
    group is read from the widget, the field is set in it and the whole
    group is sent as the update.  The other properties of the widget and
    the other widgets are as before. *)
Theorem nested_edit_keeps_the_siblings (s : t)
    (widget_id property_path group field : string) (value : pyval)
    (w p g : dict) :
  widget_id <> "main_window" ->
  split "." property_path = ["properties"; group; field] ->
  get_widget widget_id s = Some (PDict w) ->
  dget "properties" w = Some (PDict p) ->
  dget group p = Some (PDict g) ->
  let s' :=
    snd (PropertyEditor.on_property_changed widget_id property_path value s) in
  fst (PropertyEditor.on_property_changed widget_id property_path value s)
  = Ret tt
  /\ widget_field s' widget_id ["properties"; group; field] = Some value
  /\ (forall other, other <> field ->
        widget_field s' widget_id ["properties"; group; other]
        = widget_field s widget_id ["properties"; group; other])
  /\ (forall name, name <> group ->
        widget_field s' widget_id ["properties"; name]
        = widget_field s widget_id ["properties"; name])
  /\ (forall other_id, other_id <> widget_id ->
        get_widget other_id s' = get_widget other_id s).
Proof.
  intros Hid Hsplit Hw Hp Hg. cbv zeta.
  rewrite (on_property_changed_group s widget_id property_path group field
             value w p g Hid Hsplit Hw Hp Hg).
  cbn [fst snd]. split; [done|].
  unfold widget_field, get_widget in *.
  cbn [widgets emit set_widgets]. rewrite kget_kset_raw_same, Hw.
  cbn [mbind option_bind nested]. unfold dget in *.
  rewrite !kget_kset_raw_same, Hp. cbn [nested]. unfold dget.
  split; [done|]. split.
  { intros other Ho. by rewrite Hg, kget_kset_raw_other. }
  split.
  { intros name Hn. by rewrite kget_kset_raw_other. }
  intros other_id Ho. by rewrite kget_kset_raw_other.
Qed.

Lemma nested_edit_keeps_the_siblings_witness :
  let s' :=
    snd (PropertyEditor.on_property_changed "widget_1"
           "properties.colors.background" (PStr "#FF0000") one_button) in
  widget_field s' "widget_1" ["properties"; "colors"; "background"]
  = Some (PStr "#FF0000")
  /\ widget_field s' "widget_1" ["properties"; "colors"; "border"]
     = Some (PStr "#CCCCCC").
Proof.
  cbv zeta.
  edestruct (nested_edit_keeps_the_siblings one_button "widget_1"
               "properties.colors.background" "colors" "background"
               (PStr "#FF0000"))
    as (_ & H1 & H2 & _);
    [ discriminate | reflexivity | vm_compute; reflexivity
    | vm_compute; reflexivity | vm_compute; reflexivity | ].
  split; [exact H1|]. rewrite (H2 "border"); [reflexivity | discriminate].
Defined.

End framework_and_groups.
(** ** Identifiers of the generated code *)

Section identifiers.
Import BaseGenerator.

Lemma append_cons c a b : String c a +:+ b = String c (a +:+ b).
Proof. reflexivity. Qed.

Lemma append_nil b : "" +:+ b = b.
Proof. reflexivity. Qed.

Lemma append_assoc a b c : (a +:+ b) +:+ c = a +:+ (b +:+ c).
Proof.
  induction a as [|x a IH]; [done|]. by rewrite !append_cons, IH.
Qed.

Lemma append_inj_l a x y : a +:+ x = a +:+ y -> x = y.
Proof.
  induction a as [|c a IH]; [done|]. rewrite !append_cons. intros [= E]. auto.
Qed.

Lemma word_char_replaced c :
  word_char (if word_char c then c else "_"%char) = true.
Proof. destruct (word_char c) eqn:E; [exact E | reflexivity]. Qed.

Lemma re_sub_non_word_word s :
  str_forallb word_char (re_sub_non_word s) = true.
Proof.
  unfold re_sub_non_word. induction s as [|c r IH]; [done|].
  cbn [str_map str_forallb]. by rewrite word_char_replaced, IH.
Qed.

Lemma re_sub_non_word_id s :
  str_forallb word_char s = true -> re_sub_non_word s = s.
Proof.
  unfold re_sub_non_word. induction s as [|c r IH]; [done|].
  cbn [str_map str_forallb]. intros H. apply andb_prop in H as [Hc Hr].
  by rewrite Hc, (IH Hr).
Qed.

(** X14: [sanitize_name] of any text returns a name that is not empty,
    holds letters, digits and underscores only and does not start with a
    digit; sanitizing that name again gives it back. *)
Theorem sanitize_name_gives_an_identifier (name : string) :
  exists c rest,
    sanitize_name (PStr name) = Ret (String c rest)
    /\ str_forallb word_char (String c rest) = true
    /\ isdigit c = false
    /\ sanitize_name (PStr (String c rest)) = Ret (String c rest).
Proof.
  unfold sanitize_name at 1. cbv zeta.
  pose proof (re_sub_non_word_word name) as Hw.
  destruct (re_sub_non_word name) as [|c r] eqn:E.
  - exists "w"%char, "idget". repeat split; reflexivity.
  - destruct (isdigit c) eqn:Hd.
    + rewrite append_cons, append_nil. cbn [String.eqb].
      exists "_"%char, (String c r).
      assert (Hw' : str_forallb word_char (String "_" (String c r)) = true).
      { cbn [str_forallb] in *. by rewrite Hw. }
      split; [done|]. split; [exact Hw'|]. split; [reflexivity|].
      unfold sanitize_name. cbv zeta. rewrite (re_sub_non_word_id _ Hw').
      reflexivity.
    + cbn [String.eqb]. exists c, r.
      split; [done|]. split; [exact Hw|]. split; [exact Hd|].
      unfold sanitize_name. cbv zeta. rewrite (re_sub_non_word_id _ Hw), Hd.
      reflexivity.
Qed.

(** *** Names that cannot be taken for one another *)

Lemma str_of_uint_no_underscore d :
  str_has "_" (NilEmpty.string_of_uint d) = false.
Proof. induction d; simpl; auto. Qed.

Lemma str_of_int_no_underscore z : str_has "_" (str_of_int z) = false.
Proof.
  unfold str_of_int.
  destruct (Z.to_int z) as [d|d]; cbn [NilZero.string_of_int str_has];
    destruct d; try reflexivity; apply str_of_uint_no_underscore.
Qed.

Lemma str_has_middle c a b : str_has c (a +:+ String c b) = true.
Proof.
  induction a as [|x a IH].
  - rewrite append_nil. cbn [str_has]. by rewrite Ascii.eqb_refl.
  - rewrite append_cons. cbn [str_has]. rewrite IH. apply orb_true_r.
Qed.

Lemma numbered_split b b' d d' :
  str_has "_" d = false -> str_has "_" d' = false ->
  b +:+ "_" +:+ d = b' +:+ "_" +:+ d' -> b = b' /\ d = d'.
Proof.
  intros Hd Hd'. revert b'.
  induction b as [|c b IH]; intros [|c' b']; rewrite ?append_cons, ?append_nil.
  - by intros [= ->].
  - intros [= <- E]. rewrite E, str_has_middle in Hd. discriminate.
  - intros [= -> E]. rewrite <- E, str_has_middle in Hd'. discriminate.
  - intros [= -> E]. destruct (IH _ E) as [-> ->]. done.
Qed.

Lemma longer_differs b x : b <> b +:+ String x "".
Proof.
  induction b as [|c b IH]; [done|]. rewrite append_cons. intros [= E]. auto.
Qed.

(** *** The values of a dict after an assignment *)

Lemma kset_raw_values {V} k (v : V) d x :
  x ∈ map snd (kset_raw k v d) -> x = v \/ x ∈ map snd d.
Proof.
  induction d as [|[k0 v0] r IH]; cbn [kset_raw map snd].
  - intros H. apply list_elem_of_singleton in H. by left.
  - destruct (py_eqb k k0); cbn [map snd]; intros H;
      apply elem_of_cons in H as [->|H].
    + by left.
    + right. by right.
    + right. left.
    + destruct (IH H) as [->|H']; [by left | right; by right].
Qed.

Lemma kset_raw_values_NoDup {V} k (v : V) d :
  NoDup (map snd d) -> v ∉ map snd d -> NoDup (map snd (kset_raw k v d)).
Proof.
  induction d as [|[k0 v0] r IH]; cbn [kset_raw map snd]; intros Hn Hv.
  - apply NoDup_singleton.
  - apply NoDup_cons in Hn as [H0 Hr]. apply not_elem_of_cons in Hv as [Hv0 Hv].
    destruct (py_eqb k k0); cbn [map snd]; apply NoDup_cons.
    + done.
    + split; [|by apply IH]. intros H.
      apply kset_raw_values in H as [->|H]; done.
Qed.

(** One turn of the loop of [resolve_variable_names] *)
Lemma resolve_widget_step nc acc w st :
  resolve_widget (nc, acc) w = Ret st ->
  exists b id,
    base_name w = Ret b
    /\ py_get w "id" (PStr "") = Ret id /\ hashable id = true
    /\ st = (<[b := match nc !! b with Some n => n + 1 | None => 0 end]> nc,
             kset_raw id
               (match nc !! b with
                | Some n => b +:+ "_" +:+ str_of_int (n + 1)
                | None => b
                end) acc).
Proof.
  unfold resolve_widget, base_name.
  destruct (py_get w "id" (PStr "")) as [id|]; [|done].
  cbn [mbind outcome_bind].
  destruct (py_get w "properties" (PDict [])) as [p|]; [|done].
  cbn [mbind outcome_bind].
  destruct (py_get p "name" (PStr "widget")) as [n|]; [|done].
  cbn [mbind outcome_bind].
  destruct (sanitize_name n) as [b|]; [|done].
  cbn [mbind outcome_bind]. unfold kset.
  destruct (nc !! b) eqn:En; destruct (hashable id) eqn:Eh;
    cbn [mbind outcome_bind]; try done; intros [= <-]; exists b, id;
    by rewrite En.
Qed.

Section unique.

Variable all : list pyval.
Hypothesis no_clash : forall w w' b b' k,
  w ∈ all -> w' ∈ all -> base_name w = Ret b -> base_name w' = Ret b' ->
  0 < k -> b <> b' +:+ "_" +:+ str_of_int k.

Lemma resolve_loop_unique ws : forall nc acc st,
  (forall w, w ∈ ws -> w ∈ all) ->
  (forall b n, nc !! b = Some n ->
               0 <= n /\ exists w, w ∈ all /\ base_name w = Ret b) ->
  (forall v, v ∈ map snd acc ->
             exists b n, nc !! b = Some n
                         /\ (v = b
                             \/ exists k, 1 <= k <= n
                                          /\ v = b +:+ "_" +:+ str_of_int k)) ->
  NoDup (map snd acc) ->
  for_each resolve_widget ws (nc, acc) = Ret st ->
  NoDup (map snd (snd st)).
Proof.
  induction ws as [|w ws IH]; intros nc acc st Hall Hnc Hacc Hnd.
  - by intros [= <-].
  - cbn [for_each].
    destruct (resolve_widget (nc, acc) w) as [st1|] eqn:E; [|done].
    cbn [mbind outcome_bind].
    destruct (resolve_widget_step _ _ _ _ E) as (b & id & Hb & _ & _ & ->).
    assert (Hw : w ∈ all) by (apply Hall; left).
    apply IH.
    + intros w' Hw'. apply Hall. by right.
    + intros b0 n0. destruct (decide (b0 = b)) as [->|Hne].
      * rewrite lookup_insert_eq. intros [= <-]. split; [|by exists w].
        destruct (nc !! b) as [n|] eqn:En; [|lia].
        destruct (Hnc _ _ En). lia.
      * rewrite lookup_insert_ne by done. apply Hnc.
    + intros v Hv. apply kset_raw_values in Hv as [->|Hv].
      * exists b. destruct (nc !! b) as [n|] eqn:En.
        -- exists (n + 1). rewrite lookup_insert_eq. split; [done|]. right.
           exists (n + 1). destruct (Hnc _ _ En). split; [lia|done].
        -- exists 0. rewrite lookup_insert_eq. split; [done|]. by left.
      * destruct (Hacc v Hv) as (b0 & n0 & E0 & Hform).
        destruct (decide (b0 = b)) as [->|Hne].
        -- rewrite E0. exists b, (n0 + 1). rewrite lookup_insert_eq.
           split; [done|]. destruct Hform as [->|(k & Hk & ->)]; [by left|].
           right. exists k. split; [lia|done].
        -- exists b0, n0. by rewrite lookup_insert_ne.
    + apply kset_raw_values_NoDup; [done|]. intros Hv.
      destruct (Hacc _ Hv) as (b0 & n0 & E0 & Hform).
      destruct (Hnc _ _ E0) as (Hn0 & w0 & Hw0 & Hb0).
      destruct (nc !! b) as [n|] eqn:En.
      * destruct (Hnc _ _ En) as (Hn & _).
        destruct Hform as [Hv0|(k & Hk & Hv0)].
        -- by apply (no_clash w0 w b0 b (n + 1) Hw0 Hw Hb0 Hb ltac:(lia)).
        -- apply numbered_split in Hv0 as [-> Hk'];
             try apply str_of_int_no_underscore.
           apply str_of_int_inj in Hk'. rewrite En in E0. injection E0 as <-.
           lia.
      * destruct Hform as [->|(k & Hk & Hv0)]; [congruence|].
        by apply (no_clash w w0 b b0 k Hw Hw0 Hb Hb0 ltac:(lia)).
Qed.

End unique.

(** X15: when no base name is another base name followed by [_] and a
    number, the names that [resolve_variable_names] returns are pairwise
    different. *)
Theorem resolved_names_are_unique (widgets : list pyval)
    (names : kdict string) :
  (forall w w' b b' k,
     w ∈ widgets -> w' ∈ widgets ->
     base_name w = Ret b -> base_name w' = Ret b' -> 0 < k ->
     b <> b' +:+ "_" +:+ str_of_int k) ->
  resolve_variable_names (PList widgets) = Ret names ->
  NoDup (map snd names).
Proof.
  intros Hclash. unfold resolve_variable_names.
  cbn [py_iter mbind outcome_bind].
  destruct (for_each resolve_widget widgets (∅, [])) as [st|] eqn:E; [|done].
  cbn [mbind outcome_bind]. intros [= <-].
  apply (resolve_loop_unique widgets Hclash widgets ∅ [] st).
  - by intros w H.
  - intros b n H. by rewrite lookup_empty in H.
  - intros v H. by apply elem_of_nil in H.
  - apply NoDup_nil_2.
  - exact E.
Qed.

Lemma resolved_names_are_unique_witness :
  resolve_variable_names (PList same_named_widgets)
  = Ret [ (PStr "widget_1", "ok"); (PStr "widget_2", "ok_1");
          (PStr "widget_3", "cancel") ]
  /\ NoDup ["ok"; "ok_1"; "cancel"].
Proof.
  split; [reflexivity|].
  apply (resolved_names_are_unique same_named_widgets
           [ (PStr "widget_1", "ok"); (PStr "widget_2", "ok_1");
             (PStr "widget_3", "cancel") ]); [|reflexivity].
  intros w w' b b' k Hw Hw' Hb Hb' _ E.
  unfold same_named_widgets in Hw, Hw'.
  repeat (apply elem_of_cons in Hw as [->|Hw]);
    try (by apply elem_of_nil in Hw);
    repeat (apply elem_of_cons in Hw' as [->|Hw']);
    try (by apply elem_of_nil in Hw');
    vm_compute in Hb, Hb'; injection Hb as <-; injection Hb' as <-;
    rewrite ?append_cons, ?append_nil in E; discriminate E.
Defined.

(** *** The attribute a widget is created under *)

Ltac next_bind H E :=
  match type of H with
  | mbind _ ?o = Ret _ =>
      destruct o eqn:E; cbn [mbind outcome_bind] in H; [|discriminate H]
  end.

Lemma pyqt6_widget_code_attribute w parent code :
  PyQt6Generator.generate_widget_code w parent = Ret code ->
  exists base rest,
    base_name w = Ret base
    /\ code = parent +:+ "." +:+ base +:+ " = " +:+ rest.
Proof.
  unfold PyQt6Generator.generate_widget_code, base_name. intros H.
  next_bind H Et. next_bind H Ep. next_bind H Ec. next_bind H En.
  next_bind H Es. next_bind H Ecreation. next_bind H Eg. next_bind H Egc.
  next_bind H Ew. next_bind H Eo. injection H as <-.
  cbn [mbind outcome_bind]. rewrite En. cbn [mbind outcome_bind]. rewrite Es.
  cbn [app join].
  match type of Ecreation with
  | (if ?c then _ else _) = _ => destruct c
  end; [next_bind Ecreation Etext|]; injection Ecreation as <-;
    do 2 eexists; (split; [reflexivity|]); rewrite !append_assoc; reflexivity.
Qed.

Lemma tkinter_widget_code_attribute w parent code :
  TkinterGenerator.generate_widget_code w parent = Ret code ->
  exists base rest,
    base_name w = Ret base
    /\ code = parent +:+ "." +:+ base +:+ " = " +:+ rest.
Proof.
  unfold TkinterGenerator.generate_widget_code, base_name. intros H.
  next_bind H Et. next_bind H Ep. next_bind H Ec. next_bind H En.
  next_bind H Es. next_bind H E1. next_bind H E2. next_bind H E3.
  next_bind H E4. next_bind H E5. next_bind H E6. next_bind H E7.
  next_bind H E8. next_bind H E9. next_bind H E10. next_bind H E11.
  match type of H with
  | mbind _ ?o = Ret _ => destruct o as [[[[x y] width] height]|];
                          cbn [mbind outcome_bind] in H; [|discriminate H]
  end.
  next_bind H E12. next_bind H E13. injection H as <-.
  cbn [mbind outcome_bind]. rewrite En. cbn [mbind outcome_bind]. rewrite Es.
  cbn [app join].
  lazymatch goal with
  | |- context [if String.eqb ?o "" then _ +:+ _ else _] =>
      destruct (String.eqb o "")
  end; do 2 eexists; (split; [reflexivity|]); rewrite !append_assoc;
    reflexivity.
Qed.

(** X16: the code of a widget creates it under its sanitized declared
    name, not under the name [resolve_variable_names] gave it: whenever
    [generate_widget_code] of either generator returns, its text starts
    with the parent, a dot, the base name of the widget and [ = ]. *)
Theorem widget_code_uses_the_declared_name (w : pyval)
    (parent code : string) :
  PyQt6Generator.generate_widget_code w parent = Ret code
  \/ TkinterGenerator.generate_widget_code w parent = Ret code ->
  exists base rest,
    base_name w = Ret base
    /\ code = parent +:+ "." +:+ base +:+ " = " +:+ rest.
Proof.
  intros [H|H];
    [by apply pyqt6_widget_code_attribute
    | by apply tkinter_widget_code_attribute].
Qed.

Lemma widget_code_uses_the_declared_name_witness :
  let code :=
    "self.ok = QPushButton(" +:+ DQ +:+ DQ +:+ ", self.central_widget)" +:+ NL
    +:+ "self.ok.setGeometry(0, 0, 100, 50)" in
  PyQt6Generator.generate_widget_code (named_widget "widget_2" "ok") "self"
  = Ret code
  /\ exists rest, code = "self.ok = " +:+ rest.
Proof.
  cbv zeta.
  assert (H : PyQt6Generator.generate_widget_code
                (named_widget "widget_2" "ok") "self"
              = Ret ("self.ok = QPushButton(" +:+ DQ +:+ DQ
                     +:+ ", self.central_widget)" +:+ NL
                     +:+ "self.ok.setGeometry(0, 0, 100, 50)"))
    by (vm_compute; reflexivity).
  split; [exact H|].
  destruct (widget_code_uses_the_declared_name _ _ _ (or_introl H))
    as (base & rest & Hb & Hc).
  vm_compute in Hb. injection Hb as <-. exists rest. exact Hc.
Defined.

End identifiers.
(** ** The widget classes *)

Section widget_classes.

Lemma py_eqb_str_r x a : py_eqb x (PStr a) = true -> x = PStr a.
Proof.
  destruct x; simpl; try done. intros H. apply String.eqb_eq in H. by subst.
Qed.






(** X18: properties that [validate_properties] accepts are a dict with a
    name that is not empty and a geometry of four values whose width and
    height are numbers above zero, so [generate_geometry_code] returns on
    that geometry.  The position is not looked at. *)
Theorem validated_properties_have_a_geometry (properties : pyval) :
  StandardWidget.validate_properties properties = true ->
  exists p name x y width height,
    properties = PDict p
    /\ dget "name" p = Some name /\ truthy name = true
    /\ dget "geometry" p = Some (PList [x; y; width; height])
    /\ py_le_zero width = Ret false /\ py_le_zero height = Ret false
    /\ BaseGenerator.generate_geometry_code (PList [x; y; width; height])
       = Ret (py_str x +:+ ", " +:+ py_str y +:+ ", " +:+ py_str width
              +:+ ", " +:+ py_str height).
Proof.
  unfold StandardWidget.validate_properties.
  destruct properties as [| | | |s|l|p]; try done.
  - cbn [py_in mbind outcome_bind]. by destruct (contains_str "name" s).
  - cbn [py_in mbind outcome_bind].
    by destruct (existsb (py_eqb (PStr "name")) l).
  - cbn [py_in py_getitem mbind outcome_bind]. rewrite !dhas_dget.
    destruct (dget "name" p) as [name|] eqn:En; [|done].
    cbn [mbind outcome_bind].
    destruct (truthy name) eqn:Hn; [|done]. cbn [negb].
    destruct (dget "geometry" p) as [geometry|] eqn:Eg; [|done].
    cbn [negb mbind outcome_bind].
    destruct geometry as [| | | | |g|]; try done.
    destruct g as [|x [|y [|width [|height [|extra g]]]]]; try done.
    cbn [length Nat.eqb negb py_index lookup list_lookup mbind outcome_bind].
    destruct (py_le_zero width) as [[]|] eqn:Hw; try done.
    cbn [mbind outcome_bind].
    destruct (py_le_zero height) as [[]|] eqn:Hh; try done.
    intros _. exists p, name, x, y, width, height. repeat split; done.
Qed.

Lemma validated_properties_have_a_geometry_witness :
  StandardWidget.validate_properties
    (obj [ ("name", PStr "ok");
           ("geometry", PList [PInt (-5); PInt 0; PInt 120; PInt 40]) ])
  = true
  /\ BaseGenerator.generate_geometry_code
       (PList [PInt (-5); PInt 0; PInt 120; PInt 40])
     = Ret "-5, 0, 120, 40".
Proof.
  split; [reflexivity|].
  destruct (validated_properties_have_a_geometry
              (obj [ ("name", PStr "ok");
                     ("geometry",
                      PList [PInt (-5); PInt 0; PInt 120; PInt 40]) ])
              eq_refl)
    as (p & name & x & y & width & height & Hp & _ & _ & Hg & _ & _ & Hc).
  injection Hp as <-. vm_compute in Hg. injection Hg as <- <- <- <-.
  exact Hc.
Defined.

End widget_classes.
(** ** The requirements of an exported project *)

Section requirements.
Import ProjectManager.

Lemma py_eqb_str_r_false x a : py_eqb x (PStr a) = false -> x <> PStr a.
Proof. intros H ->. simpl in H. by rewrite String.eqb_refl in H. Qed.

(** One turn of the loop over the widgets of [generate_requirements] *)
Lemma plugin_step ty pkg t acc :
  (ty, pkg) ∈ [ ("MapView", "tkintermapview>=1.29");
                ("TimePicker", "tktimepicker>=2.0.1");
                ("VideoPlayer", "tkvideoplayer>=2.3") ] ->
  exists acc1,
    (if py_eqb t (PStr "MapView") then
       Ret (set_add_str "tkintermapview>=1.29" acc)
     else if py_eqb t (PStr "TimePicker") then
       Ret (set_add_str "tktimepicker>=2.0.1" acc)
     else if py_eqb t (PStr "VideoPlayer") then
       Ret (set_add_str "tkvideoplayer>=2.3" acc)
     else Ret acc) = Ret acc1
    /\ (pkg ∈ acc1 <-> pkg ∈ acc \/ t = PStr ty).
Proof.
  intros Hin.
  destruct (py_eqb t (PStr "MapView")) eqn:E1;
    [apply py_eqb_str_r in E1
    |apply py_eqb_str_r_false in E1;
     destruct (py_eqb t (PStr "TimePicker")) eqn:E2;
       [apply py_eqb_str_r in E2
       |apply py_eqb_str_r_false in E2;
        destruct (py_eqb t (PStr "VideoPlayer")) eqn:E3;
          [apply py_eqb_str_r in E3
          |apply py_eqb_str_r_false in E3]]];
    (eexists; split; [reflexivity|]); rewrite ?set_add_str_elements;
    repeat (apply elem_of_cons in Hin as [[= -> ->]|Hin]);
    try (by apply elem_of_nil in Hin); intuition congruence.
Qed.

Lemma plugin_loop ty pkg ws :
  (ty, pkg) ∈ [ ("MapView", "tkintermapview>=1.29");
                ("TimePicker", "tktimepicker>=2.0.1");
                ("VideoPlayer", "tkvideoplayer>=2.3") ] ->
  forall acc acc',
    for_each (fun plugin_requirements widget =>
                widget_type ← py_get widget "type" (PStr "");
                if py_eqb widget_type (PStr "MapView") then
                  Ret (set_add_str "tkintermapview>=1.29" plugin_requirements)
                else if py_eqb widget_type (PStr "TimePicker") then
                  Ret (set_add_str "tktimepicker>=2.0.1" plugin_requirements)
                else if py_eqb widget_type (PStr "VideoPlayer") then
                  Ret (set_add_str "tkvideoplayer>=2.3" plugin_requirements)
                else Ret plugin_requirements) ws acc = Ret acc' ->
    (pkg ∈ acc'
     <-> pkg ∈ acc
         \/ exists w, w ∈ ws /\ py_get w "type" (PStr "") = Ret (PStr ty)).
Proof.
  intros Hin. induction ws as [|w ws IH]; intros acc acc'; cbn [for_each].
  - intros [= <-]. split; [by left|]. intros [H|(w & Hw & _)]; [done|].
    by apply elem_of_nil in Hw.
  - destruct (py_get w "type" (PStr "")) as [t|] eqn:Et; [|done].
    cbn [mbind outcome_bind].
    destruct (plugin_step ty pkg t acc Hin) as (acc1 & -> & Hstep).
    cbn [mbind outcome_bind]. intros H. rewrite (IH _ _ H), Hstep.
    split.
    + intros [[Ha| ->]|(w' & Hw' & Ht)]; [by left| |].
      * right. exists w. split; [left|done].
      * right. exists w'. split; [by right|done].
    + intros [Ha|(w' & Hw' & Ht)]; [by left; left|].
      apply elem_of_cons in Hw' as [->|Hw'].
      * left. right. rewrite Et in Ht. by injection Ht.
      * right. by exists w'.
Qed.

Lemma plugin_loop_returns ws :
  forallb is_dict ws = true ->
  forall acc, exists acc',
    for_each (fun plugin_requirements widget =>
                widget_type ← py_get widget "type" (PStr "");
                if py_eqb widget_type (PStr "MapView") then
                  Ret (set_add_str "tkintermapview>=1.29" plugin_requirements)
                else if py_eqb widget_type (PStr "TimePicker") then
                  Ret (set_add_str "tktimepicker>=2.0.1" plugin_requirements)
                else if py_eqb widget_type (PStr "VideoPlayer") then
                  Ret (set_add_str "tkvideoplayer>=2.3" plugin_requirements)
                else Ret plugin_requirements) ws acc = Ret acc'.
Proof.
  induction ws as [|w ws IH]; intros Hd acc; [by eexists|].
  cbn [forallb] in Hd. apply andb_prop in Hd as [Hw Hws].
  destruct w; try discriminate Hw. cbn [for_each py_get mbind outcome_bind].
  repeat match goal with
         | |- context [if ?c then _ else _] => destruct c
         end; cbn [mbind outcome_bind]; apply (IH Hws).
Qed.

(** X19: the requirements of a project whose widgets are dicts are always
    produced, and the package of a plugin widget is listed exactly when
    the project has a widget of that type, whatever the framework of the
    project: a [MapView] adds [tkintermapview] to a PyQt6 project too. *)
Theorem plugin_requirements_ignore_the_framework (d : dict)
    (ws : list pyval) :
  dget "widgets" d = Some (PList ws) ->
  forallb is_dict ws = true ->
  exists lines,
    requirements_list (PDict d) = Ret lines
    /\ forall ty pkg,
         (ty, pkg) ∈ [ ("MapView", "tkintermapview>=1.29");
                       ("TimePicker", "tktimepicker>=2.0.1");
                       ("VideoPlayer", "tkvideoplayer>=2.3") ] ->
         (pkg ∈ lines
          <-> exists w, w ∈ ws
                        /\ py_get w "type" (PStr "") = Ret (PStr ty)).
Proof.
  intros Hws Hd. unfold requirements_list.
  cbn [py_get mbind outcome_bind]. rewrite Hws.
  cbn [py_iter mbind outcome_bind].
  destruct (plugin_loop_returns ws Hd []) as [acc E]. rewrite E.
  cbn [mbind outcome_bind]. eexists. split; [reflexivity|].
  intros ty pkg Hin. pose proof (plugin_loop ty pkg ws Hin [] acc E) as Hl.
  assert (Hacc : pkg ∈ acc <-> exists w, w ∈ ws
                   /\ py_get w "type" (PStr "") = Ret (PStr ty)).
  { rewrite Hl. split; [|by right]. intros [H|H]; [|done].
    by apply elem_of_nil in H. }
  rewrite <- Hacc. clear Hacc Hl E.
  set (name := match dget "name" d with
               | Some x => x
               | None => PStr "GUI Application"
               end).
  set (framework := match dget "framework" d with
                    | Some x => x
                    | None => PStr "PyQt6"
                    end).
  assert (Hreq : forall extra,
            Forall (fun l => l <> pkg) extra ->
            ~ pkg ∈ [ "# Requirements for " +:+ py_str name;
                      "# Generated by ProGamerGUI Builder";
                      "# Framework: " +:+ py_str framework; "" ] ++ extra).
  { intros extra Hx H. apply elem_of_app in H as [H|H].
    - repeat (apply elem_of_cons in Hin as [[= -> ->]|Hin]);
        try (by apply elem_of_nil in Hin);
        repeat (apply elem_of_cons in H as [H|H]);
        try (by apply elem_of_nil in H);
        rewrite ?append_cons, ?append_nil in H; discriminate H.
    - rewrite Forall_forall in Hx. by apply (Hx pkg). }
  assert (Hfw : exists extra,
            Forall (fun l => l <> pkg) extra
            /\ (if py_eqb framework (PStr "PyQt6") then
                  [ "# Requirements for " +:+ py_str name;
                    "# Generated by ProGamerGUI Builder";
                    "# Framework: " +:+ py_str framework; "" ]
                  ++ ["PyQt6>=6.5.0"; "PyQt6-Qt6>=6.5.0"]
                else if py_eqb framework (PStr "PyQt5") then
                  [ "# Requirements for " +:+ py_str name;
                    "# Generated by ProGamerGUI Builder";
                    "# Framework: " +:+ py_str framework; "" ]
                  ++ ["PyQt5>=5.15.0"]
                else if py_eqb framework (PStr "Tkinter") then
                  [ "# Requirements for " +:+ py_str name;
                    "# Generated by ProGamerGUI Builder";
                    "# Framework: " +:+ py_str framework; "" ]
                  ++ [ "# Tkinter is included with Python";
                       "# No additional requirements needed" ]
                else if py_eqb framework (PStr "CustomTkinter") then
                  [ "# Requirements for " +:+ py_str name;
                    "# Generated by ProGamerGUI Builder";
                    "# Framework: " +:+ py_str framework; "" ]
                  ++ ["customtkinter>=5.2.0"; "Pillow>=8.3.0"]
                else
                  [ "# Requirements for " +:+ py_str name;
                    "# Generated by ProGamerGUI Builder";
                    "# Framework: " +:+ py_str framework; "" ])
               = [ "# Requirements for " +:+ py_str name;
                   "# Generated by ProGamerGUI Builder";
                   "# Framework: " +:+ py_str framework; "" ] ++ extra).
  { repeat match goal with
           | |- context [if ?c then _ else _] => destruct c
           end;
      (eexists; split; [|try reflexivity; by rewrite app_nil_r]);
      repeat (apply elem_of_cons in Hin as [[= -> ->]|Hin]);
      try (by apply elem_of_nil in Hin);
      repeat apply Forall_cons_2; try apply Forall_nil_2; discriminate. }
  destruct Hfw as (extra & Hx & ->). specialize (Hreq extra Hx).
  destruct acc as [|a acc].
  - split; [done|]. intros H. by apply elem_of_nil in H.
  - rewrite !elem_of_app. unfold sorted_strs.
    rewrite (merge_sort_Permutation str_le (a :: acc)).
    split; [|by (intros H; right; right)].
    intros [H|[H|H]]; [by apply elem_of_app in H| |done].
    repeat (apply elem_of_cons in Hin as [[= -> ->]|Hin]);
      try (by apply elem_of_nil in Hin);
      repeat (apply elem_of_cons in H as [H|H]);
      try (by apply elem_of_nil in H); discriminate H.
Qed.

Lemma plugin_requirements_ignore_the_framework_witness :
  generate_requirements map_project
  = Ret (join NL [ "# Requirements for Atlas";
                   "# Generated by ProGamerGUI Builder";
                   "# Framework: PyQt6"; ""; "PyQt6>=6.5.0";
                   "PyQt6-Qt6>=6.5.0"; ""; "# Plugin requirements";
                   "tkintermapview>=1.29" ])
  /\ exists lines,
       requirements_list map_project = Ret lines
       /\ "tkintermapview>=1.29" ∈ lines.
Proof.
  split; [vm_compute; reflexivity|].
  let v := eval cbv [map_project obj map fst snd] in map_project in
  match v with
  | PDict ?d =>
      edestruct (plugin_requirements_ignore_the_framework d)
        as (lines & Hl & Hp); [reflexivity | reflexivity |]
  end.
  exists lines. split; [exact Hl|].
  apply (Hp "MapView"); [left|].
  exists map_view. split; [right; left | reflexivity].
Defined.

End requirements.
(** ** A widget that cannot be generated *)

Section export_fails.
Import BaseGenerator.

Lemma returns_bind_false {A B} (o : outcome A) (f : A -> outcome B) :
  (forall a, o = Ret a -> returns (f a) = false) -> returns (o ≫= f) = false.
Proof. destruct o; cbn [mbind outcome_bind]; [by auto | done]. Qed.

Ltac past_bind :=
  apply returns_bind_false; let E := fresh "E" in intros ? E.

(** Every widget has its id among the resolved names. *)
Lemma resolve_loop_keys ws : forall nc acc st,
  for_each resolve_widget ws (nc, acc) = Ret st ->
  (forall k, khas k acc = true -> khas k (snd st) = true)
  /\ forall w, w ∈ ws ->
       exists id, py_get w "id" (PStr "") = Ret id
                  /\ kin id (snd st) = Ret true.
Proof.
  induction ws as [|w ws IH]; intros nc acc st; cbn [for_each].
  - intros [= <-]. split; [done|]. intros w H. by apply elem_of_nil in H.
  - destruct (resolve_widget (nc, acc) w) as [st1|] eqn:E; [|done].
    cbn [mbind outcome_bind].
    destruct (resolve_widget_step _ _ _ _ E) as (b & id & _ & Hid & Hh & ->).
    intros H. destruct (IH _ _ _ H) as [Hkeep Hall]. split.
    + intros k Hk. by apply Hkeep, khas_kset_raw_keeps.
    + intros w' Hw'. apply elem_of_cons in Hw' as [->|Hw']; [|by apply Hall].
      exists id. split; [done|]. unfold kin. rewrite Hh. f_equal.
      by apply Hkeep, khas_kset_raw_same.
Qed.

(** The loop of [generate_class_definition], which has the same text in
    both generators, stops at a widget whose code raises. *)
Lemma widget_loop_fails (widget_code : pyval -> string -> outcome string)
    (var_names : kdict string) w ws :
  w ∈ ws ->
  (exists id, py_get w "id" (PStr "") = Ret id
              /\ kin id var_names = Ret true) ->
  returns (widget_code w "self") = false ->
  forall code,
    returns
      (for_each (fun code widget =>
                   widget_id ← py_get widget "id" (PStr "");
                   known ← kin widget_id var_names;
                   if known : bool then
                     var_name ← kgetitem widget_id var_names;
                     widget_code ← widget_code widget "self";
                     let indented_code := format_code widget_code 2 in
                     Ret (code ++ [""; indented_code])
                   else Ret code) ws code) = false.
Proof.
  intros Hw (id & Hid & Hk) Hf. induction ws as [|w' ws IH]; intros code.
  - by apply elem_of_nil in Hw.
  - cbn [for_each]. apply elem_of_cons in Hw as [<-|Hw].
    + rewrite Hid. cbn [mbind outcome_bind]. rewrite Hk.
      cbn [mbind outcome_bind]. destruct (kgetitem id var_names); [|done].
      cbn [mbind outcome_bind].
      destruct (widget_code w "self"); [discriminate Hf | done].
    + past_bind. by apply IH.
Qed.

Lemma unpack4_wrong_length g :
  length g <> 4%nat -> unpack4 (PList g) = Raise ValueError.
Proof.
  intros H. unfold unpack4. cbn [py_iter mbind outcome_bind].
  by destruct g as [|x [|y [|width [|height [|extra g]]]]].
Qed.

Ltac to_the_geometry Hp Hg Hl :=
  repeat first
    [ progress cbn [py_get mbind outcome_bind]
    | rewrite Hp
    | rewrite Hg
    | by (try unfold generate_geometry_code;
          rewrite (unpack4_wrong_length _ Hl))
    | past_bind ].

Lemma pyqt6_widget_code_fails wd p g parent :
  dget "properties" wd = Some (PDict p) ->
  dget "geometry" p = Some (PList g) -> length g <> 4%nat ->
  returns (PyQt6Generator.generate_widget_code (PDict wd) parent) = false.
Proof.
  intros Hp Hg Hl. unfold PyQt6Generator.generate_widget_code.
  to_the_geometry Hp Hg Hl.
Qed.

Lemma tkinter_widget_code_fails wd p g parent :
  dget "properties" wd = Some (PDict p) ->
  dget "geometry" p = Some (PList g) -> length g <> 4%nat ->
  returns (TkinterGenerator.generate_widget_code (PDict wd) parent) = false.
Proof.
  intros Hp Hg Hl. unfold TkinterGenerator.generate_widget_code.
  to_the_geometry Hp Hg Hl.
Qed.

(** X20: one widget whose geometry does not have four values stops the
    export: [generate_project] of neither generator returns files for a
    project that holds such a widget, whatever the other widgets are. *)
Theorem bad_geometry_stops_the_export (d wd p : dict) (ws g : list pyval)
    (order_types : list pyval -> list pyval)
    (order_classes : list string -> list string) :
  dget "widgets" d = Some (PList ws) ->
  PDict wd ∈ ws ->
  dget "properties" wd = Some (PDict p) ->
  dget "geometry" p = Some (PList g) ->
  length g <> 4%nat ->
  returns (generate_project (PyQt6Generator.instance order_types order_classes)
             (PDict d)) = false
  /\ returns (generate_project TkinterGenerator.instance (PDict d)) = false.
Proof.
  intros Hws Hw Hp Hg Hl. unfold generate_project.
  cbn [generate_main_file PyQt6Generator.instance TkinterGenerator.instance].
  split; past_bind; exfalso; revert E.
  - unfold PyQt6Generator.generate_main_file.
    cbn [py_get mbind outcome_bind]. rewrite Hws.
    destruct (as_str _); [|done]. cbn [mbind outcome_bind].
    destruct (resolve_variable_names (PList ws)) as [names|] eqn:En; [|done].
    cbn [mbind outcome_bind].
    destruct (PyQt6Generator.generate_imports _ _ _); [|done].
    cbn [mbind outcome_bind].
    assert (Hc : forall n mw,
              returns (PyQt6Generator.generate_class_definition n mw
                         (PList ws) names) = false).
    { intros n mw. unfold PyQt6Generator.generate_class_definition.
      do 4 past_bind. cbn [py_iter mbind outcome_bind]. past_bind.
      exfalso. revert E3.
      match goal with
      | |- for_each _ _ ?c = _ -> _ =>
          pose proof (widget_loop_fails PyQt6Generator.generate_widget_code
                        names (PDict wd) ws Hw) as Hloop
      end.
      unfold resolve_variable_names in En.
      cbn [py_iter mbind outcome_bind] in En.
      destruct (for_each resolve_widget ws (∅, [])) as [st|] eqn:Est;
        [|done]. injection En as <-.
      destruct (resolve_loop_keys _ _ _ _ Est) as [_ Hall].
      specialize (Hloop (Hall _ Hw)
                    (pyqt6_widget_code_fails wd p g "self" Hp Hg Hl)).
      intros E'. apply (f_equal returns) in E'. by rewrite Hloop in E'. }
    match goal with
    | |- context [PyQt6Generator.generate_class_definition ?n ?mw _ _] =>
        specialize (Hc n mw);
        destruct (PyQt6Generator.generate_class_definition n mw (PList ws)
                    names)
    end; done.
  - unfold TkinterGenerator.generate_main_file.
    cbn [py_get mbind outcome_bind]. rewrite Hws.
    destruct (as_str _); [|done]. cbn [mbind outcome_bind].
    destruct (resolve_variable_names (PList ws)) as [names|] eqn:En; [|done].
    cbn [mbind outcome_bind].
    destruct (TkinterGenerator.generate_imports _); [|done].
    cbn [mbind outcome_bind].
    assert (Hc : forall n mw,
              returns (TkinterGenerator.generate_class_definition n mw
                         (PList ws) names) = false).
    { intros n mw. unfold TkinterGenerator.generate_class_definition.
      do 10 past_bind. cbn [py_iter mbind outcome_bind]. past_bind.
      exfalso. revert E9.
      pose proof (widget_loop_fails TkinterGenerator.generate_widget_code
                    names (PDict wd) ws Hw) as Hloop.
      unfold resolve_variable_names in En.
      cbn [py_iter mbind outcome_bind] in En.
      destruct (for_each resolve_widget ws (∅, [])) as [st|] eqn:Est;
        [|done]. injection En as <-.
      destruct (resolve_loop_keys _ _ _ _ Est) as [_ Hall].
      specialize (Hloop (Hall _ Hw)
                    (tkinter_widget_code_fails wd p g "self" Hp Hg Hl)).
      intros E'. apply (f_equal returns) in E'. by rewrite Hloop in E'. }
    match goal with
    | |- context [TkinterGenerator.generate_class_definition ?n ?mw _ _] =>
        specialize (Hc n mw);
        destruct (TkinterGenerator.generate_class_definition n mw (PList ws)
                    names)
    end; done.
Qed.

Lemma bad_geometry_stops_the_export_witness :
  ProjectManager.validate_project_data (PDict short_label_project) = true
  /\ returns (generate_project (PyQt6Generator.instance id id)
                (PDict short_label_project)) = false
  /\ returns (generate_project TkinterGenerator.instance
                (PDict short_label_project)) = false.
Proof.
  split; [reflexivity|].
  apply (bad_geometry_stops_the_export short_label_project short_label
           short_label_properties
           [named_widget "widget_2" "ok"; PDict short_label]
           [PInt 10; PInt 10; PInt 80] id id);
    [reflexivity | right; left | reflexivity | reflexivity | simpl; lia].
Defined.

End export_fails.
